(** * number_sorter.py: read numbers from a text file, sort them, write them back

    A shallow embedding of [number_sorter.py] and a proof development about
    its four functions [read_numbers_from_file], [sort_numbers],
    [write_numbers_to_file] and [main].

    - Python's [float] is an IEEE 754 binary64 value; it is embedded as
      [spec_float] of the standard library with precision 53 and maximal
      exponent 1024, comparisons being [SFltb], [SFleb] and [SFeqb].
    - Text is a [string] whose characters stand for the code points
      U+0000 .. U+00FF.
    - Exceptions are an inductive type and fallible code returns a [result].
    - The file system and standard output are threaded through [main] by a
      small state and exception monad.
    - The built-in [sorted] is embedded as the stable insertion sort, which
      is the built-in on numbers without NaN. *)

From Stdlib Require Import ZArith Ascii String List Sorted Permutation.
From Stdlib Require Import SpecFloat DecimalString.
From Stdlib Require Import DecimalPos DecimalFacts.
From stdpp Require Import base tactics option list gmap strings.

Local Open Scope string_scope.
Local Open Scope list_scope.
Local Open Scope Z_scope.

(* ===================================================================== *)
(** * Python floats *)
(* ===================================================================== *)

Module PyFloat.

Definition prec : Z := 53.
Definition emax : Z := 1024.

Definition float : Type := spec_float.

Definition nan : float := S754_nan.
Definition inf : float := S754_infinity false.
Definition neg_inf : float := S754_infinity true.

(** [a < b], [a <= b] and [a == b] on floats. *)
Definition lt (a b : float) : bool := SFltb a b.
Definition le (a b : float) : bool := SFleb a b.
Definition eq (a b : float) : bool := SFeqb a b.

Definition is_nan (x : float) : bool :=
  match x with S754_nan => true | _ => false end.

Definition is_finite (x : float) : bool :=
  match x with S754_zero _ | S754_finite _ _ _ => true | _ => false end.

(** [float.is_integer()]: finite and without fractional part. *)
Definition is_integer (x : float) : bool :=
  match x with
  | S754_zero _ => true
  | S754_finite _ m e =>
      if 0 <=? e then true else Z.pos m mod 2 ^ (- e) =? 0
  | S754_infinity _ | S754_nan => false
  end.

(** The value [m * 10^k], with sign [s], rounded to the nearest binary64
    (ties to even); overflow gives an infinity and underflow a zero. *)
Definition of_decimal (s : bool) (m : Z) (k : Z) : float :=
  match m with
  | Z.pos p =>
      if 0 <=? k
      then binary_normalize prec emax
             (if s then - (m * 10 ^ k) else m * 10 ^ k) 0 s
      else
        let '(q, e, l) :=
          SFdiv_core_binary prec emax m 0 (10 ^ (- k)) 0 in
        binary_round_aux prec emax s q e l
  | _ => S754_zero s
  end.

End PyFloat.

Abbreviation float := PyFloat.float.

(* ===================================================================== *)
(** * Python text: [str.strip], [str(int)], [float(str)], [repr(float)] *)
(* ===================================================================== *)

Module PyStr.

Definition code (c : ascii) : Z := Z.of_N (N_of_ascii c).

Definition LF : ascii := ascii_of_nat 10.
Definition CR : ascii := ascii_of_nat 13.

(** [str.isspace] on the code points below 256. *)
Definition isspace (c : ascii) : bool :=
  let n := code c in
  ((9 <=? n) && (n <=? 13)) || ((28 <=? n) && (n <=? 32))
  || (n =? 133) || (n =? 160).

Definition isdigit (c : ascii) : bool :=
  let n := code c in (48 <=? n) && (n <=? 57).

Definition digit_value (c : ascii) : Z := code c - 48.

Definition lower (c : ascii) : ascii :=
  let n := code c in
  if (65 <=? n) && (n <=? 90) then ascii_of_N (Z.to_N (n + 32)) else c.

Fixpoint lstrip (s : string) : string :=
  match s with
  | String c s' => if isspace c then lstrip s' else s
  | EmptyString => EmptyString
  end.

Definition rstrip (s : string) : string :=
  String.rev (lstrip (String.rev s)).

(** [s.strip()] *)
Definition strip (s : string) : string := rstrip (lstrip s).

(** [str(z)] for an [int]. *)
Definition of_int (z : Z) : string := NilZero.string_of_int (Z.to_int z).

(** The lines a text file yields when it is iterated over, with universal
    newlines: a line ends behind ["\n"], ["\r\n"] or ["\r"], each of them
    read as ["\n"]; a last line without terminator is yielded as it is. *)
Fixpoint lines_from (cur : string) (s : string) : list string :=
  match s with
  | EmptyString => if String.eqb cur "" then [] else [String.rev cur]
  | String c s' =>
      if Ascii.eqb c LF then
        String.rev (String LF cur) :: lines_from "" s'
      else if Ascii.eqb c CR then
        match s' with
        | String c' s'' =>
            if Ascii.eqb c' LF
            then String.rev (String LF cur) :: lines_from "" s''
            else String.rev (String LF cur) :: lines_from "" s'
        | EmptyString => [String.rev (String LF cur)]
        end
      else lines_from (String c cur) s'
  end.

Definition readlines (content : string) : list string :=
  lines_from "" content.

(** ** [float(s)] *)

Fixpoint span_digits (s : list ascii) : list ascii * list ascii :=
  match s with
  | c :: s' =>
      if isdigit c
      then let '(d, r) := span_digits s' in (c :: d, r)
      else ([], s)
  | [] => ([], [])
  end.

Definition digits_value (d : list ascii) : Z :=
  fold_left (λ acc c, 10 * acc + digit_value c) d 0.

(** An underscore is allowed only between two digits. *)
Fixpoint underscores_ok (prev : option ascii) (s : list ascii) : bool :=
  match s with
  | [] => true
  | c :: s' =>
      if Ascii.eqb c "_" then
        match prev, s' with
        | Some p, n :: _ => isdigit p && isdigit n && underscores_ok (Some c) s'
        | _, _ => false
        end
      else underscores_ok (Some c) s'
  end.

Definition remove_underscores (s : list ascii) : list ascii :=
  filter (λ c, c ≠ "_"%char) s.

Definition split_sign (s : list ascii) : bool * list ascii :=
  match s with
  | c :: s' =>
      if Ascii.eqb c "-" then (true, s')
      else if Ascii.eqb c "+" then (false, s')
      else (false, s)
  | [] => (false, [])
  end.

(** [("e" | "E") [sign] digitpart], up to the end of the text. *)
Definition parse_exponent (s : list ascii) : option Z :=
  match s with
  | [] => Some 0
  | c :: s' =>
      if Ascii.eqb (lower c) "e" then
        let '(neg, s'') := split_sign s' in
        match span_digits s'' with
        | ((_ :: _) as d, []) =>
            Some (if neg then - digits_value d else digits_value d)
        | _ => None
        end
      else None
  end.

(** [[digitpart] "." digitpart | digitpart ["."]], then the exponent. *)
Definition parse_number (neg : bool) (s : list ascii) : option float :=
  let '(ip, r) := span_digits s in
  let '(fp, r') :=
    match r with
    | c :: r1 => if Ascii.eqb c "." then span_digits r1 else ([], r)
    | [] => ([], [])
    end in
  match ip ++ fp with
  | [] => None
  | (_ :: _) as ds =>
      ex ← parse_exponent r';
      Some (PyFloat.of_decimal neg (digits_value ds)
              (ex - Z.of_nat (length fp)))
  end.

Definition parse_float (s : list ascii) : option float :=
  let '(neg, r) := split_sign s in
  let w := string_of_list_ascii (map lower r) in
  if String.eqb w "inf" || String.eqb w "infinity"
  then Some (S754_infinity neg)
  else if String.eqb w "nan" then Some S754_nan
  else parse_number neg r.

(** [float(s)]: [None] stands for the [ValueError] it raises. *)
Definition to_float (s : string) : option float :=
  let t := list_ascii_of_string (strip s) in
  if underscores_ok None t
  then parse_float (remove_underscores t)
  else None.

(** ** [repr(x)] for a float

    The digits are the shortest decimal that [float] reads back as [x],
    and the nearest to [x] among the shortest; the layout is that of
    format code ['r']: exponent notation when the decimal point falls
    outside of [-4 < decpt <= 16]. *)

Definition same_float (a b : float) : bool :=
  match a, b with
  | S754_zero s, S754_zero s' => Bool.eqb s s'
  | S754_infinity s, S754_infinity s' => Bool.eqb s s'
  | S754_nan, S754_nan => true
  | S754_finite s m e, S754_finite s' m' e' =>
      Bool.eqb s s' && Pos.eqb m m' && Z.eqb e e'
  | _, _ => false
  end.

(** The number of zeros between the decimal point and the first
    significant digit of [num / den < 1]. *)
Fixpoint leading_zeros (fuel : nat) (num den : Z) (j : Z) : Z :=
  match fuel with
  | O => j
  | S fuel' =>
      if den <=? num * 10 then j
      else leading_zeros fuel' (num * 10) den (j + 1)
  end.

(** [decpt] with [10^(decpt-1) <= num/den < 10^decpt]. *)
Definition decimal_point (num den : Z) (e : Z) : Z :=
  if den <=? num
  then Z.of_nat (String.length (of_int (num / den)))
  else - leading_zeros (Z.to_nat (- e)) num den 0.

(** The decimal with [n] digits that reads back as the float [m * 2^e]
    and is nearest to it, as an integer [c] standing for
    [c * 10^(decpt - n)]; at [force] the nearest one is taken anyway. *)
Definition candidate (force : bool) (m : positive) (e : Z)
    (num den decpt : Z) (n : Z) : option Z :=
  let x := S754_finite false m e in
  let sh := n - decpt in
  let N := if 0 <=? sh then num * 10 ^ sh else num in
  let D := if 0 <=? sh then den else den * 10 ^ (- sh) in
  let c := N / D in
  let r := N mod D in
  let lo_ok := same_float (PyFloat.of_decimal false c (- sh)) x in
  let hi_ok := same_float (PyFloat.of_decimal false (c + 1) (- sh)) x in
  let nearest :=
    match 2 * r ?= D with
    | Lt => c
    | Gt => c + 1
    | Eq => if Z.even c then c else c + 1
    end in
  if lo_ok && hi_ok then Some nearest
  else if lo_ok then Some c
  else if hi_ok then Some (c + 1)
  else if force then Some nearest
  else None.

Fixpoint shortest (fuel : nat) (m : positive) (e : Z)
    (num den decpt : Z) (n : Z) : Z * Z :=
  match fuel with
  | O =>
      (default 0 (candidate true m e num den decpt n), n)
  | S fuel' =>
      match candidate false m e num den decpt n with
      | Some c => (c, n)
      | None => shortest fuel' m e num den decpt (n + 1)
      end
  end.

Fixpoint strip_zeros_rev (d : list ascii) : list ascii :=
  match d with
  | c :: d' => if Ascii.eqb c "0" then strip_zeros_rev d' else d
  | [] => []
  end.

(** The digits of [repr] and the position of the decimal point: the
    float [m * 2^e] prints as [0.d1 d2 ... * 10^decpt]. *)
Definition repr_digits (m : positive) (e : Z) : list ascii * Z :=
  let num := if 0 <=? e then Z.pos m * 2 ^ e else Z.pos m in
  let den := if 0 <=? e then 1 else 2 ^ (- e) in
  let decpt := decimal_point num den e in
  let '(c, n) := shortest 16 m e num den decpt 1 in
  let ds := list_ascii_of_string (of_int c) in
  (rev (strip_zeros_rev (rev ds)), decpt - n + Z.of_nat (length ds)).

Definition zeros (n : Z) : list ascii := replicate (Z.to_nat n) "0"%char.

(** Positional layout; [add_dot_0] appends [".0"] to a whole number. *)
Definition positional (ds : list ascii) (decpt : Z) : list ascii :=
  if decpt <=? 0 then
    "0"%char :: "."%char :: zeros (- decpt) ++ ds
  else if Z.of_nat (length ds) <=? decpt then
    ds ++ zeros (decpt - Z.of_nat (length ds)) ++ ["."%char; "0"%char]
  else
    take (Z.to_nat decpt) ds ++ "."%char :: drop (Z.to_nat decpt) ds.

Definition exponent_text (ex : Z) : list ascii :=
  let a := list_ascii_of_string (of_int (Z.abs ex)) in
  (if ex <? 0 then "-"%char else "+"%char)
    :: (if Z.abs ex <? 10 then "0"%char :: a else a).

(** Exponent layout: one digit, the others behind a point, the exponent
    with its sign and two digits at least. *)
Definition exponential (ds : list ascii) (decpt : Z) : list ascii :=
  match ds with
  | [] => []
  | [d] => d :: "e"%char :: exponent_text (decpt - 1)
  | d :: ds' => d :: "."%char :: ds' ++ "e"%char :: exponent_text (decpt - 1)
  end.

Definition use_exp (decpt : Z) : bool := (decpt <=? -4) || (16 <? decpt).

Definition repr_finite (m : positive) (e : Z) : list ascii :=
  let '(ds, decpt) := repr_digits m e in
  if use_exp decpt then exponential ds decpt else positional ds decpt.

Definition repr (x : float) : string :=
  match x with
  | S754_nan => "nan"
  | S754_infinity s => if s then "-inf" else "inf"
  | S754_zero s => if s then "-0.0" else "0.0"
  | S754_finite s m e =>
      let t := string_of_list_ascii (repr_finite m e) in
      if s then String "-" t else t
  end.

(** [str(n)] for a length. *)
Definition of_nat (n : nat) : string := of_int (Z.of_nat n).

End PyStr.

(* ===================================================================== *)
(** * Exceptions, files and standard output *)
(* ===================================================================== *)

(** The exceptions the program can meet, each with the text of [str(e)]. *)
Inductive exn : Type :=
  | FileNotFoundError (msg : string)
  | PermissionError (msg : string)
  | IsADirectoryError (msg : string)
  | OSError (msg : string)
  | ValueError (msg : string)
  | OverflowError (msg : string)
  | IndexError (msg : string)
  | SystemExit (code : Z).

Definition exn_str (e : exn) : string :=
  match e with
  | FileNotFoundError msg | PermissionError msg | IsADirectoryError msg
  | OSError msg | ValueError msg | OverflowError msg | IndexError msg => msg
  | SystemExit code => PyStr.of_int code
  end.

Inductive result (A : Type) : Type :=
  | Ok (a : A)
  | Raise (e : exn).
Arguments Ok {A} a.
Arguments Raise {A} e.

(** Why the operating system refuses to open a file. *)
Inductive errno : Type := ENOENT | EACCES | EISDIR | ENOSPC.

(** The exception [open] raises for an error number; the file name is
    shown between single quotes, which is its [repr] when it holds no
    quote, backslash or unprintable character. *)
Definition os_error (e : errno) (filename : string) : exn :=
  let name := "'" +:+ filename +:+ "'" in
  match e with
  | ENOENT =>
      FileNotFoundError ("[Errno 2] No such file or directory: " +:+ name)
  | EACCES => PermissionError ("[Errno 13] Permission denied: " +:+ name)
  | EISDIR => IsADirectoryError ("[Errno 21] Is a directory: " +:+ name)
  | ENOSPC => OSError ("[Errno 28] No space left on device: " +:+ name)
  end.

(** The files by path, with the paths that cannot be opened for reading
    or for writing (no permission, a directory, no parent directory, a
    full disk) and the error number the attempt gives. *)
Record filesystem : Type := {
  files : gmap string string;
  read_fault : gmap string errno;
  write_fault : gmap string errno;
}.

(** [open(filename, 'r')], giving the text of the file. *)
Definition open_read (fs : filesystem) (filename : string) : result string :=
  match read_fault fs !! filename with
  | Some e => Raise (os_error e filename)
  | None =>
      match files fs !! filename with
      | Some content => Ok content
      | None => Raise (os_error ENOENT filename)
      end
  end.

(** [open(filename, 'w')]: the file is created, or emptied. *)
Definition open_write (fs : filesystem) (filename : string)
    : result filesystem :=
  match write_fault fs !! filename with
  | Some e => Raise (os_error e filename)
  | None =>
      Ok {| files := <[filename := ""]> (files fs);
            read_fault := read_fault fs;
            write_fault := write_fault fs |}
  end.

(** [file.write(text)] on a file opened for writing. *)
Definition file_write (fs : filesystem) (filename text : string)
    : filesystem :=
  {| files := <[filename := default "" (files fs !! filename) +:+ text]>
                (files fs);
     read_fault := read_fault fs;
     write_fault := write_fault fs |}.

Record world : Type := {
  fs : filesystem;
  stdout : list string;
}.

(** ** The monad of the driver: state [world], exceptions [exn] *)

Definition M (A : Type) : Type := world → result A * world.

Definition ret {A} (a : A) : M A := λ w, (Ok a, w).

Definition bind {A B} (m : M A) (f : A → M B) : M B :=
  λ w, match m w with
       | (Ok a, w') => f a w'
       | (Raise e, w') => (Raise e, w')
       end.

Definition raise {A} (e : exn) : M A := λ w, (Raise e, w).

Definition lift {A} (r : result A) : M A := λ w, (r, w).

Declare Scope py_scope.
Delimit Scope py_scope with py.
Notation "x <- m ;; k" := (bind m (λ x, k))
  (at level 100, m at next level, k at level 200, right associativity)
  : py_scope.
Notation "m ;; k" := (bind m (λ _, k))
  (at level 100, k at level 200, right associativity) : py_scope.

(** [try: body except ...: handler]: [handler e] is [None] for an
    exception that no [except] clause names. *)
Definition try_except {A} (body : M A) (handler : exn → option (M A))
    : M A :=
  λ w, match body w with
       | (Ok a, w') => (Ok a, w')
       | (Raise e, w') =>
           match handler e with
           | Some h => h w'
           | None => (Raise e, w')
           end
       end.

(** [print(line)] *)
Definition print (line : string) : M unit :=
  λ w, (Ok tt, {| fs := fs w; stdout := stdout w ++ [line] |}).

(** A call that reads the file system and leaves it as it is. *)
Definition reading {A} (f : filesystem → result A) : M A :=
  λ w, (f (fs w), w).

(** [file.write(text)] as a step of the program. *)
Definition write (filename text : string) : M unit :=
  λ w, (Ok tt, {| fs := file_write (fs w) filename text;
                  stdout := stdout w |}).

(** [sys.exit(code)] *)
Definition sys_exit {A} (code : Z) : M A := raise (SystemExit code).

(** [l[i]], a negative [i] counting from the end. *)
Definition getitem {A} (l : list A) (i : Z) : result A :=
  let j := if i <? 0 then i + Z.of_nat (length l) else i in
  if j <? 0 then Raise (IndexError "list index out of range")
  else match l !! Z.to_nat j with
       | Some a => Ok a
       | None => Raise (IndexError "list index out of range")
       end.

(** [int(x)] for a float: truncation towards zero. *)
Definition int_of_float (x : float) : result Z :=
  match x with
  | S754_zero _ => Ok 0
  | S754_finite s m e =>
      let a := if 0 <=? e then Z.pos m * 2 ^ e else Z.pos m / 2 ^ (- e) in
      Ok (if s then - a else a)
  | S754_infinity _ =>
      Raise (OverflowError "cannot convert float infinity to integer")
  | S754_nan => Raise (ValueError "cannot convert float NaN to integer")
  end.

(* ===================================================================== *)
(** * The built-in [sorted] *)
(* ===================================================================== *)

(** [sorted] is a stable sort that compares elements with [<] only.  It is
    embedded as the stable insertion sort: an element is placed in front of
    the already sorted rest, behind the elements that are smaller than it.
    Wherever [<] is a strict weak order on the elements (floats without
    NaN) there is one list in ascending order that keeps equal elements
    in their order (see [stable_sorted_unique]), so this is the list that
    [sorted] returns.  With a NaN among the elements the result of the
    built-in depends on the comparisons that its algorithm makes, and it
    is not this list in general: of such a result the statements below
    use only that it holds the elements of the input, each as often, and
    that a list in which no element is smaller than its predecessor is
    returned as it is. *)
Fixpoint insert (x : float) (l : list float) : list float :=
  match l with
  | [] => [x]
  | y :: l' => if PyFloat.lt y x then y :: insert x l' else x :: y :: l'
  end.

Fixpoint sorted (l : list float) : list float :=
  match l with
  | [] => []
  | x :: l' => insert x (sorted l')
  end.

(** [sort_numbers(numbers)]: [return sorted(numbers)]. *)
Definition sort_numbers (numbers : list float) : list float :=
  sorted numbers.

(** Non-descending order: every adjacent pair [(a, b)] satisfies [a <= b]. *)
Definition non_descending (l : list float) : Prop :=
  ∀ (i : nat) (a b : float),
    l !! i = Some a → l !! S i = Some b → PyFloat.le a b = true.

(** No element is smaller than its predecessor. *)
Definition is_run (l : list float) : Prop :=
  Sorted (λ a b, PyFloat.lt b a = false) l.

Definition nan_free (l : list float) : Prop :=
  Forall (λ x, PyFloat.is_nan x = false) l.

(* ===================================================================== *)
(** * The program *)
(* ===================================================================== *)

Local Open Scope py_scope.

(** The loop of [read_numbers_from_file] over [enumerate(file, 1)]. *)
Fixpoint read_loop (line_num : Z) (lines : list string)
    (numbers : list float) : result (list float) :=
  match lines with
  | [] => Ok numbers
  | line :: rest =>
      let line := PyStr.strip line in
      if negb (String.eqb line "") then
        match PyStr.to_float line with
        | Some number => read_loop (line_num + 1) rest (numbers ++ [number])
        | None =>
            Raise (ValueError ("Invalid number '" +:+ line +:+ "' on line "
                               +:+ PyStr.of_int line_num))
        end
      else read_loop (line_num + 1) rest numbers
  end.

Definition read_numbers_from_file (fs : filesystem) (filename : string)
    : result (list float) :=
  let numbers := [] in
  let body :=
    match open_read fs filename with
    | Ok content => read_loop 1 (PyStr.readlines content) numbers
    | Raise e => Raise e
    end in
  match body with
  | Raise (FileNotFoundError _) =>
      Raise (FileNotFoundError ("File '" +:+ filename +:+ "' not found"))
  | r => r
  end.

(** The text [write_numbers_to_file] writes for one number, without the
    line end. *)
Definition format_number (number : float) : result string :=
  if PyFloat.is_integer number
  then match int_of_float number with
       | Ok z => Ok (PyStr.of_int z)
       | Raise e => Raise e
       end
  else Ok (PyStr.repr number).

Fixpoint write_loop (filename : string) (numbers : list float) : M unit :=
  match numbers with
  | [] => ret tt
  | number :: rest =>
      text <- lift (format_number number);;
      write filename (text +:+ String PyStr.LF "");;
      write_loop filename rest
  end.

Definition write_numbers_to_file (numbers : list float) (filename : string)
    : M unit :=
  λ w, match open_write (fs w) filename with
       | Ok fs' => write_loop filename numbers {| fs := fs'; stdout := stdout w |}
       | Raise e => (Raise e, w)
       end.

(** The exceptions that [except (FileNotFoundError, ValueError)] names. *)
Definition handled (e : exn) : bool :=
  match e with
  | FileNotFoundError _ | ValueError _ => true
  | _ => false
  end.

Definition main (argv : list string) : M unit :=
  if negb (length argv =? 3)%nat then
    print "Usage: python number_sorter.py <input_file> <output_file>";;
    sys_exit 1
  else
    input_file <- lift (getitem argv 1);;
    output_file <- lift (getitem argv 2);;
    try_except
      (print ("Reading numbers from " +:+ input_file +:+ "...");;
       numbers <- reading (λ fs, read_numbers_from_file fs input_file);;
       print ("Found " +:+ PyStr.of_nat (length numbers) +:+ " numbers");;
       print "Sorting numbers...";;
       let sorted_numbers := sort_numbers numbers in
       print ("Writing sorted numbers to " +:+ output_file +:+ "...");;
       write_numbers_to_file sorted_numbers output_file;;
       print "Sorting completed successfully!";;
       smallest <- lift (getitem sorted_numbers 0);;
       print ("Smallest number: " +:+ PyStr.repr smallest);;
       largest <- lift (getitem sorted_numbers (-1));;
       print ("Largest number: " +:+ PyStr.repr largest))
      (λ e, if handled e
            then Some (print ("Error: " +:+ exn_str e);; sys_exit 1)
            else None).

(** How the interpreter ends: the exit status is 0 when [main] returns,
    the code of [sys.exit], and 1 behind the traceback of an exception
    that nothing caught. *)
Inductive ending : Type :=
  | Returned
  | Exited (code : Z)
  | Uncaught (e : exn).

Definition ending_of (r : result unit) : ending :=
  match r with
  | Ok _ => Returned
  | Raise (SystemExit code) => Exited code
  | Raise e => Uncaught e
  end.

Definition exit_status (en : ending) : Z :=
  match en with
  | Returned => 0
  | Exited code => code
  | Uncaught _ => 1
  end.

(** Running [python number_sorter.py ...] with [sys.argv = argv]. *)
Definition run (argv : list string) (fs0 : filesystem) : ending * world :=
  let '(r, w) := main argv {| fs := fs0; stdout := [] |} in
  (ending_of r, w).

(* ===================================================================== *)
(** * Notions the statements use *)
(* ===================================================================== *)

(** The non-blank lines of a file, stripped, in file order. *)
Definition non_blank_lines (lines : list string) : list string :=
  filter (λ t, t ≠ "") (PyStr.strip <$> lines).

(** A line of the input that [float] refuses. *)
Definition malformed (line : string) : Prop :=
  PyStr.strip line ≠ "" ∧ PyStr.to_float (PyStr.strip line) = None.

(** A line of the input that is blank or that [float] accepts. *)
Definition well_formed (line : string) : Prop :=
  PyStr.strip line = "" ∨ is_Some (PyStr.to_float (PyStr.strip line)).

(** The message of the [ValueError] for the text [t] on line [n]. *)
Definition invalid_number (t : string) (n : Z) : string :=
  "Invalid number '" +:+ t +:+ "' on line " +:+ PyStr.of_int n.

(** The text of a file made of the given lines, each ended by ["\n"]. *)
Fixpoint render_lines (texts : list string) : string :=
  match texts with
  | [] => ""
  | t :: texts' => t +:+ String PyStr.LF "" +:+ render_lines texts'
  end.

(** Digits with at most one decimal point between them. *)
Fixpoint digits_and_point (seen_point : bool) (s : list ascii) : bool :=
  match s with
  | [] => true
  | c :: s' =>
      if PyStr.isdigit c then digits_and_point seen_point s'
      else if Ascii.eqb c "." then negb seen_point && digits_and_point true s'
      else false
  end.

(** Plain decimal form: an optional minus sign, then digits with at most
    one decimal point; no exponent and no letter. *)
Definition plain_decimal (t : string) : bool :=
  match list_ascii_of_string t with
  | c :: s => if Ascii.eqb c "-" then digits_and_point false s
              else digits_and_point false (c :: s)
  | [] => false
  end.

(** A decimal digit. *)
Definition digit (c : ascii) : Prop := PyStr.isdigit c = true.



(** ** Floats and files of the examples *)

(** The float that Python reads from a literal. *)
Definition literal (t : string) : float :=
  default PyFloat.nan (PyStr.to_float t).

Definition float_1 : float := Eval vm_compute in literal "1.0".
Definition float_10 : float := Eval vm_compute in literal "10.0".
Definition float_20 : float := Eval vm_compute in literal "20.0".
Definition float_20_5 : float := Eval vm_compute in literal "20.5".
Definition float_30 : float := Eval vm_compute in literal "30.0".
Definition float_40_7 : float := Eval vm_compute in literal "40.7".
Definition float_1000 : float := Eval vm_compute in literal "1000.0".
Definition float_100000 : float := Eval vm_compute in literal "100000.0".
Definition float_1e_5 : float := Eval vm_compute in literal "0.00001".

(** A file system with one file, in which every path can be written. *)
Definition one_file (filename content : string) : filesystem :=
  {| files := {[filename := content]};
     read_fault := ∅;
     write_fault := ∅ |}.

(** The same, except that [denied] cannot be opened for writing. *)
Definition one_file_denying (filename content denied : string)
    : filesystem :=
  {| files := {[filename := content]};
     read_fault := ∅;
     write_fault := {[denied := EACCES]} |}.

(** ** Notions of the further statements *)

(** The text of a number in the output file; [format_number] never
    raises (see [format_number_total]). *)
Definition number_text (number : float) : string :=
  match format_number number with
  | Ok text => text
  | Raise _ => ""
  end.

(** The text of a file made of the given lines, each ended by
    [terminator]. *)
Fixpoint render_with (terminator : string) (texts : list string) : string :=
  match texts with
  | [] => ""
  | t :: texts' => t +:+ terminator +:+ render_with terminator texts'
  end.

Definition CRLF : string := String PyStr.CR (String PyStr.LF "").

(** A text without line end in it. *)
Definition newline_free (t : string) : Prop :=
  Forall (λ c, c ≠ PyStr.LF ∧ c ≠ PyStr.CR) (list_ascii_of_string t).

(** The lines [main] prints up to the writing of the output file. *)
Definition progress_lines (input_file output_file : string) (count : nat)
    : list string :=
  ["Reading numbers from " +:+ input_file +:+ "...";
   "Found " +:+ PyStr.of_nat count +:+ " numbers";
   "Sorting numbers...";
   "Writing sorted numbers to " +:+ output_file +:+ "..."].

(** The file system with the sorted numbers in the output file. *)
Definition with_output (fs0 : filesystem) (output_file : string)
    (sorted_numbers : list float) : filesystem :=
  {| files := <[output_file := render_lines (number_text <$> sorted_numbers)]>
                (files fs0);
     read_fault := read_fault fs0;
     write_fault := write_fault fs0 |}.

(** The characters of the text of a number: the digits, the decimal
    point, the signs, the ["e"] of the exponent and the letters of
    ["inf"] and ["nan"]. *)
Definition number_char (c : ascii) : bool :=
  PyStr.isdigit c
  || existsb (Ascii.eqb c) (list_ascii_of_string ".e+-infa").

(** A character of the text of a number. *)
Definition nchar (c : ascii) : Prop := number_char c = true.

(** A binary64 value: a finite float has a canonical mantissa and its
    exponent in range, as every float of Python has. *)
Definition binary64 (x : float) : Prop :=
  valid_binary PyFloat.prec PyFloat.emax x = true.

(** A whole number: a binary64 value without fractional part. *)
Definition whole (x : float) : Prop :=
  binary64 x ∧ PyFloat.is_integer x = true.

(** The float with the sign of a zero dropped: [-0.0] is written as
    ["0"], which reads as [0.0]. *)
Definition unsigned_zero (x : float) : float :=
  match x with
  | S754_zero _ => S754_zero false
  | _ => x
  end.

(** ** Notions of rounding and of the numbers read back *)

(** The record [mrs] holds the quotient [V / D] with its round bit (the
    fraction is a half at least) and its sticky bit (the fraction is
    neither zero nor a half). *)
Definition truncates (V D : Z) (mrs : shr_record) : Prop :=
  shr_m mrs = V / D
  ∧ shr_r mrs = (D <=? 2 * (V mod D))
  ∧ shr_s mrs = negb ((V mod D =? 0) || (2 * (V mod D) =? D)).

(** What [binary_round_aux] does behind its first shift: rounding to
    nearest, ties to even, a second shift for the carry, and the test of
    overflow. *)
Definition finish (sx : bool) (mrs : shr_record) (e : Z) : float :=
  let '(mrs', e') :=
    shr_fexp PyFloat.prec PyFloat.emax
      (round_nearest_even (shr_m mrs) (loc_of_shr_record mrs)) e loc_Exact in
  match shr_m mrs' with
  | Z0 => S754_zero sx
  | Z.pos m =>
      if e' <=? PyFloat.emax - PyFloat.prec
      then S754_finite sx m e' else S754_infinity sx
  | Z.neg _ => S754_nan
  end.

(** The least exponent of a float is [- bias]. *)
Definition bias : Z := 1074.

(** The ratio [N / D] lies below [2^L], and in the binade below [2^L]
    unless [L] is the least exponent; [mrs] is the quotient of the ratio
    by [2^(fexp L)], with its bits. *)
Definition located (N D L : Z) (mrs : shr_record) : Prop :=
  - bias ≤ L
  ∧ N * 2 ^ bias < D * 2 ^ (L + bias)
  ∧ (L = - bias ∨ D * 2 ^ (L - 1 + bias) ≤ N * 2 ^ bias)
  ∧ truncates (N * 2 ^ bias)
      (D * 2 ^ (fexp PyFloat.prec PyFloat.emax L + bias)) mrs.

(** The decimal [c * 10^k] as a ratio of integers. *)
Definition decimal_num (c k : Z) : Z := if 0 <=? k then c * 10 ^ k else c.
Definition decimal_den (k : Z) : Z := if 0 <=? k then 1 else 10 ^ (- k).

(** The same number: the same float, or two zeros, whose signs the
    comparison [==] does not tell apart. *)
Definition same_number (a b : float) : Prop :=
  a = b ∨ ∃ s s', a = S754_zero s ∧ b = S754_zero s'.

(** Runs [main] on arguments of the right number, up to the first call
    whose result the hypotheses give. *)
Ltac run_main :=
  unfold run, main; cbn;
  change (Z.to_nat 0) with 0%nat;
  change (Z.to_nat 1) with 1%nat;
  change (Z.to_nat 2) with 2%nat;
  unfold try_except, bind, print, lift, reading; cbn.

(* ===================================================================== *)
(** * Facts about the order of floats *)
(* ===================================================================== *)

Section FloatOrder.

Lemma SFcompare_swap (a b : float) :
  SFcompare b a = CompOpp <$> SFcompare a b.
Proof.
  destruct a as [[]|[]| |[] m1 e1], b as [[]|[]| |[] m2 e2]; simpl; try done.
  all: rewrite (Z.compare_antisym e1 e2).
  all: destruct (e1 ?= e2); simpl; try done.
  all: assert (Pos.compare_cont Eq m2 m1
               = CompOpp (Pos.compare_cont Eq m1 m2)) as ->
         by (by rewrite Pos.compare_cont_antisym).
  all: by destruct (Pos.compare_cont Eq m1 m2).
Qed.

Lemma SFcompare_not_nan (a b : float) :
  PyFloat.is_nan a = false → PyFloat.is_nan b = false →
  is_Some (SFcompare a b).
Proof.
  destruct a as [?|?| |[] ? ?], b as [?|?| |[] ? ?]; simpl; try done.
  all: eauto.
Qed.

(** [a < b] excludes [b < a]. *)
Lemma lt_asym (a b : float) :
  PyFloat.lt a b = true → PyFloat.lt b a = false.
Proof.
  unfold PyFloat.lt, SFltb. rewrite (SFcompare_swap a b).
  by destruct (SFcompare a b) as [[]|].
Qed.

(** [a <= b] excludes [b < a]. *)
Lemma le_not_gt (a b : float) :
  PyFloat.le a b = true → PyFloat.lt b a = false.
Proof.
  unfold PyFloat.le, PyFloat.lt, SFleb, SFltb. rewrite (SFcompare_swap a b).
  by destruct (SFcompare a b) as [[]|].
Qed.

(** Without NaN the order is total: [b < a] or [a <= b]. *)
Lemma not_gt_le (a b : float) :
  PyFloat.is_nan a = false → PyFloat.is_nan b = false →
  PyFloat.lt b a = false → PyFloat.le a b = true.
Proof.
  intros Ha Hb. destruct (SFcompare_not_nan a b Ha Hb) as [c Hc].
  unfold PyFloat.le, PyFloat.lt, SFleb, SFltb.
  rewrite (SFcompare_swap a b), Hc. by destruct c.
Qed.

End FloatOrder.

(* ===================================================================== *)
(** * The sorter *)
(* ===================================================================== *)

Section Sorter.

Implicit Types (x y : float) (l : list float).

Lemma insert_Permutation x l : insert x l ≡ₚ x :: l.
Proof.
  induction l as [|y l IH]; simpl; [done|].
  destruct (PyFloat.lt y x); [|done].
  rewrite IH. apply Permutation_swap.
Qed.

Lemma sorted_Permutation l : sorted l ≡ₚ l.
Proof.
  induction l as [|x l IH]; simpl; [done|].
  by rewrite insert_Permutation, IH.
Qed.

Lemma insert_HdRel (R : float → float → Prop) x y l :
  R y x → HdRel R y l → HdRel R y (insert x l).
Proof.
  intros Hyx Hl. destruct l as [|z l]; simpl; [by constructor|].
  inversion_clear Hl. destruct (PyFloat.lt z x); by constructor.
Qed.

Lemma insert_is_run x l : is_run l → is_run (insert x l).
Proof.
  unfold is_run. induction 1 as [|y l Hl IH Hy]; simpl.
  - by repeat constructor.
  - destruct (PyFloat.lt y x) eqn:Hlt.
    + constructor; [done|]. apply insert_HdRel; [|done]. by apply lt_asym.
    + constructor; [by constructor|]. by constructor.
Qed.

(** Whatever the floats are, no element of the result is smaller than
    the one before it. *)
Lemma sorted_is_run l : is_run (sorted l).
Proof.
  induction l as [|x l IH]; simpl; [constructor|]. by apply insert_is_run.
Qed.

(** Such a list is left as it is. *)
Lemma sorted_run_id l : is_run l → sorted l = l.
Proof.
  unfold is_run. induction 1 as [|x l Hl IH Hx]; simpl; [done|].
  rewrite IH. destruct Hx as [|y l' Hyx]; simpl; [done|]. by rewrite Hyx.
Qed.

Lemma Sorted_adjacent (R : float → float → Prop) l :
  Sorted R l →
  ∀ (i : nat) a b, l !! i = Some a → l !! S i = Some b → R a b.
Proof.
  induction 1 as [|x l Hl IH Hx]; intros i a b Ha Hb; [done|].
  destruct i as [|i]; simpl in *.
  - destruct Hx as [|y l' Hxy]; simplify_eq/=. done.
  - by eapply IH.
Qed.

Lemma adjacent_Sorted (R : float → float → Prop) l :
  (∀ (i : nat) a b, l !! i = Some a → l !! S i = Some b → R a b) →
  Sorted R l.
Proof.
  induction l as [|x l IH]; intros H; constructor.
  - apply IH. intros i a b Ha Hb. by apply (H (S i)).
  - destruct l as [|y l]; constructor. by apply (H 0%nat).
Qed.

Lemma non_descending_is_run l : non_descending l → is_run l.
Proof.
  intros H. apply adjacent_Sorted. intros i a b Ha Hb.
  apply le_not_gt. by eapply H.
Qed.

Lemma run_non_descending l : nan_free l → is_run l → non_descending l.
Proof.
  intros Hn Hr i a b Ha Hb. unfold nan_free in Hn.
  rewrite Forall_lookup in Hn.
  apply not_gt_le; [by eapply Hn|by eapply Hn|].
  by eapply (Sorted_adjacent _ l Hr).
Qed.

End Sorter.

(* ===================================================================== *)
(** * The reader *)
(* ===================================================================== *)

Section Reader.

Implicit Types (lines : list string) (numbers : list float).

Lemma non_blank_lines_cons line lines :
  non_blank_lines (line :: lines) =
    if decide (PyStr.strip line = "")
    then non_blank_lines lines
    else PyStr.strip line :: non_blank_lines lines.
Proof.
  unfold non_blank_lines. rewrite fmap_cons, filter_cons.
  destruct (decide (PyStr.strip line = "")), (decide (PyStr.strip line ≠ ""));
    done.
Qed.

Lemma eqb_empty (t : string) :
  negb (String.eqb t "") = if decide (t = "") then false else true.
Proof.
  destruct (String.eqb_spec t ""), (decide (t = "")); done.
Qed.

(** The loop returns the numbers it was given, followed by one value for
    each of the non-blank lines, in their order. *)
Lemma read_loop_Ok lines : ∀ n numbers result,
  read_loop n lines numbers = Ok result ↔
  ∃ values, result = numbers ++ values ∧
    Forall2 (λ t v, PyStr.to_float t = Some v) (non_blank_lines lines) values.
Proof.
  induction lines as [|line lines IH]; intros n numbers result; simpl.
  - split.
    + intros [= <-]. exists []. by rewrite app_nil_r.
    + intros (values & -> & H). inversion H. by rewrite app_nil_r.
  - rewrite non_blank_lines_cons, eqb_empty.
    destruct (decide (PyStr.strip line = "")) as [He|He]; [apply IH|].
    destruct (PyStr.to_float (PyStr.strip line)) as [v|] eqn:Hv.
    + rewrite IH. split.
      * intros (values & -> & H). exists (v :: values).
        rewrite <- app_assoc. split; [done|]. by constructor.
      * intros (values & -> & H). inversion H as [|? v' ? values' Hv' H']; subst.
        exists values'. rewrite <- app_assoc. by simplify_eq.
    + split; [done|]. intros (values & _ & H).
      inversion H; subst. congruence.
Qed.

(** The loop stops at the first line that [float] refuses, with its
    stripped text and its number. *)
Lemma read_loop_Raise pre bad post : ∀ n numbers,
  Forall well_formed pre → malformed bad →
  read_loop n (pre ++ bad :: post) numbers =
    Raise (ValueError (invalid_number (PyStr.strip bad)
                         (n + Z.of_nat (length pre)))).
Proof.
  induction pre as [|line pre IH]; intros n numbers Hpre [Hb1 Hb2]; simpl.
  - rewrite eqb_empty, decide_False, Hb2 by done.
    by rewrite Z.add_0_r.
  - inversion_clear Hpre as [|? ? Hline Hpre'].
    replace (n + Z.of_nat (S (length pre)))
      with ((n + 1) + Z.of_nat (length pre)) by lia.
    rewrite eqb_empty.
    destruct (decide (PyStr.strip line = "")) as [He|He]; [by apply IH|].
    destruct Hline as [?|[v Hv]]; [done|]. rewrite Hv. by apply IH.
Qed.

(** A list with a malformed line splits at the first one. *)
Lemma first_malformed lines :
  Exists malformed lines →
  ∃ pre bad post,
    lines = pre ++ bad :: post ∧ Forall well_formed pre ∧ malformed bad.
Proof.
  induction lines as [|line lines IH]; intros H; [by inversion H|].
  destruct (decide (PyStr.strip line = "")) as [He|He].
  - inversion H as [? ? [Hn _]|? ? H']; subst; [done|].
    destruct (IH H') as (pre & bad & post & -> & Hpre & Hbad).
    exists (line :: pre), bad, post. split_and!; [done| |done].
    constructor; [by left|done].
  - destruct (PyStr.to_float (PyStr.strip line)) as [v|] eqn:Hv.
    + inversion H as [? ? [_ Hn]|? ? H']; subst; [congruence|].
      destruct (IH H') as (pre & bad & post & -> & Hpre & Hbad).
      exists (line :: pre), bad, post. split_and!; [done| |done].
      constructor; [right; by eexists|done].
    + exists [], line, lines. split_and!; [done|constructor|done].
Qed.

Lemma read_loop_not_FileNotFoundError lines : ∀ n numbers msg,
  read_loop n lines numbers ≠ Raise (FileNotFoundError msg).
Proof.
  induction lines as [|line lines IH]; intros n numbers msg; simpl; [done|].
  destruct (negb _); [|apply IH].
  destruct (PyStr.to_float _); [apply IH|done].
Qed.

Lemma read_numbers_from_file_open fs filename content :
  open_read fs filename = Ok content →
  read_numbers_from_file fs filename =
    read_loop 1 (PyStr.readlines content) [].
Proof.
  intros Ho. unfold read_numbers_from_file. rewrite Ho.
  destruct (read_loop _ _ _) as [|[]] eqn:Hl; try done.
  by apply read_loop_not_FileNotFoundError in Hl.
Qed.

Lemma read_numbers_from_file_missing fs filename :
  read_fault fs !! filename = None → files fs !! filename = None →
  read_numbers_from_file fs filename =
    Raise (FileNotFoundError ("File '" +:+ filename +:+ "' not found")).
Proof.
  intros Hr Hf. unfold read_numbers_from_file, open_read.
  by rewrite Hr, Hf.
Qed.

End Reader.

(* ===================================================================== *)
(** * The writer *)
(* ===================================================================== *)

Section Writer.

Lemma string_app_nil_r (s : string) : s +:+ "" = s.
Proof.
  induction s as [|c s IH]; [done|].
  change (String c (s +:+ "") = String c s). by rewrite IH.
Qed.

Lemma string_app_assoc (s t u : string) : (s +:+ t) +:+ u = s +:+ (t +:+ u).
Proof.
  induction s as [|c s IH]; [done|].
  change (String c ((s +:+ t) +:+ u) = String c (s +:+ (t +:+ u))).
  by rewrite IH.
Qed.

(** An integral float has an [int], so that every number has a text. *)
Lemma int_of_float_integer (x : float) :
  PyFloat.is_integer x = true → ∃ z, int_of_float x = Ok z.
Proof. destruct x; simpl; try done; eauto. Qed.

Lemma format_number_total (number : float) :
  ∃ text, format_number number = Ok text.
Proof.
  unfold format_number. destruct (PyFloat.is_integer number) eqn:Hi; [|eauto].
  destruct (int_of_float_integer number Hi) as [z ->]. eauto.
Qed.

Lemma format_numbers_total (numbers : list float) :
  ∃ texts, Forall2 (λ v t, format_number v = Ok t) numbers texts.
Proof.
  induction numbers as [|x numbers [texts IH]]; [by exists []|].
  destruct (format_number_total x) as [t Ht].
  exists (t :: texts). by constructor.
Qed.

(** The loop appends the lines to the text of the open file. *)
Lemma write_loop_appends filename numbers texts :
  Forall2 (λ v t, format_number v = Ok t) numbers texts →
  ∀ w old, files (fs w) !! filename = Some old →
  write_loop filename numbers w =
    (Ok tt,
     {| fs := {| files := <[filename := old +:+ render_lines texts]>
                            (files (fs w));
                 read_fault := read_fault (fs w);
                 write_fault := write_fault (fs w) |};
        stdout := stdout w |}).
Proof.
  induction 1 as [|x t numbers texts Hx _ IH]; intros w old Hold; simpl.
  - rewrite string_app_nil_r, insert_id by done. by destruct w as [[]].
  - unfold bind, lift. rewrite Hx. cbn.
    erewrite IH; last first.
    { cbn. rewrite Hold. cbn. apply lookup_insert_eq. }
    cbn. rewrite insert_insert_eq, !string_app_assoc. done.
Qed.

(** What [write_numbers_to_file] leaves behind: the file holds the lines
    of the numbers and nothing else has changed. *)
Lemma write_numbers_to_file_Ok numbers filename texts w :
  Forall2 (λ v t, format_number v = Ok t) numbers texts →
  write_fault (fs w) !! filename = None →
  write_numbers_to_file numbers filename w =
    (Ok tt,
     {| fs := {| files := <[filename := render_lines texts]> (files (fs w));
                 read_fault := read_fault (fs w);
                 write_fault := write_fault (fs w) |};
        stdout := stdout w |}).
Proof.
  intros Ht Hw. unfold write_numbers_to_file, open_write. rewrite Hw.
  erewrite write_loop_appends; [|done|cbn; apply lookup_insert_eq].
  cbn. by rewrite insert_insert_eq.
Qed.

Lemma write_numbers_to_file_Raise numbers filename e w :
  write_fault (fs w) !! filename = Some e →
  write_numbers_to_file numbers filename w = (Raise (os_error e filename), w).
Proof.
  intros Hw. unfold write_numbers_to_file, open_write. by rewrite Hw.
Qed.

End Writer.

(* ===================================================================== *)
(** * The driver *)
(* ===================================================================== *)

Section Driver.

Variables (prog input_file output_file : string) (fs0 : filesystem).

Lemma run_read_caught e :
  read_numbers_from_file fs0 input_file = Raise e →
  handled e = true →
  run [prog; input_file; output_file] fs0 =
    (Exited 1,
     {| fs := fs0;
        stdout := ["Reading numbers from " +:+ input_file +:+ "...";
                   "Error: " +:+ exn_str e] |}).
Proof.
  intros Hr He. run_main. rewrite Hr. by destruct e.
Qed.

Lemma run_read_uncaught e :
  read_numbers_from_file fs0 input_file = Raise e →
  handled e = false →
  run [prog; input_file; output_file] fs0 =
    (ending_of (Raise e),
     {| fs := fs0;
        stdout := ["Reading numbers from " +:+ input_file +:+ "..."] |}).
Proof.
  intros Hr He. run_main. rewrite Hr. by destruct e.
Qed.

Lemma run_write_raises numbers e :
  read_numbers_from_file fs0 input_file = Ok numbers →
  write_fault fs0 !! output_file = Some e →
  let out :=
    ["Reading numbers from " +:+ input_file +:+ "...";
     "Found " +:+ PyStr.of_nat (length numbers) +:+ " numbers";
     "Sorting numbers...";
     "Writing sorted numbers to " +:+ output_file +:+ "..."] in
  run [prog; input_file; output_file] fs0 =
    if handled (os_error e output_file)
    then (Exited 1,
          {| fs := fs0;
             stdout := out ++ ["Error: " +:+ exn_str (os_error e output_file)] |})
    else (Uncaught (os_error e output_file), {| fs := fs0; stdout := out |}).
Proof.
  intros Hr Hw. run_main. rewrite Hr.
  erewrite write_numbers_to_file_Raise by done. by destruct e.
Qed.

Lemma getitem_last {A} (l : list A) (x : A) :
  ∃ y, getitem (x :: l) (-1) = Ok y.
Proof.
  unfold getitem.
  change (-1 <? 0) with true. cbv iota.
  destruct (_ <? 0) eqn:Hj; [apply Z.ltb_lt in Hj; simpl in Hj; lia|].
  destruct (_ !! _) as [y|] eqn:Hy; [eauto|].
  apply lookup_ge_None in Hy. simpl in Hy. lia.
Qed.

(** The run that gets as far as the output file. *)
Lemma run_written numbers texts :
  read_numbers_from_file fs0 input_file = Ok numbers →
  write_fault fs0 !! output_file = None →
  Forall2 (λ v t, format_number v = Ok t) (sort_numbers numbers) texts →
  let fs1 :=
    {| files := <[output_file := render_lines texts]> (files fs0);
       read_fault := read_fault fs0;
       write_fault := write_fault fs0 |} in
  let out :=
    ["Reading numbers from " +:+ input_file +:+ "...";
     "Found " +:+ PyStr.of_nat (length numbers) +:+ " numbers";
     "Sorting numbers...";
     "Writing sorted numbers to " +:+ output_file +:+ "...";
     "Sorting completed successfully!"] in
  match numbers with
  | [] =>
      run [prog; input_file; output_file] fs0 =
        (Uncaught (IndexError "list index out of range"),
         {| fs := fs1; stdout := out |})
  | _ :: _ =>
      ∃ smallest largest,
        run [prog; input_file; output_file] fs0 =
          (Returned,
           {| fs := fs1;
              stdout := out ++ ["Smallest number: " +:+ PyStr.repr smallest;
                                "Largest number: " +:+ PyStr.repr largest] |})
  end.
Proof.
  intros Hr Hw Ht fs1 out. 
  assert (run [prog; input_file; output_file] fs0 =
    let w := {| fs := fs1; stdout := out |} in
    match getitem (sort_numbers numbers) 0 with
    | Ok a =>
        match getitem (sort_numbers numbers) (-1) with
        | Ok b =>
            (Returned,
             {| fs := fs1;
                stdout := out ++ ["Smallest number: " +:+ PyStr.repr a;
                                  "Largest number: " +:+ PyStr.repr b] |})
        | Raise e => (ending_of (Raise e),
                      {| fs := fs1;
                         stdout := out ++ ["Smallest number: " +:+ PyStr.repr a] |})
        end
    | Raise e => (ending_of (Raise e), w)
    end) as ->.
  { run_main. rewrite Hr.
    erewrite write_numbers_to_file_Ok by done. cbn.
    unfold getitem. cbn. change (Z.to_nat 0) with 0%nat.
    destruct (sort_numbers numbers !! 0%nat); [|done].
    destruct (_ <? 0); [done|].
    by destruct (sort_numbers numbers !! Z.to_nat _). }
  destruct numbers as [|x numbers]; [done|].
  assert (∃ y l, sort_numbers (x :: numbers) = y :: l) as (y & l & Hs).
  { destruct (sort_numbers (x :: numbers)) as [|y l] eqn:Hs; [|eauto].
    pose proof (sorted_Permutation (x :: numbers)) as Hp.
    unfold sort_numbers in Hs. rewrite Hs in Hp.
    by apply Permutation_nil_cons in Hp. }
  rewrite Hs. destruct (getitem_last l y) as [z Hz]. rewrite Hz.
  exists y, z. done.
Qed.

End Driver.

Lemma run_usage argv fs0 :
  length argv ≠ 3%nat →
  run argv fs0 =
    (Exited 1,
     {| fs := fs0;
        stdout := ["Usage: python number_sorter.py <input_file> <output_file>"] |}).
Proof.
  intros Hn. unfold run, main.
  destruct (Nat.eqb_spec (length argv) 3); done.
Qed.

(* ===================================================================== *)
(** * The text of a number *)
(* ===================================================================== *)

Section Text.

Lemma uint_digits (u : Decimal.uint) :
  Forall digit (list_ascii_of_string (NilEmpty.string_of_uint u)).
Proof. induction u; simpl; constructor; done. Qed.

Lemma nilzero_digits (u : Decimal.uint) :
  ∃ c s, list_ascii_of_string (NilZero.string_of_uint u) = c :: s
         ∧ Forall digit (c :: s).
Proof.
  pose proof (uint_digits u) as H.
  destruct u; simpl in *; eauto.
  eexists _, _. split; [done|]. by repeat constructor.
Qed.

(** [str(z)] of a natural number is made of digits. *)
Lemma of_int_digits (z : Z) :
  0 ≤ z → Forall digit (list_ascii_of_string (PyStr.of_int z)).
Proof.
  intros Hz. unfold PyStr.of_int.
  destruct z as [|p|p]; [by repeat constructor| |lia].
  destruct (nilzero_digits (Pos.to_uint p)) as (c & s & Hs & Hd).
  simpl. by rewrite Hs.
Qed.





Lemma zeros_digits (n : Z) : Forall digit (PyStr.zeros n).
Proof. unfold PyStr.zeros. by apply Forall_replicate. Qed.



Lemma positional_nonempty (ds : list ascii) (decpt : Z) :
  PyStr.positional ds decpt ≠ [].
Proof.
  unfold PyStr.positional.
  destruct (decpt <=? 0); [done|]. destruct (_ <=? decpt).
  - intros H. apply app_eq_nil in H as [_ H].
    by apply app_eq_nil in H as [_ H].
  - intros H. by apply app_eq_nil in H as [_ H].
Qed.

Lemma strip_zeros_rev_digits (d : list ascii) :
  Forall digit d → Forall digit (PyStr.strip_zeros_rev d).
Proof.
  induction 1 as [|c d Hc Hd IH]; simpl; [done|].
  destruct (Ascii.eqb c "0"); [done|by constructor].
Qed.

Lemma candidate_nonneg force m e num den decpt n c :
  0 ≤ num → 0 < den →
  PyStr.candidate force m e num den decpt n = Some c → 0 ≤ c.
Proof.
  intros Hnum Hden. unfold PyStr.candidate.
  set (sh := n - decpt).
  set (N := if 0 <=? sh then num * 10 ^ sh else num).
  set (D := if 0 <=? sh then den else den * 10 ^ (- sh)).
  assert (0 ≤ N / D) as Hc.
  { apply Z.div_pos; unfold N, D; destruct (Z.leb_spec 0 sh).
    - apply Z.mul_nonneg_nonneg; [done|]. by apply Z.pow_nonneg.
    - done.
    - done.
    - apply Z.mul_pos_pos; [done|]. apply Z.pow_pos_nonneg; lia. }
  clearbody N D sh. intros H.
  repeat match type of H with
         | (if ?b then _ else _) = _ => destruct b
         | match ?x with _ => _ end = _ => destruct x
         end; simplify_eq; try lia.
  all: destruct (_ ?= _); [destruct (Z.even _)| |]; lia.
Qed.

Lemma shortest_nonneg fuel m e num den decpt : ∀ n c k,
  0 ≤ num → 0 < den →
  PyStr.shortest fuel m e num den decpt n = (c, k) → 0 ≤ c.
Proof.
  induction fuel as [|fuel IH]; intros n c k Hnum Hden; simpl.
  - destruct (PyStr.candidate true _ _ _ _ _ _) as [c'|] eqn:Hc;
      intros [= <- <-]; simpl; [|done].
    by eapply candidate_nonneg.
  - destruct (PyStr.candidate false _ _ _ _ _ _) as [c'|] eqn:Hc.
    + intros [= <- <-]. by eapply candidate_nonneg.
    + by apply IH.
Qed.

(** The digits of [repr] are digits. *)
Lemma repr_digits_digits (m : positive) (e : Z) :
  Forall digit (PyStr.repr_digits m e).1.
Proof.
  unfold PyStr.repr_digits.
  destruct (PyStr.shortest _ _ _ _ _ _ _) as [c n] eqn:Hs. simpl.
  apply Forall_rev, strip_zeros_rev_digits, Forall_rev, of_int_digits.
  eapply shortest_nonneg; [| |done].
  - destruct (0 <=? e); [|done]. 
    apply Z.mul_nonneg_nonneg; [done|]. by apply Z.pow_nonneg.
  - destruct (Z.leb_spec 0 e); [done|]. apply Z.pow_pos_nonneg; lia.
Qed.

End Text.

(* ===================================================================== *)
(** * The sorter: order and content (C1, C9) *)
(* ===================================================================== *)

(** C1, as it holds: for every list of floats, [sort_numbers] returns a
    list with the same elements, each as often as in the input, hence of
    the same length; when no element is NaN every adjacent pair [(a, b)]
    of the result satisfies [a <= b]; the empty list gives the empty list
    and a list of one element is returned unchanged. *)
Theorem sort_numbers_sorts (numbers : list float) :
  sort_numbers numbers ≡ₚ numbers
  ∧ length (sort_numbers numbers) = length numbers
  ∧ (nan_free numbers → non_descending (sort_numbers numbers))
  ∧ sort_numbers [] = []
  ∧ ∀ x, sort_numbers [x] = [x].
Proof.
  pose proof (sorted_Permutation numbers) as Hp.
  split_and!; [done|by rewrite Hp| |done|done].
  intros Hn. apply run_non_descending; [|apply sorted_is_run].
  unfold nan_free, sort_numbers. by rewrite Hp.
Qed.

Lemma sort_numbers_sorts_witness :
  nan_free [float_30; float_10; float_20_5; float_10]
  ∧ non_descending (sort_numbers [float_30; float_10; float_20_5; float_10]).
Proof.
  assert (nan_free [float_30; float_10; float_20_5; float_10]) as Hn
    by (repeat constructor).
  split; [exact Hn|].
  exact (proj1 (proj2 (proj2
           (sort_numbers_sorts [float_30; float_10; float_20_5; float_10]))) Hn).
Defined.

(** C1 fails as stated: a list with a NaN is a list of floats, and
    [sort_numbers [nan, 1.0]] is [[nan, 1.0]], whose adjacent pair does
    not satisfy [nan <= 1.0]. *)
Lemma sort_numbers_nan_not_ordered :
  sort_numbers [PyFloat.nan; float_1] = [PyFloat.nan; float_1]
  ∧ ¬ non_descending (sort_numbers [PyFloat.nan; float_1]).
Proof.
  split; [reflexivity|]. intros H.
  specialize (H 0%nat PyFloat.nan float_1 eq_refl eq_refl). discriminate H.
Qed.

(** C9, as it holds: [sort_numbers] leaves a list in non-descending
    order as it is; for every list without NaN the result of
    [sort_numbers] is in non-descending order, so that sorting it again
    changes nothing: sorting twice is sorting once; and more generally
    [sort_numbers] leaves every list as it is in which no element is
    smaller than its predecessor. *)
Theorem sort_numbers_idempotent :
  (∀ numbers, non_descending numbers → sort_numbers numbers = numbers)
  ∧ (∀ numbers,
       nan_free numbers →
       non_descending (sort_numbers numbers)
       ∧ sort_numbers (sort_numbers numbers) = sort_numbers numbers)
  ∧ (∀ numbers, is_run numbers → sort_numbers numbers = numbers).
Proof.
  split_and!.
  - intros numbers H. by apply sorted_run_id, non_descending_is_run.
  - intros numbers Hn.
    assert (non_descending (sort_numbers numbers)) as Hs.
    { apply run_non_descending; [|apply sorted_is_run].
      unfold nan_free, sort_numbers. by rewrite sorted_Permutation. }
    split; [done|]. by apply sorted_run_id, non_descending_is_run.
  - intros numbers H. by apply sorted_run_id.
Qed.

Lemma sort_numbers_idempotent_witness :
  (non_descending [float_10; float_10; float_20_5]
   ∧ sort_numbers [float_10; float_10; float_20_5]
     = [float_10; float_10; float_20_5])
  ∧ (nan_free [float_30; float_10; float_20_5]
     ∧ sort_numbers (sort_numbers [float_30; float_10; float_20_5])
       = sort_numbers [float_30; float_10; float_20_5])
  ∧ (is_run [float_10; PyFloat.nan; float_1]
     ∧ sort_numbers [float_10; PyFloat.nan; float_1]
       = [float_10; PyFloat.nan; float_1]).
Proof.
  assert (non_descending [float_10; float_10; float_20_5]) as Hs.
  { intros [|[|[|i]]] a b Ha Hb; simplify_eq/=; reflexivity. }
  assert (nan_free [float_30; float_10; float_20_5]) as Hn
    by (repeat constructor).
  assert (is_run [float_10; PyFloat.nan; float_1]) as Hr
    by (repeat constructor).
  destruct sort_numbers_idempotent as (Hsorted & Hfree & Hrun).
  split_and!; [done| |done| |done|].
  - exact (Hsorted [float_10; float_10; float_20_5] Hs).
  - exact (proj2 (Hfree [float_30; float_10; float_20_5] Hn)).
  - exact (Hrun [float_10; PyFloat.nan; float_1] Hr).
Defined.

(** C9 fails as stated: an output of [sort_numbers] need not be a list in
    non-descending order.  [sort_numbers [1.0, nan]] is [[1.0, nan]]: no
    element of it is smaller than its predecessor, so [sorted] returns it
    as it is, and its pair does not satisfy [1.0 <= nan]. *)
Lemma sort_numbers_output_not_ordered :
  sort_numbers [float_1; PyFloat.nan] = [float_1; PyFloat.nan]
  ∧ ¬ non_descending (sort_numbers [float_1; PyFloat.nan]).
Proof.
  split; [reflexivity|]. intros H.
  specialize (H 0%nat float_1 PyFloat.nan eq_refl eq_refl). discriminate H.
Qed.

(** The tests of the repository for [sort_numbers], on floats. *)
Example sort_numbers_with_duplicates :
  sort_numbers [float_30; float_10; float_30; float_20; float_10]
  = [float_10; float_10; float_20; float_30; float_30].
Proof. reflexivity. Qed.

(* ===================================================================== *)
(** * The reader (C3, C4, C10) *)
(* ===================================================================== *)

(** C3: on a file that can be read, [read_numbers_from_file] returns
    [numbers] exactly when [numbers] holds one value for each non-blank
    line, the value [float] reads from the stripped line, in file order;
    the blank lines have no share in the result. *)
Theorem read_numbers_from_file_spec
    (fs0 : filesystem) (filename content : string) (numbers : list float) :
  open_read fs0 filename = Ok content →
  read_numbers_from_file fs0 filename = Ok numbers ↔
  Forall2 (λ t v, PyStr.to_float t = Some v)
    (non_blank_lines (PyStr.readlines content)) numbers.
Proof.
  intros Ho. rewrite (read_numbers_from_file_open _ _ _ Ho), read_loop_Ok.
  split; [by intros (values & -> & H)|]. intros H. by exists numbers.
Qed.

(** The scenario of the specification: blank lines are skipped. *)
Example read_skips_blank_lines :
  read_numbers_from_file
    (one_file "numbers.txt" (render_lines ["10"; ""; "20"; "   "; "30"]))
    "numbers.txt"
  = Ok [float_10; float_20; float_30].
Proof. vm_compute. reflexivity. Qed.

Lemma read_numbers_from_file_spec_witness :
  Forall2 (λ t v, PyStr.to_float t = Some v)
    (non_blank_lines
       (PyStr.readlines (render_lines ["10"; ""; "20"; "   "; "30"])))
    [float_10; float_20; float_30].
Proof.
  apply (read_numbers_from_file_spec
           (one_file "numbers.txt" (render_lines ["10"; ""; "20"; "   "; "30"]))
           "numbers.txt" (render_lines ["10"; ""; "20"; "   "; "30"])).
  - vm_compute. reflexivity.
  - vm_compute. reflexivity.
Defined.

(** C4: when a line of the input is malformed, the lines split at the
    first malformed one; [read_numbers_from_file] raises the [ValueError]
    that names its stripped text and its number, counted from 1, and
    returns no number; the program prints the error, exits with status 1
    and leaves the file system as it was. *)
Theorem malformed_line_stops_program
    (prog input_file output_file : string) (fs0 : filesystem)
    (content : string) :
  open_read fs0 input_file = Ok content →
  Exists malformed (PyStr.readlines content) →
  ∃ pre bad post,
    PyStr.readlines content = pre ++ bad :: post
    ∧ Forall well_formed pre
    ∧ malformed bad
    ∧ let msg :=
        invalid_number (PyStr.strip bad) (Z.of_nat (length pre) + 1) in
      read_numbers_from_file fs0 input_file = Raise (ValueError msg)
      ∧ run [prog; input_file; output_file] fs0 =
          (Exited 1,
           {| fs := fs0;
              stdout := ["Reading numbers from " +:+ input_file +:+ "...";
                         "Error: " +:+ msg] |}).
Proof.
  intros Ho Hex.
  destruct (first_malformed _ Hex) as (pre & bad & post & Hl & Hpre & Hbad).
  exists pre, bad, post. split_and!; [done..|]. intros msg.
  assert (read_numbers_from_file fs0 input_file = Raise (ValueError msg)) as Hr.
  { rewrite (read_numbers_from_file_open _ _ _ Ho), Hl.
    rewrite (read_loop_Raise pre bad post 1 [] Hpre Hbad).
    unfold msg. do 3 f_equal. lia. }
  split; [done|]. by apply (run_read_caught _ _ _ _ _ Hr).
Qed.

Lemma malformed_line_stops_program_witness :
  let fs0 := one_file "in.txt" (render_lines ["10"; "abc"; "20"]) in
  ∃ pre bad post,
    PyStr.readlines (render_lines ["10"; "abc"; "20"]) = pre ++ bad :: post
    ∧ Forall well_formed pre
    ∧ malformed bad
    ∧ let msg :=
        invalid_number (PyStr.strip bad) (Z.of_nat (length pre) + 1) in
      read_numbers_from_file fs0 "in.txt" = Raise (ValueError msg)
      ∧ run ["number_sorter.py"; "in.txt"; "out.txt"] fs0 =
          (Exited 1,
           {| fs := fs0;
              stdout := ["Reading numbers from " +:+ "in.txt" +:+ "...";
                         "Error: " +:+ msg] |}).
Proof.
  intros fs0.
  apply (malformed_line_stops_program "number_sorter.py" "in.txt" "out.txt"
           fs0 (render_lines ["10"; "abc"; "20"])).
  - vm_compute. reflexivity.
  - apply Exists_cons_tl, Exists_cons_hd.
    split; vm_compute; [discriminate|reflexivity].
Defined.

(** The scenario of the specification and of the tests: the text ["abc"]
    on line 2. *)
Example read_invalid_number_format :
  read_numbers_from_file (one_file "in.txt" (render_lines ["10"; "abc"; "20"]))
    "in.txt"
  = Raise (ValueError "Invalid number 'abc' on line 2").
Proof. vm_compute. reflexivity. Qed.

(** C10: [read_numbers_from_file] returns a value for the lines ["inf"],
    ["nan"], ["Infinity"], ["1e5"] and ["1_000"], none of which is in plain
    decimal form, so that the numbers read, and the sorted numbers, can
    hold values that are not finite. *)
Theorem read_accepts_more_than_decimals :
  let lines := ["inf"; "nan"; "Infinity"; "1e5"; "1_000"] in
  let numbers :=
    [PyFloat.inf; PyFloat.nan; PyFloat.inf; float_100000; float_1000] in
  read_numbers_from_file (one_file "numbers.txt" (render_lines lines))
    "numbers.txt" = Ok numbers
  ∧ Forall (λ t, plain_decimal t = false) lines
  ∧ Exists (λ x, PyFloat.is_finite x = false) (sort_numbers numbers).
Proof.
  split_and!.
  - vm_compute. reflexivity.
  - repeat constructor.
  - apply Exists_exists. exists PyFloat.nan. split; [|done].
    apply list_elem_of_In.
    unfold sort_numbers. rewrite sorted_Permutation. set_solver.
Qed.

(* ===================================================================== *)
(** * The writer (C5) *)
(* ===================================================================== *)




(** The tests of the repository for [write_numbers_to_file]. *)
Example format_number_examples :
  format_number float_10 = Ok "10"
  ∧ format_number float_20_5 = Ok "20.5"
  ∧ format_number float_40_7 = Ok "40.7"
  ∧ format_number (S754_zero true) = Ok "0"
  ∧ format_number PyFloat.inf = Ok "inf"
  ∧ format_number PyFloat.nan = Ok "nan".
Proof. split_and!; vm_compute; reflexivity. Qed.

(* ===================================================================== *)
(** * The program (C6, C7, C8) *)
(* ===================================================================== *)

(** The scenario of the specification: the lines 10, 20, 5, 15 come out
    as 5, 10, 15, 20. *)
Example run_sorts_the_file :
  files (fs (run ["number_sorter.py"; "in.txt"; "out.txt"]
               (one_file "in.txt" (render_lines ["10"; "20"; "5"; "15"]))).2)
    !! "out.txt"
  = Some (render_lines ["5"; "10"; "15"; "20"]).
Proof. vm_compute. reflexivity. Qed.

(** The workflow test of the repository: the output file reads back as
    the sorted numbers. *)
Example output_reads_back :
  let fs0 := one_file "in.txt" (render_lines ["50"; "30.25"; "-0.5"; "1e3"]) in
  read_numbers_from_file
    (fs (run ["number_sorter.py"; "in.txt"; "out.txt"] fs0).2) "out.txt"
  = Ok (sort_numbers
          [literal "50"; literal "30.25"; literal "-0.5"; float_1000]).
Proof. vm_compute. reflexivity. Qed.

(** C6 does not hold of the code: when the input has no non-blank line
    and the output file can be written, the program creates the output
    file empty, prints that sorting is completed and then indexes the
    empty list: it ends with an [IndexError] that nothing catches, with
    exit status 1. *)
Theorem empty_input_faults
    (prog input_file output_file : string) (fs0 : filesystem)
    (content : string) :
  open_read fs0 input_file = Ok content →
  non_blank_lines (PyStr.readlines content) = [] →
  write_fault fs0 !! output_file = None →
  let ending_world := run [prog; input_file; output_file] fs0 in
  ending_world.1 = Uncaught (IndexError "list index out of range")
  ∧ exit_status ending_world.1 = 1
  ∧ getitem (sort_numbers []) 0 = Raise (IndexError "list index out of range")
  ∧ files (fs ending_world.2) !! output_file = Some ""
  ∧ stdout ending_world.2 =
      ["Reading numbers from " +:+ input_file +:+ "...";
       "Found 0 numbers";
       "Sorting numbers...";
       "Writing sorted numbers to " +:+ output_file +:+ "...";
       "Sorting completed successfully!"].
Proof.
  intros Ho Hb Hw.
  assert (read_numbers_from_file fs0 input_file = Ok []) as Hr.
  { rewrite (read_numbers_from_file_open _ _ _ Ho). apply read_loop_Ok.
    exists []. rewrite Hb. split; [done|constructor]. }
  pose proof (run_written prog _ _ _ [] [] Hr Hw) as Hrun.
  simpl in Hrun. intros ending_world. unfold ending_world.
  rewrite Hrun by constructor.
  split_and!; [done..|apply lookup_insert_eq|done].
Qed.

Lemma empty_input_faults_witness :
  let ending_world :=
    run ["number_sorter.py"; "in.txt"; "out.txt"] (one_file "in.txt" "") in
  ending_world.1 = Uncaught (IndexError "list index out of range")
  ∧ exit_status ending_world.1 = 1
  ∧ getitem (sort_numbers []) 0 = Raise (IndexError "list index out of range")
  ∧ files (fs ending_world.2) !! "out.txt" = Some ""
  ∧ stdout ending_world.2 =
      ["Reading numbers from " +:+ "in.txt" +:+ "...";
       "Found 0 numbers";
       "Sorting numbers...";
       "Writing sorted numbers to " +:+ "out.txt" +:+ "...";
       "Sorting completed successfully!"].
Proof.
  apply (empty_input_faults "number_sorter.py" "in.txt" "out.txt"
           (one_file "in.txt" "") "").
  - vm_compute. reflexivity.
  - vm_compute. reflexivity.
  - vm_compute. reflexivity.
Defined.

(** C7 fails as stated: when the output file cannot be opened for lack of
    permission, [open] raises a [PermissionError], which the [except]
    clause of [main] does not name: no line ["Error: ..."] is printed
    and the exception leaves [main] uncaught. *)
Lemma permission_error_uncaught :
  let fs0 := one_file_denying "in.txt" (render_lines ["1"]) "out.txt" in
  run ["number_sorter.py"; "in.txt"; "out.txt"] fs0 =
    (Uncaught (PermissionError "[Errno 13] Permission denied: 'out.txt'"),
     {| fs := fs0;
        stdout := ["Reading numbers from in.txt...";
                   "Found 1 numbers";
                   "Sorting numbers...";
                   "Writing sorted numbers to out.txt..."] |}).
Proof. vm_compute. reflexivity. Qed.

(** C7, as it holds: when the output file cannot be opened, the writer
    fails with the exception of the error number and the file system is
    left as it was.  The driver catches [FileNotFoundError] (no parent
    directory): it prints the line ["Error: "] with the text of the
    exception and exits with status 1.  Every other failure
    ([PermissionError], [IsADirectoryError], [OSError]) leaves [main]
    uncaught, without such a line; the status of the process is 1 then
    too. *)
Theorem write_failure_handling
    (prog input_file output_file : string) (fs0 : filesystem)
    (numbers : list float) (e : errno) :
  read_numbers_from_file fs0 input_file = Ok numbers →
  write_fault fs0 !! output_file = Some e →
  let ending_world := run [prog; input_file; output_file] fs0 in
  let out :=
    ["Reading numbers from " +:+ input_file +:+ "...";
     "Found " +:+ PyStr.of_nat (length numbers) +:+ " numbers";
     "Sorting numbers...";
     "Writing sorted numbers to " +:+ output_file +:+ "..."] in
  write_numbers_to_file (sort_numbers numbers) output_file
      {| fs := fs0; stdout := out |}
    = (Raise (os_error e output_file), {| fs := fs0; stdout := out |})
  ∧ fs ending_world.2 = fs0
  ∧ exit_status ending_world.1 = 1
  ∧ match e with
    | ENOENT =>
        ending_world.1 = Exited 1
        ∧ stdout ending_world.2 =
            out ++ ["Error: [Errno 2] No such file or directory: '"
                    +:+ output_file +:+ "'"]
    | _ =>
        ending_world.1 = Uncaught (os_error e output_file)
        ∧ stdout ending_world.2 = out
    end.
Proof.
  intros Hr Hw ending_world out.
  pose proof (run_write_raises prog _ _ _ _ _ Hr Hw) as Hrun.
  simpl in Hrun. unfold ending_world. rewrite Hrun.
  split; [by apply write_numbers_to_file_Raise|].
  by destruct e.
Qed.

Lemma write_failure_handling_witness :
  let fs0 :=
    {| files := {["in.txt" := render_lines ["1"]]};
       read_fault := ∅;
       write_fault := {["missing/out.txt" := ENOENT]} |} in
  let ending_world :=
    run ["number_sorter.py"; "in.txt"; "missing/out.txt"] fs0 in
  fs ending_world.2 = fs0
  ∧ exit_status ending_world.1 = 1
  ∧ ending_world.1 = Exited 1
  ∧ stdout ending_world.2 =
      ["Reading numbers from " +:+ "in.txt" +:+ "...";
       "Found " +:+ PyStr.of_nat (length [float_1]) +:+ " numbers";
       "Sorting numbers...";
       "Writing sorted numbers to " +:+ "missing/out.txt" +:+ "..."]
      ++ ["Error: [Errno 2] No such file or directory: '"
          +:+ "missing/out.txt" +:+ "'"].
Proof.
  intros fs0.
  assert (read_numbers_from_file fs0 "in.txt" = Ok [float_1]) as Hr
    by (vm_compute; reflexivity).
  assert (write_fault fs0 !! "missing/out.txt" = Some ENOENT) as Hw
    by (vm_compute; reflexivity).
  destruct (write_failure_handling "number_sorter.py" "in.txt"
              "missing/out.txt" fs0 [float_1] ENOENT Hr Hw)
    as (_ & Hfs & Hst & Hen & Hout).
  done.
Defined.

(** C8 does not hold of the code: the exit status is 1, behind the usage
    line on standard output, when the number of arguments differs from
    that of the two paths behind the name of the program; it is 1, behind
    an error line that names the path, when the input file does not
    exist; it is 1 when a line of the input is malformed; but when
    reading, sorting and writing have succeeded the exit status is 0 only
    if one number at least was read: on an input without numbers the
    output file is written, empty, the line of completion is printed, and
    the program then ends with an [IndexError] that nothing catches, with
    exit status 1. *)
Theorem exit_statuses :
  (∀ argv fs0,
     length argv ≠ 3%nat →
     let ending_world := run argv fs0 in
     exit_status ending_world.1 = 1
     ∧ stdout ending_world.2 =
         ["Usage: python number_sorter.py <input_file> <output_file>"])
  ∧ (∀ prog input_file output_file fs0,
       read_fault fs0 !! input_file = None →
       files fs0 !! input_file = None →
       let ending_world := run [prog; input_file; output_file] fs0 in
       exit_status ending_world.1 = 1
       ∧ stdout ending_world.2 =
           ["Reading numbers from " +:+ input_file +:+ "...";
            "Error: File '" +:+ input_file +:+ "' not found"])
  ∧ (∀ prog input_file output_file fs0 content,
       open_read fs0 input_file = Ok content →
       Exists malformed (PyStr.readlines content) →
       exit_status (run [prog; input_file; output_file] fs0).1 = 1)
  ∧ (∀ prog input_file output_file fs0 numbers,
       read_numbers_from_file fs0 input_file = Ok numbers →
       write_fault fs0 !! output_file = None →
       let ending_world := run [prog; input_file; output_file] fs0 in
       (numbers ≠ [] →
          ending_world.1 = Returned ∧ exit_status ending_world.1 = 0)
       ∧ (numbers = [] →
            ending_world.1 = Uncaught (IndexError "list index out of range")
            ∧ exit_status ending_world.1 = 1
            ∧ files (fs ending_world.2) !! output_file = Some ""
            ∧ last (stdout ending_world.2)
              = Some "Sorting completed successfully!")).
Proof.
  split_and!.
  - intros argv fs0 Hn ending_world. unfold ending_world.
    by rewrite (run_usage _ _ Hn).
  - intros prog input_file output_file fs0 Hr Hf ending_world.
    unfold ending_world.
    by rewrite (run_read_caught prog _ output_file _ _
                  (read_numbers_from_file_missing _ _ Hr Hf)).
  - intros prog input_file output_file fs0 content Ho Hex.
    destruct (first_malformed _ Hex) as (pre & bad & post & Hl & Hpre & Hbad).
    rewrite (run_read_caught prog input_file output_file fs0
               (ValueError (invalid_number (PyStr.strip bad)
                              (1 + Z.of_nat (length pre))))); [done| |done].
    rewrite (read_numbers_from_file_open _ _ _ Ho), Hl.
    apply (read_loop_Raise pre bad post 1 [] Hpre Hbad).
  - intros prog input_file output_file fs0 numbers Hr Hw ending_world.
    unfold ending_world.
    destruct (format_numbers_total (sort_numbers numbers)) as [texts Ht].
    pose proof (run_written prog _ _ _ _ _ Hr Hw Ht) as Hrun. simpl in Hrun.
    destruct numbers as [|x numbers].
    + split; [done|]. intros _. rewrite Hrun.
      inversion Ht; subst. split_and!; [done..|apply lookup_insert_eq|done].
    + split; [|done]. intros _.
      by destruct Hrun as (smallest & largest & ->).
Qed.

Lemma exit_statuses_witness :
  exit_status (run ["number_sorter.py"; "in.txt"] (one_file "in.txt" "")).1 = 1
  ∧ exit_status (run ["number_sorter.py"; "absent.txt"; "out.txt"]
                   (one_file "in.txt" "")).1 = 1
  ∧ exit_status (run ["number_sorter.py"; "in.txt"; "out.txt"]
                   (one_file "in.txt" (render_lines ["10"; "abc"; "20"]))).1 = 1
  ∧ exit_status (run ["number_sorter.py"; "in.txt"; "out.txt"]
                   (one_file "in.txt" (render_lines ["10"; "20"; "5"]))).1 = 0
  ∧ exit_status (run ["number_sorter.py"; "in.txt"; "out.txt"]
                   (one_file "in.txt" (render_lines [""; "  "]))).1 = 1.
Proof.
  destruct exit_statuses as (Husage & Hmissing & Hmalformed & Hsuccess).
  split_and!.
  - apply (Husage ["number_sorter.py"; "in.txt"] (one_file "in.txt" "")).
    simpl. lia.
  - apply (Hmissing "number_sorter.py" "absent.txt" "out.txt"
             (one_file "in.txt" "")); vm_compute; reflexivity.
  - apply (Hmalformed "number_sorter.py" "in.txt" "out.txt"
             (one_file "in.txt" (render_lines ["10"; "abc"; "20"]))
             (render_lines ["10"; "abc"; "20"])).
    + vm_compute. reflexivity.
    + apply Exists_cons_tl, Exists_cons_hd.
      split; vm_compute; [discriminate|reflexivity].
  - apply (Hsuccess "number_sorter.py" "in.txt" "out.txt"
             (one_file "in.txt" (render_lines ["10"; "20"; "5"]))
             [float_10; float_20; literal "5"]).
    + vm_compute. reflexivity.
    + vm_compute. reflexivity.
    + discriminate.
  - apply (Hsuccess "number_sorter.py" "in.txt" "out.txt"
             (one_file "in.txt" (render_lines [""; "  "])) []).
    + vm_compute. reflexivity.
    + vm_compute. reflexivity.
    + reflexivity.
Defined.

(* ===================================================================== *)
(** * More about the order of floats *)
(* ===================================================================== *)

Section FloatPreorder.

(** [<=] is transitive on all floats: a NaN is in no pair of [<=]. *)
Lemma le_trans (a b c : float) :
  PyFloat.le a b = true → PyFloat.le b c = true → PyFloat.le a c = true.
Proof.
  unfold PyFloat.le, SFleb.
  destruct a as [[]|[]| |[] m1 e1], b as [[]|[]| |[] m2 e2],
           c as [[]|[]| |[] m3 e3]; simpl; try done.
  all: destruct (Z.compare_spec e1 e2), (Z.compare_spec e2 e3),
         (Z.compare_spec e1 e3); simpl; try done; try lia.
  all: pose proof (Pos.compare_spec m1 m2) as H12;
       pose proof (Pos.compare_spec m2 m3) as H23;
       pose proof (Pos.compare_spec m1 m3) as H13;
       unfold Pos.compare in H12, H23, H13.
  all: destruct H12, H23, H13; simpl; try done; try lia.
Qed.

End FloatPreorder.

(* ===================================================================== *)
(** * The run of the program, case by case *)
(* ===================================================================== *)

Section Run.

Variables (prog input_file output_file : string) (fs0 : filesystem).

Lemma number_text_format (numbers : list float) :
  Forall2 (λ v t, format_number v = Ok t) numbers (number_text <$> numbers).
Proof.
  induction numbers as [|x numbers IH]; [constructor|].
  rewrite fmap_cons. constructor; [|done].
  unfold number_text. by destruct (format_number_total x) as [t ->].
Qed.

Lemma getitem_first {A} (a : A) (l : list A) : getitem (a :: l) 0 = Ok a.
Proof. reflexivity. Qed.

Lemma getitem_minus_1 {A} (l : list A) (b : A) :
  last l = Some b → getitem l (-1) = Ok b.
Proof.
  intros Hb. unfold getitem. change (-1 <? 0) with true. cbv iota.
  rewrite last_lookup in Hb.
  assert (l ≠ []) as Hl by (by intros ->).
  assert (0 < length l)%nat by (destruct l; [done|simpl; lia]).
  destruct (_ <? 0) eqn:Hj; [apply Z.ltb_lt in Hj; lia|].
  replace (Z.to_nat (-1 + Z.of_nat (length l))) with (pred (length l)) by lia.
  by rewrite Hb.
Qed.

Lemma sorted_nil_inv (numbers : list float) :
  sort_numbers numbers = [] → numbers = [].
Proof.
  intros Hs. pose proof (sorted_Permutation numbers) as Hp.
  unfold sort_numbers in Hs. rewrite Hs in Hp.
  by apply Permutation_nil in Hp.
Qed.

(** The run in which the reader returns numbers and the output file can
    be written. *)
Lemma run_report (numbers : list float) :
  read_numbers_from_file fs0 input_file = Ok numbers →
  write_fault fs0 !! output_file = None →
  run [prog; input_file; output_file] fs0 =
    let out := progress_lines input_file output_file (length numbers)
               ++ ["Sorting completed successfully!"] in
    let fs1 := with_output fs0 output_file (sort_numbers numbers) in
    match head (sort_numbers numbers), last (sort_numbers numbers) with
    | Some smallest, Some largest =>
        (Returned,
         {| fs := fs1;
            stdout := out ++ ["Smallest number: " +:+ PyStr.repr smallest;
                              "Largest number: " +:+ PyStr.repr largest] |})
    | _, _ =>
        (Uncaught (IndexError "list index out of range"),
         {| fs := fs1; stdout := out |})
    end.
Proof.
  intros Hr Hw. run_main. rewrite Hr.
  erewrite write_numbers_to_file_Ok;
    [|apply number_text_format|done]. cbn.
  destruct (sort_numbers numbers) as [|a l] eqn:Hs; [done|]. cbn.
  destruct (last (a :: l)) as [b|] eqn:Hb.
  - by rewrite (getitem_minus_1 _ _ Hb).
  - by rewrite last_cons in Hb; destruct (last l).
Qed.

Lemma read_loop_cases (lines : list string) : ∀ n acc,
  (∃ r, read_loop n lines acc = Ok r) ∨ Exists malformed lines.
Proof.
  induction lines as [|line lines IH]; intros n acc; simpl; [eauto|].
  rewrite eqb_empty.
  destruct (decide (PyStr.strip line = "")) as [He|He].
  - destruct (IH (n + 1) acc) as [?|?]; [by left|right; by constructor].
  - destruct (PyStr.to_float (PyStr.strip line)) as [v|] eqn:Hv.
    + destruct (IH (n + 1) (acc ++ [v])) as [?|?];
        [by left|right; by constructor].
    + right. by constructor.
Qed.

(** The only exceptions of the reader. *)
Lemma read_numbers_from_file_raises (filename : string) (e : exn) :
  read_numbers_from_file fs0 filename = Raise e →
  (∃ content pre bad post,
     open_read fs0 filename = Ok content
     ∧ PyStr.readlines content = pre ++ bad :: post
     ∧ Forall well_formed pre ∧ malformed bad
     ∧ e = ValueError (invalid_number (PyStr.strip bad)
                         (Z.of_nat (length pre) + 1)))
  ∨ e = FileNotFoundError ("File '" +:+ filename +:+ "' not found")
  ∨ (∃ er, read_fault fs0 !! filename = Some er ∧ er ≠ ENOENT
           ∧ e = os_error er filename).
Proof.
  intros Hr.
  destruct (open_read fs0 filename) as [content|e'] eqn:Ho.
  - left. rewrite (read_numbers_from_file_open _ _ _ Ho) in Hr.
    destruct (read_loop_cases (PyStr.readlines content) 1 [])
      as [[r Hr']|Hex]; [congruence|].
    destruct (first_malformed _ Hex) as (pre & bad & post & Hl & Hp & Hb).
    exists content, pre, bad, post. split_and!; [done..|].
    rewrite Hl, (read_loop_Raise pre bad post 1 [] Hp Hb) in Hr.
    injection Hr as <-. do 2 f_equal. lia.
  - right. unfold read_numbers_from_file in Hr. rewrite Ho in Hr.
    unfold open_read in Ho.
    destruct (read_fault fs0 !! filename) as [er|] eqn:Hf.
    + injection Ho as <-. destruct er; simpl in Hr; injection Hr as <-.
      * by left.
      * right. by exists EACCES.
      * right. by exists EISDIR.
      * right. by exists ENOSPC.
    + destruct (files fs0 !! filename); [done|].
      injection Ho as <-. simpl in Hr. injection Hr as <-. by left.
Qed.

End Run.

(* ===================================================================== *)
(** * The smallest and the largest number *)
(* ===================================================================== *)

Section Extremes.

Lemma le_refl (x : float) : PyFloat.is_nan x = false → PyFloat.le x x = true.
Proof.
  intros Hx. apply not_gt_le; [done..|].
  destruct (PyFloat.lt x x) eqn:Hlt; [|done]. by rewrite (lt_asym _ _ Hlt) in Hlt.
Qed.

Lemma sort_numbers_StronglySorted (numbers : list float) :
  nan_free numbers →
  StronglySorted (λ a b, PyFloat.le a b = true) (sort_numbers numbers).
Proof.
  intros Hn. apply Sorted_StronglySorted.
  - intros a b c. apply le_trans.
  - apply adjacent_Sorted, run_non_descending; [|apply sorted_is_run].
    unfold nan_free, sort_numbers. by rewrite sorted_Permutation.
Qed.

Lemma StronglySorted_last (R : float → float → Prop) (l : list float) :
  StronglySorted R l →
  ∀ b, last l = Some b → ∀ x, x ∈ l → R x b ∨ x = b.
Proof.
  induction 1 as [|a l Hl IH Ha]; intros b Hb x Hx; [by inversion Hx|].
  destruct l as [|a' l'].
  - simpl in Hb. apply list_elem_of_singleton in Hx. right. congruence.
  - rewrite last_cons_cons in Hb. apply elem_of_cons in Hx as [->|Hx].
    + left. rewrite Forall_forall in Ha. apply Ha.
      eapply last_Some_elem_of. done.
    + by apply IH.
Qed.

(** The first element of the sorted numbers is below every number and
    the last one is above. *)
Lemma sort_numbers_extremes (numbers : list float) (a b : float) :
  nan_free numbers →
  head (sort_numbers numbers) = Some a →
  last (sort_numbers numbers) = Some b →
  a ∈ numbers ∧ b ∈ numbers
  ∧ ∀ x, x ∈ numbers → PyFloat.le a x = true ∧ PyFloat.le x b = true.
Proof.
  intros Hn Ha Hb.
  pose proof (sort_numbers_StronglySorted numbers Hn) as Hs.
  pose proof (sorted_Permutation numbers) as Hp. fold (sort_numbers numbers) in Hp.
  assert (∀ x, x ∈ numbers → PyFloat.is_nan x = false) as Hnan.
  { intros x Hx. unfold nan_free in Hn. rewrite Forall_forall in Hn.
    by apply Hn. }
  split_and!.
  - rewrite <- Hp. by apply head_Some_elem_of.
  - rewrite <- Hp. by apply last_Some_elem_of.
  - intros x Hx. rewrite <- Hp in Hx. split.
    + destruct (sort_numbers numbers) as [|a' l]; simplify_eq/=.
      apply StronglySorted_inv in Hs as [_ Hal].
      apply elem_of_cons in Hx as [->|Hx].
      * apply le_refl, Hnan. rewrite <- Hp. by left.
      * rewrite Forall_forall in Hal. by apply Hal.
    + destruct (StronglySorted_last _ _ Hs b Hb x Hx) as [?| ->]; [done|].
      apply le_refl, Hnan. by rewrite <- Hp.
Qed.

End Extremes.

(** X1: when the program has read numbers, one at least and none of them
    a NaN, and can write the output file, it returns, and what it reports
    is right: the count is the number of numbers read, the smallest
    number it prints is one of the numbers and is below each of them, and
    the largest one is one of them and is above each. *)
Theorem report_is_right
    (prog input_file output_file : string) (fs0 : filesystem)
    (numbers : list float) :
  read_numbers_from_file fs0 input_file = Ok numbers →
  numbers ≠ [] →
  nan_free numbers →
  write_fault fs0 !! output_file = None →
  ∃ smallest largest,
    run [prog; input_file; output_file] fs0 =
      (Returned,
       {| fs := with_output fs0 output_file (sort_numbers numbers);
          stdout :=
            ["Reading numbers from " +:+ input_file +:+ "...";
             "Found " +:+ PyStr.of_nat (length numbers) +:+ " numbers";
             "Sorting numbers...";
             "Writing sorted numbers to " +:+ output_file +:+ "...";
             "Sorting completed successfully!";
             "Smallest number: " +:+ PyStr.repr smallest;
             "Largest number: " +:+ PyStr.repr largest] |})
    ∧ smallest ∈ numbers
    ∧ largest ∈ numbers
    ∧ ∀ x, x ∈ numbers →
        PyFloat.le smallest x = true ∧ PyFloat.le x largest = true.
Proof.
  intros Hr Hne Hn Hw.
  pose proof (run_report prog _ _ _ _ Hr Hw) as Hrun. cbn zeta in Hrun.
  destruct (sort_numbers numbers) as [|a l] eqn:Hs.
  { by apply sorted_nil_inv in Hs. }
  destruct (last (a :: l)) as [b|] eqn:Hb; last first.
  { rewrite last_cons in Hb. by destruct (last l). }
  exists a, b. split.
  - by rewrite Hrun.
  - apply sort_numbers_extremes; [done|by rewrite Hs..].
Qed.

Lemma report_is_right_witness :
  let numbers := [float_30; float_10; float_20_5] in
  ∃ smallest largest,
    run ["number_sorter.py"; "in.txt"; "out.txt"]
        (one_file "in.txt" (render_lines ["30"; "10"; "20.5"])) =
      (Returned,
       {| fs := with_output
                  (one_file "in.txt" (render_lines ["30"; "10"; "20.5"]))
                  "out.txt" (sort_numbers numbers);
          stdout :=
            ["Reading numbers from " +:+ "in.txt" +:+ "...";
             "Found " +:+ PyStr.of_nat (length numbers) +:+ " numbers";
             "Sorting numbers...";
             "Writing sorted numbers to " +:+ "out.txt" +:+ "...";
             "Sorting completed successfully!";
             "Smallest number: " +:+ PyStr.repr smallest;
             "Largest number: " +:+ PyStr.repr largest] |})
    ∧ smallest ∈ numbers
    ∧ largest ∈ numbers
    ∧ ∀ x, x ∈ numbers →
        PyFloat.le smallest x = true ∧ PyFloat.le x largest = true.
Proof.
  intros numbers.
  apply (report_is_right "number_sorter.py" "in.txt" "out.txt"
           (one_file "in.txt" (render_lines ["30"; "10"; "20.5"])) numbers).
  - vm_compute. reflexivity.
  - discriminate.
  - repeat constructor.
  - vm_compute. reflexivity.
Defined.

(* ===================================================================== *)
(** * Failures of the reader *)
(* ===================================================================== *)



(* ===================================================================== *)
(** * Every run of the program *)
(* ===================================================================== *)

Section EveryRun.

Lemma length_3_inv (argv : list string) :
  length argv = 3%nat → ∃ prog input_file output_file,
    argv = [prog; input_file; output_file].
Proof. destruct argv as [|? [|? [|? [|? ?]]]]; try done. eauto. Qed.

(** The reader looks at the input file only. *)
Lemma read_numbers_from_file_frame (fs1 fs2 : filesystem) (filename : string) :
  read_fault fs1 !! filename = read_fault fs2 !! filename →
  files fs1 !! filename = files fs2 !! filename →
  read_numbers_from_file fs1 filename = read_numbers_from_file fs2 filename.
Proof.
  intros Hf Hc. unfold read_numbers_from_file, open_read. by rewrite Hf, Hc.
Qed.

(** What a run with three arguments comes to, by the result of the reader
    and the state of the output file. *)
Lemma run_cases (prog input_file output_file : string) (fs0 : filesystem) :
  (∃ e, read_numbers_from_file fs0 input_file = Raise e
        ∧ fs (run [prog; input_file; output_file] fs0).2 = fs0
        ∧ exit_status (run [prog; input_file; output_file] fs0).1 = 1)
  ∨ (∃ numbers er,
       read_numbers_from_file fs0 input_file = Ok numbers
       ∧ write_fault fs0 !! output_file = Some er
       ∧ fs (run [prog; input_file; output_file] fs0).2 = fs0
       ∧ exit_status (run [prog; input_file; output_file] fs0).1 = 1)
  ∨ (∃ numbers,
       read_numbers_from_file fs0 input_file = Ok numbers
       ∧ write_fault fs0 !! output_file = None
       ∧ fs (run [prog; input_file; output_file] fs0).2
         = with_output fs0 output_file (sort_numbers numbers)
       ∧ exit_status (run [prog; input_file; output_file] fs0).1
         = if decide (numbers = []) then 1 else 0).
Proof.
  destruct (read_numbers_from_file fs0 input_file) as [numbers|e] eqn:Hr.
  - right. destruct (write_fault fs0 !! output_file) as [er|] eqn:Hw.
    + left. exists numbers, er. split_and!; [done..| |].
      all: rewrite (run_write_raises prog _ _ _ _ _ Hr Hw); by destruct er.
    + right. exists numbers. split_and!; [done..| |].
      all: rewrite (run_report prog _ _ _ _ Hr Hw); cbn zeta.
      all: destruct (sort_numbers numbers) as [|a l] eqn:Hs.
      * done.
      * simpl. by destruct (last (a :: l)).
      * apply sorted_nil_inv in Hs as ->. done.
      * rewrite decide_False by (by intros ->).
        cbn [head]. destruct (last (a :: l)) as [b|] eqn:Hb; [done|].
        rewrite last_cons in Hb. by destruct (last l).
  - left. exists e. split; [done|].
    destruct (handled e) eqn:Hh.
    + by rewrite (run_read_caught prog _ output_file _ _ Hr Hh).
    + rewrite (run_read_uncaught prog _ output_file _ _ Hr Hh).
      split; [done|].
      destruct (read_numbers_from_file_raises _ _ _ Hr)
        as [(?&?&?&?&?&?&?&?& ->)|[->|(er & _ & _ & ->)]]; try done.
      by destruct er.
Qed.

End EveryRun.


(** X4: the program changes no file but the output file: every other
    path holds after the run what it held before, the input file
    included when it is not the output file, and what can be opened is
    the same as before. *)
Theorem run_changes_output_only
    (argv : list string) (fs0 : filesystem) (path : string) :
  argv !! 2%nat ≠ Some path →
  files (fs (run argv fs0).2) !! path = files fs0 !! path
  ∧ read_fault (fs (run argv fs0).2) = read_fault fs0
  ∧ write_fault (fs (run argv fs0).2) = write_fault fs0.
Proof.
  intros Hp.
  destruct (decide (length argv = 3%nat)) as [Hl|Hl]; last first.
  { by rewrite (run_usage _ _ Hl). }
  destruct (length_3_inv _ Hl) as (prog & input_file & output_file & ->).
  destruct (run_cases prog input_file output_file fs0)
    as [(e & _ & -> & _)|[(numbers & er & _ & _ & -> & _)
                         |(numbers & _ & _ & -> & _)]]; [done..|].
  simpl. split; [|done].
  apply lookup_insert_ne. intros ->. by apply Hp.
Qed.

Lemma run_changes_output_only_witness :
  let fs0 := one_file "in.txt" (render_lines ["2"; "1"]) in
  files (fs (run ["number_sorter.py"; "in.txt"; "out.txt"] fs0).2) !! "in.txt"
    = files fs0 !! "in.txt"
  ∧ read_fault (fs (run ["number_sorter.py"; "in.txt"; "out.txt"] fs0).2)
    = read_fault fs0
  ∧ write_fault (fs (run ["number_sorter.py"; "in.txt"; "out.txt"] fs0).2)
    = write_fault fs0.
Proof.
  intros fs0.
  apply (run_changes_output_only ["number_sorter.py"; "in.txt"; "out.txt"]
           fs0 "in.txt").
  discriminate.
Defined.

(** X5: with an output file that is not the input file, running the
    program again on the files it has left gives the same ending, the
    same lines on standard output and the same files: the output file is
    replaced, never appended to. *)
Theorem run_twice
    (prog input_file output_file : string) (fs0 : filesystem) :
  input_file ≠ output_file →
  run [prog; input_file; output_file]
      (fs (run [prog; input_file; output_file] fs0).2)
  = run [prog; input_file; output_file] fs0.
Proof.
  intros Hne.
  destruct (run_cases prog input_file output_file fs0)
    as [(e & _ & -> & _)|[(numbers & er & _ & _ & -> & _)
                         |(numbers & Hr & Hw & -> & _)]]; [done..|].
  set (fs1 := with_output fs0 output_file (sort_numbers numbers)).
  assert (read_numbers_from_file fs1 input_file = Ok numbers) as Hr1.
  { rewrite <- Hr. apply read_numbers_from_file_frame; [done|].
    simpl. by apply lookup_insert_ne. }
  rewrite (run_report prog _ _ _ _ Hr1 Hw), (run_report prog _ _ _ _ Hr Hw).
  cbn zeta.
  assert (with_output fs1 output_file (sort_numbers numbers) = fs1) as ->.
  { unfold with_output, fs1. simpl. by rewrite insert_insert_eq. }
  done.
Qed.

Lemma run_twice_witness :
  let fs0 := one_file "in.txt" (render_lines ["2"; "1"]) in
  run ["number_sorter.py"; "in.txt"; "out.txt"]
      (fs (run ["number_sorter.py"; "in.txt"; "out.txt"] fs0).2)
  = run ["number_sorter.py"; "in.txt"; "out.txt"] fs0.
Proof.
  intros fs0.
  apply (run_twice "number_sorter.py" "in.txt" "out.txt" fs0). discriminate.
Defined.


(* ===================================================================== *)
(** * Line ends *)
(* ===================================================================== *)

Section LineEnds.

Lemma string_app_cons (c : ascii) (s t : string) :
  String c s +:+ t = String c (s +:+ t).
Proof. reflexivity. Qed.

Lemma rev_app_rev_app (s : string) : ∀ acc out,
  String.rev_app (String.rev_app s acc) out = String.rev_app acc (s +:+ out).
Proof.
  induction s as [|c s IH]; intros acc out; [done|].
  simpl. by rewrite IH.
Qed.

Lemma rev_app_app (s t : string) : ∀ acc,
  String.rev_app (s +:+ t) acc = String.rev_app t (String.rev_app s acc).
Proof.
  induction s as [|c s IH]; intros acc; [done|].
  rewrite string_app_cons. simpl. by rewrite IH.
Qed.

Lemma rev_app_not_empty (s : string) : ∀ acc,
  acc ≠ "" → String.rev_app s acc ≠ "".
Proof.
  induction s as [|c s IH]; intros acc Hacc; simpl; [done|]. by apply IH.
Qed.

(** A finished line is the text read, with ["\n"] behind it. *)
Lemma rev_line (t : string) :
  String.rev (String PyStr.LF (String.rev_app t "")) = t +:+ String PyStr.LF "".
Proof.
  unfold String.rev. simpl. by rewrite rev_app_rev_app.
Qed.

Lemma lines_from_text (t : string) : ∀ cur rest,
  newline_free t →
  PyStr.lines_from cur (t +:+ rest) = PyStr.lines_from (String.rev_app t cur) rest.
Proof.
  induction t as [|c t IH]; intros cur rest Hn; [done|].
  inversion_clear Hn as [|? ? [Hlf Hcr] Hn'].
  rewrite string_app_cons. simpl.
  destruct (Ascii.eqb_spec c PyStr.LF) as [?|_]; [done|].
  destruct (Ascii.eqb_spec c PyStr.CR) as [?|_]; [done|].
  by apply IH.
Qed.

(** A text with ["\r"] behind each line does not begin with ["\n"]. *)
Lemma render_with_CR_head (texts : list string) :
  Forall newline_free texts →
  match render_with (String PyStr.CR "") texts with
  | String c _ => c ≠ PyStr.LF
  | EmptyString => True
  end.
Proof.
  destruct 1 as [|t texts Ht _]; simpl; [done|].
  destruct t as [|c t]; [done|].
  rewrite string_app_cons. by inversion_clear Ht as [|? ? [? ?] ?].
Qed.

Lemma string_app_single (c : ascii) (s : string) :
  String c "" +:+ s = String c s.
Proof. reflexivity. Qed.

Lemma string_app_nil_l (s : string) : "" +:+ s = s.
Proof. reflexivity. Qed.

Lemma lines_from_LF (cur rest : string) :
  PyStr.lines_from cur (String PyStr.LF rest)
  = String.rev (String PyStr.LF cur) :: PyStr.lines_from "" rest.
Proof. reflexivity. Qed.

Lemma lines_from_CRLF (cur rest : string) :
  PyStr.lines_from cur (String PyStr.CR (String PyStr.LF rest))
  = String.rev (String PyStr.LF cur) :: PyStr.lines_from "" rest.
Proof. reflexivity. Qed.

Lemma lines_from_CR (cur rest : string) :
  match rest with String c _ => c ≠ PyStr.LF | EmptyString => True end →
  PyStr.lines_from cur (String PyStr.CR rest)
  = String.rev (String PyStr.LF cur) :: PyStr.lines_from "" rest.
Proof.
  intros H. destruct rest as [|c rest]; [done|].
  change (PyStr.lines_from cur (String PyStr.CR (String c rest)))
    with (if Ascii.eqb c PyStr.LF
          then String.rev (String PyStr.LF cur) :: PyStr.lines_from "" rest
          else String.rev (String PyStr.LF cur)
                 :: PyStr.lines_from "" (String c rest)).
  by destruct (Ascii.eqb_spec c PyStr.LF).
Qed.

(** The lines of a text, whatever ends its lines. *)
Lemma lines_of_render (texts : list string) :
  Forall newline_free texts →
  PyStr.readlines (render_lines texts)
    = (λ t, t +:+ String PyStr.LF "") <$> texts
  ∧ PyStr.readlines (render_with CRLF texts)
    = (λ t, t +:+ String PyStr.LF "") <$> texts
  ∧ PyStr.readlines (render_with (String PyStr.CR "") texts)
    = (λ t, t +:+ String PyStr.LF "") <$> texts.
Proof.
  unfold PyStr.readlines.
  induction 1 as [|t texts Ht Hts (IH1 & IH2 & IH3)]; [done|].
  rewrite !fmap_cons. cbn [render_lines render_with].
  split_and!; rewrite lines_from_text by done.
  - by rewrite string_app_single, lines_from_LF, IH1, rev_line.
  - unfold CRLF at 1.
    rewrite string_app_cons, string_app_single, lines_from_CRLF.
    by rewrite IH2, rev_line.
  - rewrite string_app_single,
      (lines_from_CR _ _ (render_with_CR_head texts Hts)).
    by rewrite IH3, rev_line.
Qed.

Lemma lstrip_app_space (s : string) :
  PyStr.lstrip (s +:+ String PyStr.LF "") =
    if String.eqb (PyStr.lstrip s) "" then ""
    else PyStr.lstrip s +:+ String PyStr.LF "".
Proof.
  induction s as [|c s IH]; [done|].
  rewrite string_app_cons. simpl. by destruct (PyStr.isspace c).
Qed.

(** [strip] takes the line end away. *)
Lemma strip_line_end (t : string) :
  PyStr.strip (t +:+ String PyStr.LF "") = PyStr.strip t.
Proof.
  unfold PyStr.strip. rewrite lstrip_app_space.
  destruct (String.eqb_spec (PyStr.lstrip t) "") as [->|_]; [done|].
  unfold PyStr.rstrip, String.rev. by rewrite rev_app_app.
Qed.

(** The loop looks at the stripped lines only. *)
Lemma read_loop_strip (lines1 lines2 : list string) :
  PyStr.strip <$> lines1 = PyStr.strip <$> lines2 →
  ∀ n numbers, read_loop n lines1 numbers = read_loop n lines2 numbers.
Proof.
  revert lines2. induction lines1 as [|l1 lines1 IH];
    intros [|l2 lines2] H n numbers; try done.
  rewrite !fmap_cons in H. injection H as Hl H. simpl. rewrite Hl.
  destruct (negb _); [|by apply IH].
  destruct (PyStr.to_float _); [by apply IH|done].
Qed.

End LineEnds.

(** X6: the line ends of the input do not matter.  Whether the lines of
    a file end in ["\n"], in ["\r\n"] or in ["\r"], and whether or not
    the last line has a line end, [read_numbers_from_file] gives the same
    result, numbers or exception. *)
Theorem reader_line_ends
    (fs1 fs2 : filesystem) (file1 file2 : string)
    (texts : list string) (final : string) :
  Forall newline_free texts → newline_free final → final ≠ "" →
  open_read fs1 file1 = Ok (render_lines (texts ++ [final])) →
  (open_read fs2 file2 = Ok (render_with CRLF (texts ++ [final]))
   ∨ open_read fs2 file2
     = Ok (render_with (String PyStr.CR "") (texts ++ [final]))
   ∨ open_read fs2 file2 = Ok (render_lines texts +:+ final)) →
  read_numbers_from_file fs2 file2 = read_numbers_from_file fs1 file1.
Proof.
  intros Hts Hf Hne Ho1 Ho2.
  assert (Forall newline_free (texts ++ [final])) as Hall
    by (apply Forall_app; split; [done|by constructor]).
  destruct (lines_of_render _ Hall) as (H1 & H2 & H3).
  rewrite (read_numbers_from_file_open _ _ _ Ho1), H1.
  destruct Ho2 as [Ho2|[Ho2|Ho2]];
    rewrite (read_numbers_from_file_open _ _ _ Ho2).
  - by rewrite H2.
  - by rewrite H3.
  - apply read_loop_strip.
    assert (PyStr.readlines (render_lines texts +:+ final)
            = ((λ t, t +:+ String PyStr.LF "") <$> texts) ++ [final]) as ->.
    { clear -Hts Hf Hne. unfold PyStr.readlines.
      induction Hts as [|t texts Ht Hts IH]; simpl.
      - rewrite string_app_nil_l. rewrite <- (string_app_nil_r final) at 1.
        rewrite (lines_from_text final "" "") by done. simpl.
        destruct final as [|c final]; [done|].
        unfold String.rev. simpl.
        destruct (String.eqb_spec (String.rev_app final (String c "")) "")
          as [He|_].
        + by apply rev_app_not_empty in He.
        + f_equal. pose proof (rev_app_rev_app (String c final) "" "") as Hrr.
          simpl in Hrr. rewrite Hrr. by rewrite string_app_nil_r.
      - rewrite !string_app_assoc, lines_from_text by done.
        rewrite string_app_single, lines_from_LF.
        by rewrite IH, rev_line. }
    rewrite !fmap_app, !fmap_cons, <- !list_fmap_compose. simpl.
    by rewrite strip_line_end.
Qed.

Lemma reader_line_ends_witness :
  let texts := ["10"; " 2.5 "] in
  read_numbers_from_file
    (one_file "dos.txt" (render_with CRLF (texts ++ ["7"]))) "dos.txt"
  = read_numbers_from_file
      (one_file "unix.txt" (render_lines (texts ++ ["7"]))) "unix.txt".
Proof.
  intros texts.
  apply (reader_line_ends (one_file "unix.txt" (render_lines (texts ++ ["7"])))
           (one_file "dos.txt" (render_with CRLF (texts ++ ["7"])))
           "unix.txt" "dos.txt" texts "7").
  - repeat constructor; discriminate.
  - repeat constructor; discriminate.
  - discriminate.
  - vm_compute. reflexivity.
  - left. vm_compute. reflexivity.
Defined.

(* ===================================================================== *)
(** * The characters of the output *)
(* ===================================================================== *)

Section OutputText.

Lemma digit_nchar (c : ascii) : digit c → nchar c.
Proof. unfold digit, nchar, number_char. by intros ->. Qed.

Lemma digits_nchars (s : list ascii) : Forall digit s → Forall nchar s.
Proof. intros H. eapply Forall_impl; [done|apply digit_nchar]. Qed.

Lemma of_int_nchars (z : Z) :
  Forall nchar (list_ascii_of_string (PyStr.of_int z)).
Proof.
  destruct (Z.le_gt_cases 0 z) as [Hz|Hz].
  - by apply digits_nchars, of_int_digits.
  - destruct z as [|p|p]; [lia..|]. unfold PyStr.of_int.
    destruct (nilzero_digits (Pos.to_uint p)) as (c & s & Hs & Hd).
    simpl. rewrite Hs. constructor; [done|]. by apply digits_nchars.
Qed.

Lemma of_int_nonempty (z : Z) : PyStr.of_int z ≠ "".
Proof.
  unfold PyStr.of_int. destruct z as [|p|p]; [done| |done].
  destruct (nilzero_digits (Pos.to_uint p)) as (c & s & Hs & _).
  simpl. intros He. by rewrite He in Hs.
Qed.

Lemma exponent_text_nchars (ex : Z) : Forall nchar (PyStr.exponent_text ex).
Proof.
  unfold PyStr.exponent_text.
  assert (Forall nchar (list_ascii_of_string (PyStr.of_int (Z.abs ex)))) as Ha
    by apply of_int_nchars.
  constructor; [by destruct (ex <? 0)|].
  destruct (Z.abs ex <? 10); [by constructor|done].
Qed.

Lemma positional_nchars (ds : list ascii) (decpt : Z) :
  Forall digit ds → Forall nchar (PyStr.positional ds decpt).
Proof.
  intros Hd%digits_nchars.
  assert (Forall nchar (PyStr.zeros (- decpt))
          ∧ Forall nchar (PyStr.zeros (decpt - Z.of_nat (length ds))))
    as [Hz1 Hz2] by (split; apply digits_nchars, zeros_digits).
  unfold PyStr.positional.
  destruct (decpt <=? 0); [|destruct (_ <=? decpt)].
  - repeat constructor. by apply Forall_app.
  - rewrite !Forall_app. split_and!; [done..|]. by repeat constructor.
  - apply Forall_app. split; [by apply Forall_take|].
    constructor; [done|]. by apply Forall_drop.
Qed.

Lemma exponential_nchars (ds : list ascii) (decpt : Z) :
  Forall digit ds → Forall nchar (PyStr.exponential ds decpt).
Proof.
  intros Hd%digits_nchars. unfold PyStr.exponential.
  pose proof (exponent_text_nchars (decpt - 1)) as He.
  destruct ds as [|d [|d' ds]]; [done| |].
  - inversion_clear Hd. constructor; [done|]. by constructor.
  - inversion_clear Hd as [|? ? ? Hd']. constructor; [done|].
    constructor; [done|]. apply Forall_app. split; [done|]. by constructor.
Qed.

Lemma repr_nchars (x : float) :
  Forall nchar (list_ascii_of_string (PyStr.repr x)).
Proof.
  destruct x as [[]|[]| |s m e]; simpl; try by repeat constructor.
  assert (Forall nchar (PyStr.repr_finite m e)) as Hf.
  { unfold PyStr.repr_finite. pose proof (repr_digits_digits m e) as Hd.
    destruct (PyStr.repr_digits m e) as [ds decpt]. simpl in Hd.
    destruct (PyStr.use_exp decpt);
      [by apply exponential_nchars|by apply positional_nchars]. }
  destruct s; simpl; rewrite list_ascii_of_string_of_list_ascii; [|done].
  by constructor.
Qed.

(** The text of a number is made of the characters of numbers. *)
Lemma number_text_nchars (number : float) :
  Forall nchar (list_ascii_of_string (number_text number)).
Proof.
  unfold number_text, format_number.
  destruct (PyFloat.is_integer number); [|apply repr_nchars].
  destruct (int_of_float number); [apply of_int_nchars|constructor].
Qed.

Lemma nchar_newline_free (t : string) :
  Forall nchar (list_ascii_of_string t) → newline_free t.
Proof.
  intros H. eapply Forall_impl; [done|].
  intros c Hc. split; intros ->; discriminate Hc.
Qed.

End OutputText.



(* ===================================================================== *)
(** * The order of equal numbers *)
(* ===================================================================== *)

Section Stability.

(** What is below a float is not equal to the floats equal to it. *)
Lemma lt_eq_neq (y a x : float) :
  PyFloat.lt y a = true → PyFloat.eq a x = true → PyFloat.eq y x = false.
Proof.
  unfold PyFloat.lt, PyFloat.eq, SFltb, SFeqb.
  destruct y as [[]|[]| |[] m1 e1], a as [[]|[]| |[] m2 e2],
           x as [[]|[]| |[] m3 e3]; simpl; try done.
  all: destruct (Z.compare_spec e1 e2), (Z.compare_spec e2 e3),
         (Z.compare_spec e1 e3); simpl; try done; try lia.
  all: pose proof (Pos.compare_spec m1 m2) as H12;
       pose proof (Pos.compare_spec m2 m3) as H23;
       pose proof (Pos.compare_spec m1 m3) as H13;
       unfold Pos.compare in H12, H23, H13.
  all: destruct H12, H23, H13; simpl; try done; try lia.
Qed.

Lemma filter_insert (x a : float) (l : list float) :
  filter (λ y, PyFloat.eq y x = true) (insert a l)
  = filter (λ y, PyFloat.eq y x = true) (a :: l).
Proof.
  induction l as [|y l IH]; simpl; [done|].
  destruct (PyFloat.lt y a) eqn:Hlt; [|done].
  rewrite (filter_cons _ y), IH, !filter_cons.
  destruct (decide (PyFloat.eq a x = true)) as [Ha|Ha]; [|done].
  rewrite (lt_eq_neq _ _ _ Hlt Ha). by destruct (decide (false = true)).
Qed.

End Stability.

(** X8: [sort_numbers] is stable on numbers without NaN: the numbers
    that compare equal to a given float, such as [0.0] and [-0.0], come
    out in the order in which they came in. *)
Theorem sort_numbers_stable (x : float) (numbers : list float) :
  nan_free numbers →
  filter (λ y, PyFloat.eq y x = true) (sort_numbers numbers)
  = filter (λ y, PyFloat.eq y x = true) numbers.
Proof.
  intros _.
  unfold sort_numbers. induction numbers as [|a numbers IH]; simpl; [done|].
  by rewrite filter_insert, !filter_cons, IH.
Qed.

Lemma sort_numbers_stable_witness :
  let numbers := [float_1; S754_zero false; S754_zero true; float_10;
                  S754_zero false] in
  nan_free numbers
  ∧ filter (λ y, PyFloat.eq y (S754_zero true) = true) (sort_numbers numbers)
    = [S754_zero false; S754_zero true; S754_zero false].
Proof.
  intros numbers.
  assert (nan_free numbers) as Hn by (repeat constructor).
  split; [exact Hn|].
  exact (sort_numbers_stable (S754_zero true) numbers Hn).
Defined.

(* ===================================================================== *)
(** * Integers and their digits *)
(* ===================================================================== *)

Section Digits.

Lemma of_uint_acc_value (u : Decimal.uint) : ∀ acc : positive,
  fold_left (λ a c, 10 * a + PyStr.digit_value c)
    (list_ascii_of_string (NilEmpty.string_of_uint u)) (Z.pos acc)
  = Z.pos (Pos.of_uint_acc u acc).
Proof.
  induction u; intros acc; simpl; [done|..]; rewrite <- IHu; f_equal;
    unfold PyStr.digit_value, PyStr.code; simpl; lia.
Qed.

Lemma of_uint_value (u : Decimal.uint) :
  PyStr.digits_value (list_ascii_of_string (NilEmpty.string_of_uint u))
  = Z.of_N (Pos.of_uint u).
Proof.
  unfold PyStr.digits_value.
  induction u; simpl; [done|done|..]; apply of_uint_acc_value.
Qed.

Lemma of_int_pos (p : positive) :
  PyStr.of_int (Z.pos p) = NilEmpty.string_of_uint (Pos.to_uint p).
Proof.
  unfold PyStr.of_int. simpl. unfold NilZero.string_of_uint.
  pose proof (Unsigned.to_uint_nonnil p). by destruct (Pos.to_uint p).
Qed.

(** [str(z)] reads back as [z]. *)
Lemma digits_value_of_int (z : Z) :
  0 ≤ z → PyStr.digits_value (list_ascii_of_string (PyStr.of_int z)) = z.
Proof.
  intros Hz. destruct z as [|p|p]; [done| |lia].
  by rewrite of_int_pos, of_uint_value, Unsigned.of_to.
Qed.

(** [str(z)] of a positive [z] does not begin with a zero. *)
Lemma of_int_head (p : positive) :
  ∃ c s, list_ascii_of_string (PyStr.of_int (Z.pos p)) = c :: s
         ∧ PyStr.isdigit c = true ∧ c ≠ "0"%char.
Proof.
  rewrite of_int_pos.
  pose proof (Unsigned.to_of (Pos.to_uint p)) as Hn.
  rewrite Unsigned.of_to in Hn. simpl in Hn.
  pose proof (Unsigned.to_uint_nonzero p) as Hz.
  destruct (Pos.to_uint p) as [|u|u|u|u|u|u|u|u|u|u] eqn:Hu; simpl.
  3-11: by eexists _, _; split; [done|split].
  - done.
  - exfalso. rewrite unorm_D0 in Hn. unfold Decimal.unorm in Hn.
    pose proof (nzhead_nonzero u u) as Hnz.
    destruct (Decimal.nzhead u) eqn:Hh; simplify_eq; try done.
Qed.

Lemma digits_value_lower (ds : list ascii) : ∀ acc,
  0 ≤ acc → Forall digit ds →
  acc * 10 ^ Z.of_nat (length ds)
  ≤ fold_left (λ a c, 10 * a + PyStr.digit_value c) ds acc.
Proof.
  induction ds as [|c ds IH]; intros acc Hacc Hd; simpl; [lia|].
  inversion_clear Hd as [|? ? Hc Hds].
  assert (0 ≤ PyStr.digit_value c) as Hv.
  { unfold digit, PyStr.isdigit, PyStr.digit_value in *. lia. }
  etrans; [|apply IH; [lia|done]].
  replace (Z.of_nat (S (length ds))) with (Z.of_nat (length ds) + 1) by lia.
  rewrite Z.pow_add_r by lia. nia.
Qed.

Lemma string_length_chars (s : string) :
  String.length s = length (list_ascii_of_string s).
Proof. induction s as [|c s IH]; simpl; [done|]. by rewrite IH. Qed.

(** A positive integer is not below the power of ten of its number of
    digits less one. *)
Lemma of_int_length_lower (q : Z) :
  0 < q → 10 ^ (Z.of_nat (String.length (PyStr.of_int q)) - 1) ≤ q.
Proof.
  intros Hq. destruct q as [|p|p]; [lia| |lia].
  destruct (of_int_head p) as (c & s & Hs & Hc & Hc0).
  pose proof (digits_value_of_int (Z.pos p) ltac:(lia)) as Hv.
  pose proof (of_int_digits (Z.pos p) ltac:(lia)) as Hd.
  rewrite string_length_chars. rewrite Hs in Hv, Hd |- *.
  inversion_clear Hd as [|? ? _ Hds].
  unfold PyStr.digits_value in Hv. simpl in Hv.
  assert (1 ≤ PyStr.digit_value c) as H1.
  { assert (PyStr.digit_value c ≠ 0) as Hne.
    { intros H0. apply Hc0. clear -H0 Hc.
      destruct c as [[] [] [] [] [] [] [] []]; by vm_compute in H0, Hc |- *. }
    unfold PyStr.isdigit, PyStr.digit_value in *. lia. }
  pose proof (digits_value_lower s (PyStr.digit_value c) ltac:(lia) Hds) as Hl.
  simpl length. replace (Z.of_nat (S (length s)) - 1) with (Z.of_nat (length s)) by lia.
  rewrite Z.mul_0_r, Z.add_0_l in Hv.
  assert (0 < 10 ^ Z.of_nat (length s)) by (apply Z.pow_pos_nonneg; lia).
  nia.
Qed.

End Digits.

(* ===================================================================== *)
(** * The text of a number is not blank *)
(* ===================================================================== *)

Section NotBlank.

Lemma leading_zeros_spec (fuel : nat) : ∀ num den j,
  0 < num → num < den → den ≤ num * 10 ^ Z.of_nat fuel →
  ∃ k, PyStr.leading_zeros fuel num den j = j + k
       ∧ 0 ≤ k ∧ den ≤ num * 10 ^ (k + 1).
Proof.
  induction fuel as [|fuel IH]; intros num den j Hnum Hlt Hfuel.
  - simpl in Hfuel. lia.
  - simpl. destruct (Z.leb_spec den (num * 10)) as [Hle|Hgt].
    + exists 0. simpl. lia.
    + destruct (IH (num * 10) den (j + 1)) as (k & Hk & Hk0 & Hden);
        [lia|lia| |].
      * replace (Z.of_nat (S fuel)) with (1 + Z.of_nat fuel) in Hfuel by lia.
        rewrite Z.pow_add_r in Hfuel by lia. lia.
      * exists (k + 1). split_and!; [lia|lia|].
        replace (k + 1 + 1) with (1 + (k + 1)) by lia.
        rewrite Z.pow_add_r by lia. lia.
Qed.

(** The number scaled to [n] digits before the decimal point is 1 at
    least. *)
Lemma decimal_point_scaled (num den e n : Z) :
  0 < num → 0 < den → den ≤ num * 10 ^ Z.of_nat (Z.to_nat (- e)) → 1 ≤ n →
  let sh := n - PyStr.decimal_point num den e in
  0 < (if 0 <=? sh then den else den * 10 ^ (- sh))
  ∧ (if 0 <=? sh then den else den * 10 ^ (- sh))
    ≤ (if 0 <=? sh then num * 10 ^ sh else num).
Proof.
  intros Hnum Hden Hfuel Hn. unfold PyStr.decimal_point.
  destruct (Z.leb_spec den num) as [Hle|Hlt].
  - set (q := num / den). assert (0 < q) as Hq by (by apply Z.div_str_pos).
    pose proof (of_int_length_lower q Hq) as Hlen.
    set (L := Z.of_nat (String.length (PyStr.of_int q))) in *.
    assert (den * q ≤ num) as Hdq by (apply Z.mul_div_le; lia).
    cbn zeta. destruct (Z.leb_spec 0 (n - L)) as [Hsh|Hsh].
    + split; [done|].
      assert (1 ≤ 10 ^ (n - L)) by (apply Z.lt_pred_le, Z.pow_pos_nonneg; lia).
      nia.
    + assert (0 < 10 ^ (- (n - L))) by (apply Z.pow_pos_nonneg; lia).
      split; [lia|].
      assert (10 ^ (- (n - L)) ≤ 10 ^ (L - 1))
        by (apply Z.pow_le_mono_r; lia).
      nia.
  - destruct (leading_zeros_spec (Z.to_nat (- e)) num den 0 Hnum Hlt Hfuel)
      as (k & -> & Hk0 & Hk).
    cbn zeta. destruct (Z.leb_spec 0 (n - - (0 + k))) as [Hsh|Hsh]; [|lia].
    split; [done|].
    replace (n - - (0 + k)) with ((k + 1) + (n - 1)) by lia.
    rewrite Z.pow_add_r by lia.
    assert (1 ≤ 10 ^ (n - 1)) by (apply Z.lt_pred_le, Z.pow_pos_nonneg; lia).
    assert (0 < 10 ^ (k + 1)) by (apply Z.pow_pos_nonneg; lia).
    nia.
Qed.

Lemma candidate_positive force m e num den decpt n c :
  0 < (if 0 <=? n - decpt then den else den * 10 ^ (- (n - decpt))) →
  (if 0 <=? n - decpt then den else den * 10 ^ (- (n - decpt)))
  ≤ (if 0 <=? n - decpt then num * 10 ^ (n - decpt) else num) →
  PyStr.candidate force m e num den decpt n = Some c → 0 < c.
Proof.
  unfold PyStr.candidate.
  set (sh := n - decpt).
  set (N := if 0 <=? sh then num * 10 ^ sh else num).
  set (D := if 0 <=? sh then den else den * 10 ^ (- sh)).
  intros HD HDN.
  assert (0 < N / D) as Hc by (by apply Z.div_str_pos).
  clearbody N D sh. intros H.
  repeat match type of H with
         | (if ?b then _ else _) = _ => destruct b
         | match ?x with _ => _ end = _ => destruct x
         end; simplify_eq; try lia.
  all: destruct (_ ?= _); [destruct (Z.even _)| |]; lia.
Qed.

Lemma candidate_forced m e num den decpt n :
  is_Some (PyStr.candidate true m e num den decpt n).
Proof.
  unfold PyStr.candidate.
  repeat match goal with
         | |- is_Some (if ?b then _ else _) => destruct b
         end; by eexists.
Qed.

Lemma shortest_positive fuel m e num den : ∀ n c k,
  0 < num → 0 < den → den ≤ num * 10 ^ Z.of_nat (Z.to_nat (- e)) → 1 ≤ n →
  PyStr.shortest fuel m e num den (PyStr.decimal_point num den e) n = (c, k) →
  0 < c.
Proof.
  induction fuel as [|fuel IH]; intros n c k Hnum Hden Hfuel Hn; simpl.
  - destruct (candidate_forced m e num den (PyStr.decimal_point num den e) n)
      as [c' Hc]. rewrite Hc. intros [= <- <-]. simpl.
    destruct (decimal_point_scaled num den e n Hnum Hden Hfuel Hn) as [? ?].
    by eapply candidate_positive.
  - destruct (PyStr.candidate false _ _ _ _ _ _) as [c'|] eqn:Hc.
    + intros [= <- <-].
      destruct (decimal_point_scaled num den e n Hnum Hden Hfuel Hn) as [? ?].
      by eapply candidate_positive.
    + apply IH; [done..|lia].
Qed.

Lemma strip_zeros_rev_nonempty (l : list ascii) (h : ascii) :
  h ≠ "0"%char → PyStr.strip_zeros_rev (l ++ [h]) ≠ [].
Proof.
  intros Hh. induction l as [|c l IH]; simpl.
  - by destruct (Ascii.eqb_spec h "0").
  - by destruct (Ascii.eqb c "0").
Qed.

(** The digits of [repr] are one at least. *)
Lemma repr_digits_nonempty (m : positive) (e : Z) :
  (PyStr.repr_digits m e).1 ≠ [].
Proof.
  unfold PyStr.repr_digits.
  set (num := if 0 <=? e then Z.pos m * 2 ^ e else Z.pos m).
  set (den := if 0 <=? e then 1 else 2 ^ (- e)).
  destruct (PyStr.shortest _ _ _ _ _ _ _) as [c n] eqn:Hs. simpl.
  assert (0 < c) as Hc.
  { eapply shortest_positive; [| | |reflexivity|exact Hs].
    - unfold num. destruct (Z.leb_spec 0 e); [|done].
      apply Z.mul_pos_pos; [done|]. apply Z.pow_pos_nonneg; lia.
    - unfold den. destruct (Z.leb_spec 0 e); [done|].
      apply Z.pow_pos_nonneg; lia.
    - unfold num, den. destruct (Z.leb_spec 0 e) as [He|He].
      + assert (0 < 2 ^ e) by (apply Z.pow_pos_nonneg; lia).
        assert (0 < 10 ^ Z.of_nat (Z.to_nat (- e)))
          by (apply Z.pow_pos_nonneg; lia).
        nia.
      + rewrite Z2Nat.id by lia.
        assert (2 ^ (- e) ≤ 10 ^ (- e)) by (apply Z.pow_le_mono_l; lia).
        nia. }
  destruct c as [|p|p]; [lia| |lia].
  destruct (of_int_head p) as (h & s & -> & _ & Hh).
  intros Hnil. apply (f_equal (@rev ascii)) in Hnil.
  rewrite rev_involutive in Hnil. simpl in Hnil.
  by apply strip_zeros_rev_nonempty in Hnil.
Qed.

Lemma exponential_nonempty (ds : list ascii) (decpt : Z) :
  ds ≠ [] → PyStr.exponential ds decpt ≠ [].
Proof. by destruct ds as [|d [|d' ds]]. Qed.

Lemma repr_nonempty (x : float) : PyStr.repr x ≠ "".
Proof.
  destruct x as [[]|[]| |s m e]; simpl; try done.
  assert (PyStr.repr_finite m e ≠ []) as Hf.
  { unfold PyStr.repr_finite. pose proof (repr_digits_nonempty m e) as Hd.
    destruct (PyStr.repr_digits m e) as [ds decpt]. simpl in Hd.
    destruct (PyStr.use_exp decpt);
      [by apply exponential_nonempty|apply positional_nonempty]. }
  destruct s; [done|]. by destruct (PyStr.repr_finite m e).
Qed.

Lemma number_text_nonempty (number : float) : number_text number ≠ "".
Proof.
  unfold number_text, format_number.
  destruct (PyFloat.is_integer number) eqn:Hi; [|apply repr_nonempty].
  destruct (int_of_float_integer number Hi) as [z ->]. apply of_int_nonempty.
Qed.

Lemma nchar_not_space (c : ascii) : nchar c → PyStr.isspace c = false.
Proof.
  unfold nchar.
  destruct c as [[] [] [] [] [] [] [] []]; vm_compute; congruence.
Qed.

Lemma chars_rev_app (s : string) : ∀ acc,
  list_ascii_of_string (String.rev_app s acc)
  = rev (list_ascii_of_string s) ++ list_ascii_of_string acc.
Proof.
  induction s as [|c s IH]; intros acc; simpl; [done|].
  by rewrite IH, <- app_assoc.
Qed.

Lemma lstrip_nchars (t : string) :
  Forall nchar (list_ascii_of_string t) → PyStr.lstrip t = t.
Proof.
  destruct t as [|c t]; [done|]. simpl. intros H. inversion_clear H as [|? ? Hc _].
  by rewrite (nchar_not_space c Hc).
Qed.

(** [strip] leaves the text of a number as it is. *)
Lemma strip_nchars (t : string) :
  Forall nchar (list_ascii_of_string t) → PyStr.strip t = t.
Proof.
  intros H. unfold PyStr.strip, PyStr.rstrip. rewrite (lstrip_nchars t H).
  rewrite lstrip_nchars.
  - unfold String.rev. rewrite rev_app_rev_app. apply string_app_nil_r.
  - unfold String.rev. rewrite chars_rev_app, app_nil_r. by apply Forall_rev.
Qed.

(** The lines of numbers, stripped, are the texts of the numbers, and
    none of them is empty. *)
Lemma non_blank_lines_of_numbers (numbers : list float) :
  non_blank_lines
    ((λ t, t +:+ String PyStr.LF "") <$> (number_text <$> numbers))
  = number_text <$> numbers.
Proof.
  unfold non_blank_lines.
  induction numbers as [|x numbers IH]; [done|].
  rewrite !fmap_cons, strip_line_end, strip_nchars by apply number_text_nchars.
  rewrite filter_cons_True by apply number_text_nonempty.
  by rewrite IH.
Qed.

End NotBlank.

(** X9: the output file has no blank line.  When the reader returns
    numbers and the output file can be written, the file the program
    leaves has one line for each number read and nothing else: every one
    of its lines is non-blank, and stripped it is the text of the number
    at that place of the sorted numbers. *)
Theorem output_has_no_blank_line
    (prog input_file output_file : string) (fs0 : filesystem)
    (numbers : list float) :
  read_numbers_from_file fs0 input_file = Ok numbers →
  write_fault fs0 !! output_file = None →
  ∃ content,
    files (fs (run [prog; input_file; output_file] fs0).2) !! output_file
      = Some content
    ∧ length (PyStr.readlines content) = length numbers
    ∧ Forall (λ line, PyStr.strip line ≠ "") (PyStr.readlines content)
    ∧ PyStr.strip <$> PyStr.readlines content
      = number_text <$> sort_numbers numbers
    ∧ non_blank_lines (PyStr.readlines content)
      = number_text <$> sort_numbers numbers.
Proof.
  intros Hr Hw.
  exists (render_lines (number_text <$> sort_numbers numbers)).
  assert (PyStr.readlines (render_lines (number_text <$> sort_numbers numbers))
          = (λ t, t +:+ String PyStr.LF "")
              <$> (number_text <$> sort_numbers numbers)) as Hlines.
  { apply lines_of_render, Forall_fmap, Forall_forall. intros x _.
    apply nchar_newline_free, number_text_nchars. }
  assert (PyStr.strip <$> PyStr.readlines
            (render_lines (number_text <$> sort_numbers numbers))
          = number_text <$> sort_numbers numbers) as Hstrip.
  { rewrite Hlines, <- !list_fmap_compose. apply list_fmap_ext.
    intros i x _. simpl.
    rewrite strip_line_end. apply strip_nchars, number_text_nchars. }
  split_and!.
  - rewrite (run_report prog _ _ _ _ Hr Hw). cbn zeta.
    destruct (head (sort_numbers numbers)), (last (sort_numbers numbers));
      apply lookup_insert_eq.
  - rewrite Hlines, !length_fmap. unfold sort_numbers.
    by rewrite sorted_Permutation.
  - assert (Forall (λ t, t ≠ "")
              (PyStr.strip <$> PyStr.readlines
                 (render_lines (number_text <$> sort_numbers numbers)))) as H.
    { rewrite Hstrip. apply Forall_fmap, Forall_forall.
      intros x _. apply number_text_nonempty. }
    rewrite Forall_forall in H. apply Forall_forall. intros line Hin.
    apply H. by apply list_elem_of_fmap_2.
  - done.
  - rewrite Hlines. apply non_blank_lines_of_numbers.
Qed.

Lemma output_has_no_blank_line_witness :
  let fs0 := one_file "in.txt" (render_lines ["2"; ""; "0.5"]) in
  let numbers := [literal "2"; literal "0.5"] in
  ∃ content,
    files (fs (run ["number_sorter.py"; "in.txt"; "out.txt"] fs0).2) !! "out.txt"
      = Some content
    ∧ length (PyStr.readlines content) = length numbers
    ∧ Forall (λ line, PyStr.strip line ≠ "") (PyStr.readlines content)
    ∧ PyStr.strip <$> PyStr.readlines content
      = number_text <$> sort_numbers numbers
    ∧ non_blank_lines (PyStr.readlines content)
      = number_text <$> sort_numbers numbers.
Proof.
  intros fs0 numbers.
  apply (output_has_no_blank_line "number_sorter.py" "in.txt" "out.txt"
           fs0 numbers).
  - vm_compute. reflexivity.
  - vm_compute. reflexivity.
Defined.

(* ===================================================================== *)
(** * Reading back the text of an integer *)
(* ===================================================================== *)

Section ReadInteger.

Lemma span_digits_all (ds : list ascii) :
  Forall digit ds → PyStr.span_digits ds = (ds, []).
Proof.
  induction 1 as [|c ds Hc _ IH]; simpl; [done|]. by rewrite Hc, IH.
Qed.

Lemma digit_not_underscore (c : ascii) : digit c → c ≠ "_"%char.
Proof. intros Hc ->. discriminate Hc. Qed.

Lemma underscores_ok_digits (ds : list ascii) : ∀ prev,
  Forall digit ds → PyStr.underscores_ok prev ds = true.
Proof.
  induction ds as [|c ds IH]; intros prev Hd; simpl; [done|].
  inversion_clear Hd as [|? ? Hc Hds].
  destruct (Ascii.eqb_spec c "_") as [->|_]; [discriminate Hc|].
  by apply IH.
Qed.

Lemma remove_underscores_digits (ds : list ascii) :
  Forall digit ds → PyStr.remove_underscores ds = ds.
Proof.
  unfold PyStr.remove_underscores.
  induction 1 as [|c ds Hc _ IH]; [done|].
  rewrite filter_cons_True by by apply digit_not_underscore. by rewrite IH.
Qed.

(** Digits are not the beginning of ["inf"] or ["nan"], nor a sign. *)
Lemma digit_head (c : ascii) (s : string) :
  digit c →
  String.eqb (String (PyStr.lower c) s) "inf" = false
  ∧ String.eqb (String (PyStr.lower c) s) "infinity" = false
  ∧ String.eqb (String (PyStr.lower c) s) "nan" = false
  ∧ Ascii.eqb c "-" = false ∧ Ascii.eqb c "+" = false.
Proof.
  unfold digit.
  destruct c as [[] [] [] [] [] [] [] []]; intros Hc;
    try discriminate Hc; by vm_compute.
Qed.

(** [float] reads digits as the integer they are. *)
Lemma parse_float_digits (neg : bool) (c : ascii) (ds : list ascii) :
  Forall digit (c :: ds) →
  PyStr.parse_number neg (c :: ds)
  = Some (PyFloat.of_decimal neg (PyStr.digits_value (c :: ds)) 0).
Proof.
  intros Hd. unfold PyStr.parse_number.
  rewrite (span_digits_all _ Hd). by rewrite app_nil_r.
Qed.

Lemma split_sign_minus (ds : list ascii) :
  PyStr.split_sign ("-"%char :: ds) = (true, ds).
Proof. reflexivity. Qed.

Lemma split_sign_digit (c : ascii) (ds : list ascii) :
  digit c → PyStr.split_sign (c :: ds) = (false, c :: ds).
Proof.
  intros Hc. destruct (digit_head c "" Hc) as (_ & _ & _ & Hminus & Hplus).
  unfold PyStr.split_sign. by rewrite Hminus, Hplus.
Qed.

Lemma parse_float_number (neg : bool) (c : ascii) (ds : list ascii) :
  Forall digit (c :: ds) →
  PyStr.parse_float (if neg then "-"%char :: c :: ds else c :: ds)
  = Some (PyFloat.of_decimal neg (PyStr.digits_value (c :: ds)) 0).
Proof.
  intros Hd. inversion Hd as [|? ? Hc Hds]; subst.
  destruct (digit_head c (string_of_list_ascii (map PyStr.lower ds)) Hc)
    as (Hinf & Hinfinity & Hnan & _ & _).
  unfold PyStr.parse_float.
  assert (PyStr.split_sign (if neg then "-"%char :: c :: ds else c :: ds)
          = (neg, c :: ds)) as ->.
  { destruct neg; [apply split_sign_minus|by apply split_sign_digit]. }
  cbn [map string_of_list_ascii].
  rewrite Hinf, Hinfinity, Hnan. simpl orb. cbv iota.
  by apply parse_float_digits.
Qed.

Lemma to_float_digits (neg : bool) (c : ascii) (ds : list ascii) :
  Forall digit (c :: ds) →
  PyStr.to_float
    (string_of_list_ascii (if neg then "-"%char :: c :: ds else c :: ds))
  = Some (PyFloat.of_decimal neg (PyStr.digits_value (c :: ds)) 0).
Proof.
  intros Hd. unfold PyStr.to_float.
  assert (Forall nchar (if neg then "-"%char :: c :: ds else c :: ds)) as Hn.
  { destruct neg; [constructor; [done|]|]; by apply digits_nchars. }
  rewrite strip_nchars by by rewrite list_ascii_of_string_of_list_ascii.
  rewrite list_ascii_of_string_of_list_ascii.
  assert (PyStr.underscores_ok None
            (if neg then "-"%char :: c :: ds else c :: ds) = true) as ->.
  { destruct neg; [|by apply underscores_ok_digits].
    change (PyStr.underscores_ok None ("-"%char :: c :: ds))
      with (PyStr.underscores_ok (Some "-"%char) (c :: ds)).
    by apply underscores_ok_digits. }
  assert (PyStr.remove_underscores
            (if neg then "-"%char :: c :: ds else c :: ds)
          = (if neg then "-"%char :: c :: ds else c :: ds)) as ->.
  { destruct neg; [|by apply remove_underscores_digits].
    change (PyStr.remove_underscores ("-"%char :: c :: ds))
      with ("-"%char :: PyStr.remove_underscores (c :: ds)).
    by rewrite remove_underscores_digits. }
  by apply parse_float_number.
Qed.

(** [float(str(z))] is the float nearest to [z]. *)
Lemma to_float_of_int (z : Z) :
  PyStr.to_float (PyStr.of_int z)
  = Some (PyFloat.of_decimal (z <? 0) (Z.abs z) 0).
Proof.
  destruct z as [|p|p]; [by vm_compute| |].
  - destruct (of_int_head p) as (c & s & Hs & _ & _).
    pose proof (of_int_digits (Z.pos p) ltac:(lia)) as Hd. rewrite Hs in Hd.
    pose proof (digits_value_of_int (Z.pos p) ltac:(lia)) as Hv.
    rewrite Hs in Hv.
    rewrite <- (string_of_list_ascii_of_string (PyStr.of_int (Z.pos p))), Hs.
    rewrite (to_float_digits false c s Hd), Hv. done.
  - destruct (of_int_head p) as (c & s & Hs & _ & _).
    pose proof (of_int_digits (Z.pos p) ltac:(lia)) as Hd. rewrite Hs in Hd.
    pose proof (digits_value_of_int (Z.pos p) ltac:(lia)) as Hv.
    rewrite Hs in Hv.
    assert (PyStr.of_int (Z.neg p)
            = string_of_list_ascii ("-"%char :: c :: s)) as ->.
    { rewrite <- Hs. cbn [string_of_list_ascii].
      rewrite string_of_list_ascii_of_string.
      rewrite of_int_pos. unfold PyStr.of_int. simpl.
      unfold NilZero.string_of_uint.
      pose proof (Unsigned.to_uint_nonnil p). by destruct (Pos.to_uint p). }
    rewrite (to_float_digits true c s Hd), Hv. done.
Qed.

End ReadInteger.

(* ===================================================================== *)
(** * Integers that are floats *)
(* ===================================================================== *)

Section ExactIntegers.

(** A binary64 float: the mantissa is canonical and the exponent in
    range. *)
Lemma bounded_inv (m : positive) (e : Z) :
  bounded PyFloat.prec PyFloat.emax m e = true →
  fexp PyFloat.prec PyFloat.emax (Z.pos (digits2_pos m) + e) = e
  ∧ (e <=? PyFloat.emax - PyFloat.prec) = true.
Proof.
  unfold bounded, canonical_mantissa. intros [H1 H2]%andb_prop.
  split; [by apply Z.eqb_eq|done].
Qed.

(** [SpecFloat] names the operations of [Z] by their definitions. *)
Lemma def_add_0_r (a : Z) : IntDef.Z.add a 0 = a.
Proof. apply Z.add_0_r. Qed.

Lemma def_add_0_l (a : Z) : IntDef.Z.add 0 a = a.
Proof. apply Z.add_0_l. Qed.

Lemma def_sub_0_r (a : Z) : IntDef.Z.sub a 0 = a.
Proof. apply Z.sub_0_r. Qed.

Lemma def_sub_diag (a : Z) : IntDef.Z.sub a a = 0.
Proof. apply Z.sub_diag. Qed.

Lemma iter_pos_iter {A} (f : A → A) (p : positive) : ∀ x,
  SpecFloat.iter_pos f p x = Pos.iter f x p.
Proof.
  induction p as [p IH|p IH|]; intros x; simpl; [|by rewrite !IH|done].
  by rewrite !IH, <- !Pos.iter_swap.
Qed.

Lemma iter_xO_succ (m p : positive) :
  Pos.iter xO m (Pos.succ p) = xO (Pos.iter xO m p).
Proof. apply Pos.iter_succ. Qed.

Lemma digits2_iter_xO (m p : positive) :
  Z.pos (digits2_pos (Pos.iter xO m p)) = Z.pos (digits2_pos m) + Z.pos p.
Proof.
  induction p as [|p IH] using Pos.peano_ind; [simpl; lia|].
  rewrite iter_xO_succ. simpl digits2_pos. lia.
Qed.

Lemma Zpos_iter_xO (m p : positive) :
  Z.pos (Pos.iter xO m p) = Z.pos m * 2 ^ Z.pos p.
Proof.
  induction p as [|p IH] using Pos.peano_ind; [simpl; lia|].
  rewrite iter_xO_succ, Pos2Z.inj_succ, Z.pow_succ_r by lia. lia.
Qed.

(** Shifting back what was shifted loses nothing. *)
Lemma shr_iter_xO (m p : positive) :
  SpecFloat.iter_pos shr_1 p
    (Build_shr_record (Z.pos (Pos.iter xO m p)) false false)
  = Build_shr_record (Z.pos m) false false.
Proof.
  rewrite iter_pos_iter.
  induction p as [|p IH] using Pos.peano_ind; [done|].
  rewrite Pos.iter_succ_r, iter_xO_succ. simpl shr_1. apply IH.
Qed.

Lemma shl_align_pos (mx p : positive) :
  shl_align mx 0 (Z.pos p) = (mx, 0).
Proof. reflexivity. Qed.

Lemma shl_align_neg (mx p : positive) :
  shl_align mx 0 (Z.neg p) = (Pos.iter xO mx p, Z.neg p).
Proof. reflexivity. Qed.

(** Rounding a float gives the float. *)
Lemma binary_round_aux_exact (s : bool) (m : positive) (e : Z) :
  bounded PyFloat.prec PyFloat.emax m e = true →
  binary_round_aux PyFloat.prec PyFloat.emax s (Z.pos m) e loc_Exact
  = S754_finite s m e.
Proof.
  intros [Hc He]%bounded_inv.
  unfold binary_round_aux, shr_fexp. simpl Zdigits2.
  rewrite Hc, Z.sub_diag. simpl.
  rewrite Hc, Z.sub_diag. simpl. by rewrite He.
Qed.

(** The integer [m * 2^e] of a float with [0 <= e] rounds to the float. *)
Lemma binary_round_shifted (s : bool) (m : positive) (e : Z) (q : positive) :
  bounded PyFloat.prec PyFloat.emax m e = true →
  0 ≤ e → Z.pos q = Z.pos m * 2 ^ e →
  binary_round PyFloat.prec PyFloat.emax s q 0 = S754_finite s m e.
Proof.
  intros Hb He Hq. pose proof (bounded_inv m e Hb) as [Hc Hmax].
  destruct e as [|p|p]; [| |lia].
  - assert (q = m) as -> by lia.
    unfold binary_round. rewrite Hc. simpl. by apply binary_round_aux_exact.
  - assert (q = Pos.iter xO m p) as ->.
    { apply Pos2Z.inj. by rewrite Zpos_iter_xO. }
    unfold binary_round.
    rewrite def_add_0_r, digits2_iter_xO, Hc, shl_align_pos.
    unfold binary_round_aux, shr_fexp. simpl Zdigits2.
    rewrite def_add_0_r, digits2_iter_xO, Hc, def_sub_0_r.
    simpl shr. rewrite shr_iter_xO.
    cbn [shr_m loc_of_shr_record round_nearest_even Zdigits2].
    rewrite def_add_0_l, Hc, def_sub_diag. simpl. by rewrite Hmax.
Qed.

(** The integer [m / 2^(-e)] of an integral float with [e < 0] rounds to
    the float. *)
Lemma binary_round_unshifted (s : bool) (m : positive) (p : positive)
    (q : positive) :
  bounded PyFloat.prec PyFloat.emax m (Z.neg p) = true →
  m = Pos.iter xO q p →
  binary_round PyFloat.prec PyFloat.emax s q 0 = S754_finite s m (Z.neg p).
Proof.
  intros Hb ->. pose proof (bounded_inv _ _ Hb) as [Hc Hmax].
  rewrite digits2_iter_xO in Hc.
  unfold binary_round. rewrite Z.add_0_r.
  replace (Z.pos (digits2_pos q))
    with (Z.pos (digits2_pos q) + Z.pos p + Z.neg p) by lia.
  rewrite Hc. simpl shl_align. cbv iota beta.
  by apply binary_round_aux_exact.
Qed.

(** [float(str(int(x)))] is [x], for an integral float [x] that is not
    zero. *)
Lemma of_decimal_int_of_float (s : bool) (m : positive) (e : Z) :
  bounded PyFloat.prec PyFloat.emax m e = true →
  PyFloat.is_integer (S754_finite s m e) = true →
  ∃ z, int_of_float (S754_finite s m e) = Ok z
       ∧ PyFloat.of_decimal (z <? 0) (Z.abs z) 0 = S754_finite s m e.
Proof.
  intros Hb Hi. simpl in Hi |- *.
  assert (∃ q : positive,
            (if 0 <=? e then Z.pos m * 2 ^ e else Z.pos m / 2 ^ (- e)) = Z.pos q
            ∧ binary_round PyFloat.prec PyFloat.emax s q 0 = S754_finite s m e)
    as (q & -> & Hq).
  { destruct (Z.leb_spec 0 e) as [He|He].
    - assert (0 < Z.pos m * 2 ^ e) as Hpos.
      { apply Z.mul_pos_pos; [done|]. apply Z.pow_pos_nonneg; lia. }
      exists (Z.to_pos (Z.pos m * 2 ^ e)). rewrite Z2Pos.id by done.
      split; [done|]. apply binary_round_shifted; [done..|].
      by rewrite Z2Pos.id.
    - destruct e as [|p|p]; [lia..|]. apply Z.eqb_eq in Hi.
      change (- Z.neg p) with (Z.pos p) in *.
      assert (0 < 2 ^ Z.pos p) as H2 by (apply Z.pow_pos_nonneg; lia).
      pose proof (Z.div_mod (Z.pos m) (2 ^ Z.pos p) ltac:(lia)) as Hdm.
      rewrite Hi, Z.add_0_r in Hdm.
      assert (0 < Z.pos m / 2 ^ Z.pos p) as Hpos by nia.
      exists (Z.to_pos (Z.pos m / 2 ^ Z.pos p)). rewrite Z2Pos.id by done.
      split; [done|]. apply binary_round_unshifted; [done|].
      apply Pos2Z.inj. rewrite Zpos_iter_xO, Z2Pos.id by done. lia. }
  exists (if s then - Z.pos q else Z.pos q). split; [done|].
  unfold PyFloat.of_decimal. destruct s; simpl; rewrite Pos.mul_1_r; exact Hq.
Qed.

End ExactIntegers.

(* ===================================================================== *)
(** * Writing whole numbers and reading them back *)
(* ===================================================================== *)

Section RoundTrip.

Lemma whole_round_trip (x : float) :
  whole x →
  PyStr.to_float (number_text x) = Some (unsigned_zero x).
Proof.
  intros [Hv Hi]. unfold number_text, format_number. rewrite Hi.
  destruct x as [s| | |s m e]; [by destruct s|done|done|].
  destruct (of_decimal_int_of_float s m e Hv Hi) as (z & -> & Hz).
  by rewrite to_float_of_int, Hz.
Qed.

Lemma unsigned_zero_eq (x : float) :
  PyFloat.is_nan x = false → PyFloat.eq (unsigned_zero x) x = true.
Proof.
  intros Hx. destruct x as [[]|[]| |[] m e]; try done; simpl.
  all: unfold PyFloat.eq, SFeqb; simpl.
  all: by rewrite Z.compare_refl, Pos.compare_cont_refl.
Qed.

End RoundTrip.

(** X10: a whole number survives writing and reading.  For a binary64
    float without fractional part, the text [write_numbers_to_file]
    writes is the text of its integer, and [float] reads that text as
    the float itself; only the sign of a zero is lost ([-0.0] is written
    as ["0"]), so that the float read compares equal to the float
    written. *)
Theorem whole_number_round_trip (x : float) :
  whole x →
  ∃ z, int_of_float x = Ok z
       ∧ format_number x = Ok (PyStr.of_int z)
       ∧ PyStr.to_float (PyStr.of_int z) = Some (unsigned_zero x)
       ∧ PyFloat.eq (unsigned_zero x) x = true.
Proof.
  intros Hw. pose proof (whole_round_trip x Hw) as Hrt.
  destruct Hw as [Hv Hi].
  destruct (int_of_float_integer x Hi) as [z Hz]. exists z.
  unfold number_text, format_number in Hrt |- *. rewrite Hi, Hz in Hrt |- *.
  split_and!; [done..|]. apply unsigned_zero_eq. by destruct x.
Qed.

Lemma whole_number_round_trip_witness :
  ∃ z, int_of_float float_100000 = Ok z
       ∧ format_number float_100000 = Ok (PyStr.of_int z)
       ∧ PyStr.to_float (PyStr.of_int z) = Some (unsigned_zero float_100000)
       ∧ PyFloat.eq (unsigned_zero float_100000) float_100000 = true.
Proof.
  apply (whole_number_round_trip float_100000).
  split; vm_compute; reflexivity.
Defined.

(** X11: a file of whole numbers goes through the program and reads
    back.  When the numbers read are whole numbers and the output file
    can be written and read, reading the output file of the run with
    [read_numbers_from_file] gives the sorted numbers, the sign of a zero
    dropped: as many numbers as were read, each equal to the number at
    its place in [sort_numbers numbers]. *)
Theorem output_reads_back_whole_numbers
    (prog input_file output_file : string) (fs0 : filesystem)
    (numbers : list float) :
  read_numbers_from_file fs0 input_file = Ok numbers →
  Forall whole numbers →
  write_fault fs0 !! output_file = None →
  read_fault fs0 !! output_file = None →
  read_numbers_from_file
    (fs (run [prog; input_file; output_file] fs0).2) output_file
  = Ok (unsigned_zero <$> sort_numbers numbers)
  ∧ Forall2 (λ v x, PyFloat.eq v x = true)
      (unsigned_zero <$> sort_numbers numbers) (sort_numbers numbers).
Proof.
  intros Hr Hwhole Hw Hrf.
  assert (Forall whole (sort_numbers numbers)) as Hs.
  { unfold sort_numbers. by rewrite sorted_Permutation. }
  split; last first.
  { apply Forall2_fmap_l, Forall_Forall2_diag.
    eapply Forall_impl; [exact Hs|]. intros x [Hv Hi].
    apply unsigned_zero_eq. by destruct x. }
  assert (fs (run [prog; input_file; output_file] fs0).2
          = with_output fs0 output_file (sort_numbers numbers)) as ->.
  { rewrite (run_report prog _ _ _ _ Hr Hw). cbn zeta.
    by destruct (head (sort_numbers numbers)), (last (sort_numbers numbers)). }
  set (texts := number_text <$> sort_numbers numbers).
  assert (open_read (with_output fs0 output_file (sort_numbers numbers))
            output_file = Ok (render_lines texts)) as Ho.
  { unfold open_read, with_output. simpl. by rewrite Hrf, lookup_insert_eq. }
  rewrite (read_numbers_from_file_open _ _ _ Ho). apply read_loop_Ok.
  exists (unsigned_zero <$> sort_numbers numbers). split; [done|].
  assert (PyStr.readlines (render_lines texts)
          = (λ t, t +:+ String PyStr.LF "") <$> texts) as ->.
  { apply lines_of_render, Forall_fmap, Forall_forall. intros x _.
    apply nchar_newline_free, number_text_nchars. }
  unfold texts. rewrite non_blank_lines_of_numbers.
  apply Forall2_fmap, Forall_Forall2_diag.
  eapply Forall_impl; [exact Hs|]. intros x Hx. by apply whole_round_trip.
Qed.

Lemma output_reads_back_whole_numbers_witness :
  let fs0 := one_file "in.txt" (render_lines ["30"; "-0"; "10"; "1e5"]) in
  let numbers := [float_30; S754_zero true; float_10; float_100000] in
  read_numbers_from_file
    (fs (run ["number_sorter.py"; "in.txt"; "out.txt"] fs0).2) "out.txt"
  = Ok (unsigned_zero <$> sort_numbers numbers)
  ∧ Forall2 (λ v x, PyFloat.eq v x = true)
      (unsigned_zero <$> sort_numbers numbers) (sort_numbers numbers).
Proof.
  intros fs0 numbers.
  apply (output_reads_back_whole_numbers "number_sorter.py" "in.txt" "out.txt"
           fs0 numbers).
  - vm_compute. reflexivity.
  - repeat constructor.
  - vm_compute. reflexivity.
  - vm_compute. reflexivity.
Defined.

(* ===================================================================== *)
(** * Rounding: the shifts of [binary_round_aux] *)
(* ===================================================================== *)

(** [float] reads a decimal by rounding a ratio of integers to the nearest
    binary64 value ([PyFloat.of_decimal]).  The sections below follow that
    rounding through the shifts of [binary_round_aux] and show three
    things: decimals of the same ratio are read as the same float; what
    is read is a binary64 value; and a decimal that is nearer to a float
    than the middle to the next float is read as that float.  With them,
    the digits that [repr] chooses read back as the float, seventeen
    digits being enough when no shorter decimal does. *)

Section Shifting.

Lemma binary_round_aux_finish (sx : bool) (mx ex : Z) (lx : location) :
  binary_round_aux PyFloat.prec PyFloat.emax sx mx ex lx
  = finish sx (shr_fexp PyFloat.prec PyFloat.emax mx ex lx).1
              (shr_fexp PyFloat.prec PyFloat.emax mx ex lx).2.
Proof.
  unfold binary_round_aux, finish.
  by destruct (shr_fexp PyFloat.prec PyFloat.emax mx ex lx).
Qed.

Lemma div_mod_double (V D : Z) :
  0 ≤ V → 0 < D →
  V / (2 * D) = V / D / 2
  ∧ V mod (2 * D) = (V / D) mod 2 * D + V mod D.
Proof.
  intros HV HD.
  pose proof (Z.div_mod V D ltac:(lia)) as H1.
  pose proof (Z.mod_pos_bound V D HD) as H2.
  pose proof (Z.div_mod (V / D) 2 ltac:(lia)) as H3.
  pose proof (Z.mod_pos_bound (V / D) 2 ltac:(lia)) as H4.
  assert (V = 2 * D * (V / D / 2) + ((V / D) mod 2 * D + V mod D)) as H5 by nia.
  assert (0 ≤ (V / D) mod 2 * D + V mod D < 2 * D) as H6 by nia.
  split.
  - symmetry. eapply Z.div_unique_pos; [exact H6|exact H5].
  - symmetry. eapply Z.mod_unique_pos; [exact H6|exact H5].
Qed.

(** One shift to the right halves the quotient and keeps the bits right. *)
Lemma shr_1_truncates (V D : Z) (mrs : shr_record) :
  0 ≤ V → 0 < D → truncates V D mrs → truncates V (2 * D) (shr_1 mrs).
Proof.
  intros HV HD (Hm & Hr & Hs).
  destruct (div_mod_double V D HV HD) as [Hq Ht].
  pose proof (Z.mod_pos_bound V D HD) as Hb.
  pose proof (Z.div_pos V D HV HD) as Hq0.
  destruct mrs as [m r s]. simpl in Hm, Hr, Hs.
  assert (r || s = negb (V mod D =? 0)) as Hrs.
  { rewrite Hr, Hs.
    destruct (Z.leb_spec D (2 * (V mod D))), (Z.eqb_spec (V mod D) 0),
      (Z.eqb_spec (2 * (V mod D)) D); simpl; try done; lia. }
  unfold truncates. rewrite Hq, Ht, <- Hm.
  destruct m as [|[p|p|]|p]; [| | | |lia]; simpl shr_1; cbn [shr_m shr_r shr_s];
    rewrite Hrs.
  - change (0 / 2) with 0. change (0 mod 2) with 0.
    split_and!; [done| |].
    + symmetry. apply Z.leb_gt. lia.
    + f_equal.
      destruct (Z.eqb_spec (V mod D) 0), (Z.eqb_spec (0 * D + V mod D) 0),
        (Z.eqb_spec (2 * (0 * D + V mod D)) (2 * D)); simpl; try done; lia.
  - assert (Z.pos p~1 / 2 = Z.pos p ∧ Z.pos p~1 mod 2 = 1) as [-> ->].
    { rewrite Pos2Z.inj_xI. split.
      - symmetry. apply (Z.div_unique_pos _ _ _ 1); lia.
      - symmetry. apply (Z.mod_unique_pos _ _ (Z.pos p)); lia. }
    split_and!; [done| |].
    + symmetry. apply Z.leb_le. lia.
    + f_equal.
      destruct (Z.eqb_spec (V mod D) 0), (Z.eqb_spec (1 * D + V mod D) 0),
        (Z.eqb_spec (2 * (1 * D + V mod D)) (2 * D)); simpl; try done; lia.
  - assert (Z.pos p~0 / 2 = Z.pos p ∧ Z.pos p~0 mod 2 = 0) as [-> ->].
    { rewrite Pos2Z.inj_xO. split.
      - symmetry. apply (Z.div_unique_pos _ _ _ 0); lia.
      - symmetry. apply (Z.mod_unique_pos _ _ (Z.pos p)); lia. }
    split_and!; [done| |].
    + symmetry. apply Z.leb_gt. lia.
    + f_equal.
      destruct (Z.eqb_spec (V mod D) 0), (Z.eqb_spec (0 * D + V mod D) 0),
        (Z.eqb_spec (2 * (0 * D + V mod D)) (2 * D)); simpl; try done; lia.
  - change (1 / 2) with 0. change (1 mod 2) with 1.
    split_and!; [done| |].
    + symmetry. apply Z.leb_le. lia.
    + f_equal.
      destruct (Z.eqb_spec (V mod D) 0), (Z.eqb_spec (1 * D + V mod D) 0),
        (Z.eqb_spec (2 * (1 * D + V mod D)) (2 * D)); simpl; try done; lia.
Qed.

(** So do [p] shifts. *)
Lemma shr_truncates (V D : Z) (mrs : shr_record) (p : positive) :
  0 ≤ V → 0 < D → truncates V D mrs →
  truncates V (D * 2 ^ Z.pos p) (SpecFloat.iter_pos shr_1 p mrs).
Proof.
  intros HV HD H. rewrite iter_pos_iter.
  induction p as [|p IH] using Pos.peano_ind.
  - simpl. replace (D * 2 ^ 1) with (2 * D) by lia. by apply shr_1_truncates.
  - rewrite Pos.iter_succ, Pos2Z.inj_succ, Z.pow_succ_r by lia.
    replace (D * (2 * 2 ^ Z.pos p)) with (2 * (D * 2 ^ Z.pos p)) by lia.
    apply shr_1_truncates; [done| |done].
    assert (0 < 2 ^ Z.pos p) by (apply Z.pow_pos_nonneg; lia). nia.
Qed.

(** The record of a quotient and of the place of its remainder. *)
Lemma truncates_of_loc (V D : Z) :
  0 ≤ V → 0 < D → Z.even D = true →
  truncates V D (shr_record_of_loc (V / D) (new_location D (V mod D))).
Proof.
  intros HV HD He. unfold new_location, new_location_even. rewrite He.
  pose proof (Z.mod_pos_bound V D HD) as Hb.
  unfold truncates.
  destruct (Z.eqb_spec (V mod D) 0) as [H0|H0].
  - simpl. split_and!; [done| |done]. symmetry. apply Z.leb_gt. lia.
  - destruct (Z.compare_spec (2 * (V mod D)) D) as [Hc|Hc|Hc]; simpl.
    + split_and!; [done| |].
      * symmetry. apply Z.leb_le. lia.
      * by rewrite (proj2 (Z.eqb_eq _ _) Hc).
    + split_and!; [done| |].
      * symmetry. apply Z.leb_gt. lia.
      * symmetry. apply negb_true_iff, Z.eqb_neq. lia.
    + split_and!; [done| |].
      * symmetry. apply Z.leb_le. lia.
      * symmetry. apply negb_true_iff, Z.eqb_neq. lia.
Qed.

(** An integer is its own quotient by one. *)
Lemma truncates_exact (V : Z) :
  truncates V 1 (shr_record_of_loc V loc_Exact).
Proof.
  unfold truncates. simpl. rewrite Z.div_1_r, Z.mod_1_r. done.
Qed.

(** Two records of the same ratio are the same record. *)
Lemma truncates_ratio (V1 D1 V2 D2 : Z) (mrs1 mrs2 : shr_record) :
  0 ≤ V1 → 0 < D1 → 0 ≤ V2 → 0 < D2 → V1 * D2 = V2 * D1 →
  truncates V1 D1 mrs1 → truncates V2 D2 mrs2 → mrs1 = mrs2.
Proof.
  intros HV1 HD1 HV2 HD2 Heq (Hm1 & Hr1 & Hs1) (Hm2 & Hr2 & Hs2).
  pose proof (Z.div_mod V1 D1 ltac:(lia)) as E1.
  pose proof (Z.mod_pos_bound V1 D1 HD1) as B1.
  pose proof (Z.div_mod V2 D2 ltac:(lia)) as E2.
  pose proof (Z.mod_pos_bound V2 D2 HD2) as B2.
  assert (V1 / D1 = V2 / D2) as Hq.
  { set (q1 := V1 / D1) in *. set (q2 := V2 / D2) in *.
    set (t1 := V1 mod D1) in *. set (t2 := V2 mod D2) in *.
    clearbody q1 q2 t1 t2.
    assert (t1 * D2 < D1 * D2) by nia.
    assert (t2 * D1 < D1 * D2) by nia.
    assert (0 ≤ t1 * D2) by nia.
    assert (0 ≤ t2 * D1) by nia.
    assert (D1 * D2 * (q1 - q2) = t2 * D1 - t1 * D2) as Hd by nia.
    assert (0 < D1 * D2) by nia.
    assert (-1 < q1 - q2 < 1); [|lia]. split; nia. }
  assert ((V1 mod D1) * D2 = (V2 mod D2) * D1) as Ht.
  { rewrite Hq in E1. nia. }
  destruct mrs1 as [m1 r1 s1], mrs2 as [m2 r2 s2]. simpl in *.
  f_equal; [congruence| |].
  - rewrite Hr1, Hr2.
    destruct (Z.leb_spec D1 (2 * (V1 mod D1))), (Z.leb_spec D2 (2 * (V2 mod D2)));
      try done; nia.
  - rewrite Hs1, Hs2. f_equal. f_equal.
    + destruct (Z.eqb_spec (V1 mod D1) 0), (Z.eqb_spec (V2 mod D2) 0);
        try done; nia.
    + destruct (Z.eqb_spec (2 * (V1 mod D1)) D1),
        (Z.eqb_spec (2 * (V2 mod D2)) D2); try done; nia.
Qed.

End Shifting.

Section Digits2.

Lemma fexp_eq (z : Z) :
  fexp PyFloat.prec PyFloat.emax z = Z.max (z - 53) (- bias).
Proof. reflexivity. Qed.

Lemma bias_pos : 0 < bias.
Proof. reflexivity. Qed.

Lemma digits2_bounds (p : positive) :
  2 ^ (Z.pos (digits2_pos p) - 1) ≤ Z.pos p < 2 ^ Z.pos (digits2_pos p).
Proof.
  induction p as [p IH|p IH|]; simpl digits2_pos; [| |simpl; lia].
  - rewrite Pos2Z.inj_succ, (Pos2Z.inj_xI p).
    replace (Z.succ (Z.pos (digits2_pos p)) - 1)
      with (Z.succ (Z.pos (digits2_pos p) - 1)) by lia.
    rewrite !Z.pow_succ_r by lia. lia.
  - rewrite Pos2Z.inj_succ, (Pos2Z.inj_xO p).
    replace (Z.succ (Z.pos (digits2_pos p)) - 1)
      with (Z.succ (Z.pos (digits2_pos p) - 1)) by lia.
    rewrite !Z.pow_succ_r by lia. lia.
Qed.

Lemma Zdigits2_nonneg (q : Z) : 0 ≤ Zdigits2 q.
Proof. destruct q; simpl; lia. Qed.

Lemma Zdigits2_upper (q : Z) : 0 ≤ q → q < 2 ^ Zdigits2 q.
Proof.
  intros Hq. destruct q as [|p|p]; [simpl; lia| |lia].
  apply digits2_bounds.
Qed.

Lemma Zdigits2_lower (q : Z) : 0 < q → 2 ^ (Zdigits2 q - 1) ≤ q.
Proof.
  intros Hq. destruct q as [|p|p]; [lia| |lia]. apply digits2_bounds.
Qed.

Lemma Zdigits2_pos (q : Z) : 0 < q → 0 < Zdigits2 q.
Proof. intros Hq. destruct q; simpl; lia. Qed.

(** The number of digits, from bounds. *)
Lemma Zdigits2_ge (q n : Z) : 0 ≤ n → 2 ^ n ≤ q → n + 1 ≤ Zdigits2 q.
Proof.
  intros Hn Hq.
  assert (0 < 2 ^ n) by (apply Z.pow_pos_nonneg; lia).
  pose proof (Zdigits2_upper q ltac:(lia)) as Hu.
  pose proof (Zdigits2_nonneg q).
  destruct (Z.le_gt_cases (n + 1) (Zdigits2 q)) as [|Hlt]; [done|].
  assert (2 ^ Zdigits2 q ≤ 2 ^ n) by (apply Z.pow_le_mono_r; lia). lia.
Qed.

Lemma Zdigits2_le (q n : Z) : 0 ≤ n → 0 ≤ q → q < 2 ^ n → Zdigits2 q ≤ n.
Proof.
  intros Hn Hq0 Hq.
  destruct (Z.eq_dec q 0) as [->|Hne]; [simpl; lia|].
  pose proof (Zdigits2_lower q ltac:(lia)) as Hl.
  pose proof (Zdigits2_pos q ltac:(lia)).
  destruct (Z.le_gt_cases (Zdigits2 q) n) as [|Hlt]; [done|].
  assert (2 ^ n ≤ 2 ^ (Zdigits2 q - 1)) by (apply Z.pow_le_mono_r; lia). lia.
Qed.

(** Powers of two compare as their exponents. *)
Lemma pow2_lt_inv (a b : Z) : 0 ≤ a → 0 ≤ b → 2 ^ a < 2 ^ b → a < b.
Proof. intros Ha Hb H. apply (Z.pow_lt_mono_r_iff 2); [lia|lia|done]. Qed.

Lemma pow2_add (a b : Z) : 0 ≤ a → 0 ≤ b → 2 ^ (a + b) = 2 ^ a * 2 ^ b.
Proof. intros. by apply Z.pow_add_r. Qed.

Lemma pow2_pos (a : Z) : 0 ≤ a → 0 < 2 ^ a.
Proof. intros. apply Z.pow_pos_nonneg; lia. Qed.

End Digits2.

Section Located.

Lemma shr_m_of_loc (m : Z) (l : location) :
  shr_m (shr_record_of_loc m l) = m.
Proof. by destruct l as [|[]]. Qed.

(** A record of a ratio is the record of every pair of that ratio. *)
Lemma truncates_scale (V1 D1 V2 D2 : Z) (mrs : shr_record) :
  0 ≤ V1 → 0 < D1 → 0 ≤ V2 → 0 < D2 → V1 * D2 = V2 * D1 →
  truncates V1 D1 mrs → truncates V2 D2 mrs.
Proof.
  intros HV1 HD1 HV2 HD2 Heq H.
  assert (truncates V2 D2
            (Build_shr_record (V2 / D2) (D2 <=? 2 * (V2 mod D2))
               (negb ((V2 mod D2 =? 0) || (2 * (V2 mod D2) =? D2))))) as H2
    by done.
  by rewrite (truncates_ratio _ _ _ _ _ _ HV1 HD1 HV2 HD2 Heq H H2).
Qed.

(** The first shift of [binary_round_aux], on the quotient [q0] of
    [N * 2^(-e0)] by [D]: it leaves the quotient of [N / D] by
    [2^(fexp L)], where [L] is the number of digits of [q0] plus [e0]. *)
Lemma first_shift (N D q0 e0 : Z) (loc0 : location) :
  0 < N → 0 < D → - bias ≤ e0 ≤ 0 →
  truncates (N * 2 ^ (- e0)) D (shr_record_of_loc q0 loc0) →
  (q0 = 0 → e0 = - bias) →
  e0 ≤ fexp PyFloat.prec PyFloat.emax (Zdigits2 q0 + e0) →
  located N D (Zdigits2 q0 + e0)
    (shr_fexp PyFloat.prec PyFloat.emax q0 e0 loc0).1
  ∧ (shr_fexp PyFloat.prec PyFloat.emax q0 e0 loc0).2
    = fexp PyFloat.prec PyFloat.emax (Zdigits2 q0 + e0).
Proof.
  intros HN HD He0 Ht Hq0 Hprec.
  pose proof bias_pos as Hb.
  set (V := N * 2 ^ (- e0)) in *.
  set (L := Zdigits2 q0 + e0) in *.
  set (E := fexp PyFloat.prec PyFloat.emax L) in *.
  assert (0 < 2 ^ (- e0)) as Hp0 by (apply pow2_pos; lia).
  assert (0 < V) as HV by (unfold V; nia).
  assert (q0 = V / D) as Hq.
  { destruct Ht as (Hm & _ & _). by rewrite shr_m_of_loc in Hm. }
  assert (0 ≤ q0) as Hq0' by (rewrite Hq; apply Z.div_pos; lia).
  pose proof (Zdigits2_nonneg q0) as Hd0.
  pose proof (Zdigits2_upper q0 Hq0') as Hup.
  pose proof (Z.div_mod V D ltac:(lia)) as Hdm.
  pose proof (Z.mod_pos_bound V D HD) as Hmb.
  rewrite <- Hq in Hdm.
  assert (- bias ≤ E) as HE by (unfold E; rewrite fexp_eq; lia).
  set (K := 2 ^ (bias + e0)).
  assert (0 < K) as HK by (apply pow2_pos; lia).
  assert (N * 2 ^ bias = V * K) as HNb.
  { unfold V, K. rewrite <- Z.mul_assoc, <- pow2_add by lia.
    f_equal. f_equal. lia. }
  assert (truncates V (D * 2 ^ (E - e0))
            (shr_fexp PyFloat.prec PyFloat.emax q0 e0 loc0).1
          ∧ (shr_fexp PyFloat.prec PyFloat.emax q0 e0 loc0).2 = E)
    as [Htr HE2].
  { unfold shr_fexp, shr. fold L. fold E.
    destruct (E - e0) as [|p|p] eqn:Hn; [| |lia].
    - simpl. rewrite Z.mul_1_r. split; [done|lia].
    - cbn [fst snd]. split; [|lia]. apply shr_truncates; [lia|done|done]. }
  split; [|done]. unfold located. fold E. split_and!.
  - unfold L. lia.
  - rewrite HNb. replace (L + bias) with (Zdigits2 q0 + (bias + e0))
      by (unfold L; lia).
    rewrite pow2_add by lia. fold K.
    assert (V < D * 2 ^ Zdigits2 q0) by nia. nia.
  - destruct (Z.eq_dec q0 0) as [H0|H0].
    + left. unfold L. rewrite H0. simpl. lia.
    + right. pose proof (Zdigits2_lower q0 ltac:(lia)) as Hlow.
      pose proof (Zdigits2_pos q0 ltac:(lia)) as Hdp.
      rewrite HNb. replace (L - 1 + bias)
        with ((Zdigits2 q0 - 1) + (bias + e0)) by (unfold L; lia).
      rewrite pow2_add by lia. fold K.
      assert (0 < 2 ^ (Zdigits2 q0 - 1)) by (apply pow2_pos; lia).
      assert (D * 2 ^ (Zdigits2 q0 - 1) ≤ V) by nia. nia.
  - eapply truncates_scale; [| | | | |exact Htr].
    + lia.
    + assert (0 < 2 ^ (E - e0)) by (apply pow2_pos; lia). nia.
    + assert (0 < 2 ^ bias) by (apply pow2_pos; lia). nia.
    + assert (0 < 2 ^ (E + bias)) by (apply pow2_pos; lia). nia.
    + rewrite HNb. replace (E + bias) with ((E - e0) + (bias + e0)) by lia.
      rewrite pow2_add by lia. fold K. lia.
Qed.

End Located.

Section Branches.

Lemma div_core_eq (c D : Z) :
  SFdiv_core_binary PyFloat.prec PyFloat.emax c 0 D 0
  = (let e0 := Z.min (fexp PyFloat.prec PyFloat.emax
                        (Zdigits2 c + 0 - (Zdigits2 D + 0))) (0 - 0) in
     let s := 0 - 0 - e0 in
     let m' := match s with
               | Z.pos _ => Z.shiftl c s
               | Z0 => c
               | Z.neg _ => 0
               end in
     let '(q, r) := Z.div_eucl m' D in
     (q, e0, new_location D r)).
Proof. reflexivity. Qed.

Lemma div_core_spec (c D : Z) :
  0 < c → 0 < D →
  let e0 := Z.min (fexp PyFloat.prec PyFloat.emax (Zdigits2 c - Zdigits2 D)) 0 in
  SFdiv_core_binary PyFloat.prec PyFloat.emax c 0 D 0
  = (c * 2 ^ (- e0) / D, e0, new_location D ((c * 2 ^ (- e0)) mod D)).
Proof.
  intros Hc HD e0. rewrite div_core_eq.
  rewrite !Z.add_0_r. change (0 - 0) with 0. fold e0. cbv zeta.
  assert (e0 ≤ 0) as He0 by (unfold e0; lia).
  assert (match 0 - e0 with
          | 0 => c
          | Z.pos _ => Z.shiftl c (0 - e0)
          | Z.neg _ => 0
          end = c * 2 ^ (- e0)) as ->.
  { destruct (0 - e0) as [|q|q] eqn:Hs; [| |lia].
    - replace (- e0) with 0 by lia. lia.
    - rewrite Z.shiftl_mul_pow2 by lia. f_equal. f_equal. lia. }
  unfold Z.div, Z.modulo.
  by destruct (Z.div_eucl (c * 2 ^ (- e0)) D).
Qed.

Lemma even_pow10 (n : Z) : 0 < n → Z.even (10 ^ n) = true.
Proof.
  intros Hn. replace n with (Z.succ (n - 1)) by lia.
  rewrite Z.pow_succ_r by lia.
  replace (10 * 10 ^ (n - 1)) with (2 * (5 * 10 ^ (n - 1))) by lia.
  by rewrite Z.even_mul.
Qed.

(** The division of [c] by [D]: [of_decimal] on a negative power of
    ten. *)
Lemma div_located (sx : bool) (c D : Z) :
  0 < c → 0 < D → Z.even D = true →
  ∃ L mrs,
    (let '(q, e, l) := SFdiv_core_binary PyFloat.prec PyFloat.emax c 0 D 0 in
     binary_round_aux PyFloat.prec PyFloat.emax sx q e l)
    = finish sx mrs (fexp PyFloat.prec PyFloat.emax L)
    ∧ located c D L mrs.
Proof.
  intros Hc HD Hev. rewrite (div_core_spec c D Hc HD).
  set (e0 := Z.min (fexp PyFloat.prec PyFloat.emax (Zdigits2 c - Zdigits2 D)) 0).
  set (V := c * 2 ^ (- e0)).
  pose proof bias_pos as Hb.
  assert (- bias ≤ e0 ≤ 0) as He0 by (unfold e0; rewrite fexp_eq; lia).
  assert (0 < 2 ^ (- e0)) as Hp0 by (apply pow2_pos; lia).
  assert (0 < V) as HV by (unfold V; nia).
  pose proof (Zdigits2_lower c Hc) as Hc1.
  pose proof (Zdigits2_pos c Hc) as Hc2.
  pose proof (Zdigits2_upper D ltac:(lia)) as HD1.
  pose proof (Zdigits2_pos D HD) as HD2.
  set (d1 := Zdigits2 c) in *. set (d2 := Zdigits2 D) in *.
  assert (2 ^ (d1 - 1 - e0) ≤ V) as HVlow.
  { unfold V. replace (d1 - 1 - e0) with ((d1 - 1) + (- e0)) by lia.
    rewrite pow2_add by lia. nia. }
  pose proof (Z.div_mod V D ltac:(lia)) as Hdm.
  pose proof (Z.mod_pos_bound V D HD) as Hmb.
  assert (0 ≤ V / D) as Hq0 by (apply Z.div_pos; lia).
  destruct (first_shift c D (V / D) e0 (new_location D (V mod D)))
    as [Hloc HE]; [done|done|done| | | |].
  - apply truncates_of_loc; [lia|done|done].
  - intros H0. rewrite H0 in Hdm.
    assert (2 ^ (d1 - 1 - e0) < 2 ^ d2) as Hlt by lia.
    apply pow2_lt_inv in Hlt; [|lia|lia].
    unfold e0 in *. rewrite fexp_eq in *. lia.
  - rewrite fexp_eq. destruct (Z.eq_dec e0 (- bias)) as [->|Hne]; [lia|].
    assert (e0 ≤ d1 - d2 - 53) as Hle.
    { unfold e0 in *. rewrite fexp_eq in *. lia. }
    assert (2 ^ (52 + d2) ≤ 2 ^ (d1 - 1 - e0)) as Hpw
      by (apply Z.pow_le_mono_r; lia).
    rewrite pow2_add in Hpw by lia.
    assert (2 ^ 52 ≤ V / D) as Hq.
    { apply Z.div_le_lower_bound; [done|].
      assert (0 < 2 ^ 52) by (apply pow2_pos; lia). nia. }
    pose proof (Zdigits2_ge (V / D) 52 ltac:(lia) Hq). lia.
  - eexists _, _. split; [|exact Hloc].
    by rewrite binary_round_aux_finish, HE.
Qed.

(** The rounding of the integer [q]: [of_decimal] on a power of ten that
    is not negative. *)
Lemma round_located (sx : bool) (q : positive) :
  ∃ L mrs,
    binary_round PyFloat.prec PyFloat.emax sx q 0
    = finish sx mrs (fexp PyFloat.prec PyFloat.emax L)
    ∧ located (Z.pos q) 1 L mrs.
Proof.
  pose proof bias_pos as Hb.
  unfold binary_round. rewrite def_add_0_r.
  set (dq := Z.pos (digits2_pos q)).
  pose proof (fexp_eq dq) as HF.
  destruct (fexp PyFloat.prec PyFloat.emax dq) as [|f|f] eqn:Hf.
  - change (shl_align q 0 0) with (q, 0). cbv iota beta.
    destruct (first_shift (Z.pos q) 1 (Z.pos q) 0 loc_Exact)
      as [Hloc HE]; [done|done|lia| |done| |].
    + rewrite Z.mul_1_r. apply truncates_exact.
    + rewrite Z.add_0_r. simpl Zdigits2. fold dq. rewrite Hf. done.
    + eexists _, _. split; [|exact Hloc].
      by rewrite binary_round_aux_finish, HE.
  - rewrite shl_align_pos. cbv iota beta.
    destruct (first_shift (Z.pos q) 1 (Z.pos q) 0 loc_Exact)
      as [Hloc HE]; [done|done|lia| |done| |].
    + rewrite Z.mul_1_r. apply truncates_exact.
    + rewrite Z.add_0_r. simpl Zdigits2. fold dq. rewrite Hf. done.
    + eexists _, _. split; [|exact Hloc].
      by rewrite binary_round_aux_finish, HE.
  - rewrite shl_align_neg. cbv iota beta.
    destruct (first_shift (Z.pos q) 1 (Z.pos (Pos.iter xO q f)) (Z.neg f)
                loc_Exact) as [Hloc HE]; [done|done|lia| |done| |].
    + change (- Z.neg f) with (Z.pos f). rewrite <- Zpos_iter_xO.
      apply truncates_exact.
    + simpl Zdigits2. rewrite digits2_iter_xO. fold dq.
      replace (dq + Z.pos f + Z.neg f) with dq by lia. rewrite Hf. done.
    + eexists _, _. split; [|exact Hloc].
      by rewrite binary_round_aux_finish, HE.
Qed.

End Branches.

(* ===================================================================== *)
(** * Decimals that [float] reads as the same float *)
(* ===================================================================== *)

Section Decimals.

Lemma pow10_pos (n : Z) : 0 ≤ n → 0 < 10 ^ n.
Proof. intros. apply Z.pow_pos_nonneg; lia. Qed.

Lemma decimal_num_pos (c k : Z) : 0 < c → 0 < decimal_num c k.
Proof.
  intros Hc. unfold decimal_num. destruct (Z.leb_spec 0 k); [|done].
  pose proof (pow10_pos k ltac:(lia)). nia.
Qed.

Lemma decimal_den_pos (k : Z) : 0 < decimal_den k.
Proof.
  unfold decimal_den. destruct (Z.leb_spec 0 k); [done|].
  apply pow10_pos. lia.
Qed.

(** [of_decimal] is a rounding of the ratio of the decimal. *)
Lemma of_decimal_located (s : bool) (c k : Z) :
  0 < c →
  ∃ L mrs,
    PyFloat.of_decimal s c k
    = finish s mrs (fexp PyFloat.prec PyFloat.emax L)
    ∧ located (decimal_num c k) (decimal_den k) L mrs.
Proof.
  intros Hc. destruct c as [|p|p]; [lia| |lia].
  unfold PyFloat.of_decimal, decimal_num, decimal_den.
  destruct (Z.leb_spec 0 k) as [Hk|Hk].
  - pose proof (pow10_pos k Hk) as H10.
    destruct (Z.pos p * 10 ^ k) as [|q|q] eqn:Hq; [lia| |lia].
    destruct (round_located s q) as (L & mrs & Hr & Hl).
    exists L, mrs. split; [|done]. rewrite <- Hr. by destruct s.
  - apply div_located; [done|apply pow10_pos; lia|apply even_pow10; lia].
Qed.

(** The binade of a ratio is below every power of two above the ratio. *)
Lemma binade_le (N D L N' D' L' : Z) :
  0 < D → 0 < D' → 0 < N → 0 < N' → N * D' = N' * D →
  - bias ≤ L → N < D * 2 ^ (L + bias) →
  (L' = - bias ∨ D' * 2 ^ (L' - 1 + bias) ≤ N') →
  L' ≤ L.
Proof.
  intros HD HD' HN HN' HND HL Hup [->|Hlow]; [done|].
  destruct (Z.le_gt_cases L' L) as [|Hgt]; [done|]. exfalso.
  assert (2 ^ (L + bias) ≤ 2 ^ (L' - 1 + bias))
    by (apply Z.pow_le_mono_r; lia).
  assert (0 < 2 ^ (L + bias)) by (apply pow2_pos; lia).
  assert (N * D' < D * 2 ^ (L' - 1 + bias) * D') by nia.
  assert (D * (D' * 2 ^ (L' - 1 + bias)) ≤ D * N') by nia.
  nia.
Qed.

(** The place of a ratio is that of every pair of that ratio. *)
Lemma located_unique (N1 D1 L1 N2 D2 L2 : Z) (mrs1 mrs2 : shr_record) :
  0 < N1 → 0 < D1 → 0 < N2 → 0 < D2 → N1 * D2 = N2 * D1 →
  located N1 D1 L1 mrs1 → located N2 D2 L2 mrs2 →
  L1 = L2 ∧ mrs1 = mrs2.
Proof.
  intros HN1 HD1 HN2 HD2 Heq (Hb1 & Hu1 & Hl1 & Ht1) (Hb2 & Hu2 & Hl2 & Ht2).
  pose proof bias_pos as Hb.
  assert (0 < 2 ^ bias) as Hpb by (apply pow2_pos; lia).
  set (A1 := N1 * 2 ^ bias) in *. set (A2 := N2 * 2 ^ bias) in *.
  assert (A1 * D2 = A2 * D1) as HA by (unfold A1, A2; nia).
  assert (0 < A1) by (unfold A1; nia). assert (0 < A2) by (unfold A2; nia).
  assert (L1 = L2) as HL.
  { pose proof (binade_le A1 D1 L1 A2 D2 L2 HD1 HD2 ltac:(done) ltac:(done)
                  HA Hb1 Hu1 Hl2).
    pose proof (binade_le A2 D2 L2 A1 D1 L1 HD2 HD1 ltac:(done) ltac:(done)
                  (eq_sym HA) Hb2 Hu2 Hl1).
    lia. }
  split; [done|]. subst L2.
  set (E := fexp PyFloat.prec PyFloat.emax L1) in *.
  assert (- bias ≤ E) by (unfold E; rewrite fexp_eq; lia).
  assert (0 < 2 ^ (E + bias)) by (apply pow2_pos; lia).
  eapply (truncates_ratio A1 (D1 * 2 ^ (E + bias)) A2 (D2 * 2 ^ (E + bias)));
    [lia|nia|lia|nia|nia|done|done].
Qed.

(** Decimals of the same ratio are read as the same float. *)
Lemma of_decimal_ratio (s : bool) (c1 k1 c2 k2 : Z) :
  0 < c1 → 0 < c2 →
  decimal_num c1 k1 * decimal_den k2 = decimal_num c2 k2 * decimal_den k1 →
  PyFloat.of_decimal s c1 k1 = PyFloat.of_decimal s c2 k2.
Proof.
  intros Hc1 Hc2 Heq.
  destruct (of_decimal_located s c1 k1 Hc1) as (L1 & mrs1 & -> & Hl1).
  destruct (of_decimal_located s c2 k2 Hc2) as (L2 & mrs2 & -> & Hl2).
  destruct (located_unique _ _ _ _ _ _ _ _
              (decimal_num_pos c1 k1 Hc1) (decimal_den_pos k1)
              (decimal_num_pos c2 k2 Hc2) (decimal_den_pos k2) Heq Hl1 Hl2)
    as [-> ->].
  done.
Qed.

(** Zeros at the end of the digits go into the exponent. *)
Lemma of_decimal_zeros (s : bool) (c k j : Z) :
  0 < c → 0 ≤ j →
  PyFloat.of_decimal s (c * 10 ^ j) k = PyFloat.of_decimal s c (k + j).
Proof.
  intros Hc Hj. pose proof (pow10_pos j Hj) as H10.
  apply of_decimal_ratio; [nia|done|].
  unfold decimal_num, decimal_den.
  destruct (Z.leb_spec 0 k) as [Hk|Hk], (Z.leb_spec 0 (k + j)) as [Hkj|Hkj];
    try lia.
  - rewrite Z.pow_add_r by lia. lia.
  - replace j with ((k + j) + (- k)) at 1 by lia.
    rewrite (Z.pow_add_r 10 (k + j) (- k)) by lia. lia.
  - replace (- k) with (j + - (k + j)) by lia.
    rewrite Z.pow_add_r by lia. lia.
Qed.

End Decimals.

(* ===================================================================== *)
(** * What [float] returns is a binary64 value *)
(* ===================================================================== *)

Section Finish.

Lemma round_nearest_even_cases (q : Z) (l : location) :
  round_nearest_even q l = q ∨ round_nearest_even q l = q + 1.
Proof.
  destruct l as [|[]]; simpl; try (by left); try (by right).
  destruct (Z.even q); [by left|by right].
Qed.

(** The second shift of a canonical mantissa does nothing. *)
Lemma finish_canonical (s : bool) (mrs : shr_record) (m : positive) (e : Z) :
  bounded PyFloat.prec PyFloat.emax m e = true →
  round_nearest_even (shr_m mrs) (loc_of_shr_record mrs) = Z.pos m →
  finish s mrs e = S754_finite s m e.
Proof.
  intros [Hc He]%bounded_inv Hm. unfold finish, shr_fexp. rewrite Hm.
  simpl Zdigits2. rewrite Hc, Z.sub_diag. simpl. by rewrite He.
Qed.

(** The second shift behind a carry halves the mantissa. *)
Lemma finish_carry (s : bool) (mrs : shr_record) (m : positive) (e : Z) :
  bounded PyFloat.prec PyFloat.emax m e = true →
  round_nearest_even (shr_m mrs) (loc_of_shr_record mrs) = Z.pos m~0 →
  finish s mrs (e - 1) = S754_finite s m e.
Proof.
  intros [Hc He]%bounded_inv Hm. unfold finish, shr_fexp. rewrite Hm.
  simpl Zdigits2. rewrite Pos2Z.inj_succ.
  replace (Z.succ (Z.pos (digits2_pos m)) + (e - 1))
    with (Z.pos (digits2_pos m) + e) by lia.
  rewrite Hc. replace (e - (e - 1)) with 1 by lia. simpl.
  replace (e - 1 + 1) with e by lia. by rewrite He.
Qed.

(** What [finish] returns is a binary64 value. *)
Lemma finish_valid (s : bool) (N D L : Z) (mrs : shr_record) :
  0 < N → 0 < D → located N D L mrs →
  binary64 (finish s mrs (fexp PyFloat.prec PyFloat.emax L)).
Proof.
  intros HN HD (HL & Hup & Hlow & Hm & _ & _).
  pose proof bias_pos as Hb.
  set (E := fexp PyFloat.prec PyFloat.emax L) in *.
  pose proof (fexp_eq L) as HE. fold E in HE.
  set (A := N * 2 ^ bias) in *.
  assert (0 < 2 ^ bias) as Hpb by (apply pow2_pos; lia).
  assert (0 < A) as HA by (unfold A; nia).
  assert (0 < 2 ^ (E + bias)) as HpE by (apply pow2_pos; lia).
  set (D' := D * 2 ^ (E + bias)) in *.
  assert (0 < D') as HD' by (unfold D'; nia).
  set (q1 := shr_m mrs) in *.
  assert (0 ≤ q1) as Hq0 by (rewrite Hm; apply Z.div_pos; lia).
  assert (q1 < 2 ^ (L - E)) as Hq1.
  { rewrite Hm. apply Z.div_lt_upper_bound; [done|].
    unfold D'. replace (L + bias) with ((E + bias) + (L - E)) in Hup by lia.
    rewrite pow2_add in Hup by lia. lia. }
  assert (E ≠ - bias → 2 ^ 52 ≤ q1) as Hq52.
  { intros HEb. destruct Hlow as [->|Hlow]; [lia|].
    rewrite Hm. apply Z.div_le_lower_bound; [done|].
    unfold D'. replace (L - 1 + bias) with ((E + bias) + 52) in Hlow by lia.
    rewrite pow2_add in Hlow by lia. lia. }
  unfold finish. fold q1.
  set (M := round_nearest_even q1 (loc_of_shr_record mrs)).
  assert (q1 ≤ M ≤ q1 + 1) as HM.
  { unfold M. destruct (round_nearest_even_cases q1 (loc_of_shr_record mrs))
      as [-> | ->]; lia. }
  assert (M ≤ 2 ^ (L - E)) as HM2 by lia.
  pose proof (Zdigits2_nonneg M) as Hd0.
  assert (Zdigits2 M ≤ L - E + 1) as HdM.
  { apply Zdigits2_le; [lia|lia|].
    rewrite pow2_add by lia. assert (0 < 2 ^ (L - E)) by (apply pow2_pos; lia).
    lia. }
  pose proof (fexp_eq (Zdigits2 M + E)) as HF.
  assert (E ≠ - bias → 53 ≤ Zdigits2 M) as HdM53.
  { intros HEb. apply (Zdigits2_ge M 52); [lia|]. specialize (Hq52 HEb). lia. }
  unfold shr_fexp, shr.
  destruct (fexp PyFloat.prec PyFloat.emax (Zdigits2 M + E) - E)
    as [|n|n] eqn:Hn.
  - rewrite shr_m_of_loc.
    destruct M as [|p|p] eqn:HMp; [done| |lia].
    destruct (Z.leb_spec E (PyFloat.emax - PyFloat.prec)) as [Hmax|Hmax];
      [|done].
    unfold binary64, valid_binary, bounded, canonical_mantissa.
    apply andb_true_intro. split; [apply Z.eqb_eq|by apply Z.leb_le].
    simpl Zdigits2 in Hn. lia.
  - assert (Z.pos n = 1) as Hn1 by lia. injection Hn1 as ->.
    cbn [SpecFloat.iter_pos fst snd].
    destruct M as [|[p|p|]|p] eqn:HMp; [done| | |done|lia].
    + cbn [shr_record_of_loc shr_1 shr_m].
      destruct (Z.leb_spec (E + 1) (PyFloat.emax - PyFloat.prec)) as [Hmax|Hmax];
        [|done].
      unfold binary64, valid_binary, bounded, canonical_mantissa.
      apply andb_true_intro. split; [apply Z.eqb_eq|by apply Z.leb_le].
      simpl Zdigits2 in Hn. rewrite Pos2Z.inj_succ in Hn.
      replace (Z.pos (digits2_pos p) + (E + 1))
        with (Z.succ (Z.pos (digits2_pos p)) + E) by lia. lia.
    + cbn [shr_record_of_loc shr_1 shr_m].
      destruct (Z.leb_spec (E + 1) (PyFloat.emax - PyFloat.prec)) as [Hmax|Hmax];
        [|done].
      unfold binary64, valid_binary, bounded, canonical_mantissa.
      apply andb_true_intro. split; [apply Z.eqb_eq|by apply Z.leb_le].
      simpl Zdigits2 in Hn. rewrite Pos2Z.inj_succ in Hn.
      replace (Z.pos (digits2_pos p) + (E + 1))
        with (Z.succ (Z.pos (digits2_pos p)) + E) by lia. lia.
  - rewrite shr_m_of_loc.
    destruct M as [|p|p] eqn:HMp; [done| |lia].
    destruct (Z.leb_spec E (PyFloat.emax - PyFloat.prec)) as [Hmax|Hmax];
      [|done].
    unfold binary64, valid_binary, bounded, canonical_mantissa.
    apply andb_true_intro. split; [apply Z.eqb_eq|by apply Z.leb_le].
    simpl Zdigits2 in Hn, HdM53, HF. lia.
Qed.

(** [float] reads a decimal as a binary64 value. *)
Lemma of_decimal_binary64 (s : bool) (c k : Z) :
  binary64 (PyFloat.of_decimal s c k).
Proof.
  destruct (Z.lt_ge_cases 0 c) as [Hc|Hc].
  - destruct (of_decimal_located s c k Hc) as (L & mrs & -> & Hl).
    eapply finish_valid; [| |exact Hl].
    + by apply decimal_num_pos.
    + apply decimal_den_pos.
  - unfold PyFloat.of_decimal. by destruct c.
Qed.

End Finish.

(* ===================================================================== *)
(** * Decimals near a float *)
(* ===================================================================== *)

Section Nearest.

Lemma bounded_facts (m : positive) (e : Z) :
  bounded PyFloat.prec PyFloat.emax m e = true →
  let dm := Z.pos (digits2_pos m) in
  fexp PyFloat.prec PyFloat.emax (dm + e) = e
  ∧ - bias ≤ e ∧ e ≤ 971 ∧ dm ≤ 53 ∧ (- bias < e → dm = 53)
  ∧ 2 ^ (dm - 1) ≤ Z.pos m < 2 ^ dm.
Proof.
  intros Hb dm. subst dm. destruct (bounded_inv m e Hb) as [Hc He].
  apply Z.leb_le in He. change (PyFloat.emax - PyFloat.prec) with 971 in He.
  pose proof (fexp_eq (Z.pos (digits2_pos m) + e)) as HF. rewrite Hc in HF.
  pose proof (digits2_bounds m). pose proof bias_pos.
  split_and!; try done; lia.
Qed.

(** A ratio between a float and the middle above it is rounded down to
    the float. *)
Lemma rounds_down (s : bool) (N D L : Z) (mrs : shr_record)
    (m : positive) (e : Z) :
  0 < N → 0 < D → located N D L mrs →
  bounded PyFloat.prec PyFloat.emax m e = true →
  Z.pos m * 2 ^ (e + bias) * D ≤ N * 2 ^ bias →
  2 * (N * 2 ^ bias) < (2 * Z.pos m + 1) * 2 ^ (e + bias) * D →
  finish s mrs (fexp PyFloat.prec PyFloat.emax L) = S754_finite s m e.
Proof.
  intros HN HD (HL & Hup & Hlow & Hm & Hr & Hs) Hb Hle Hlt.
  destruct (bounded_facts m e Hb) as (Hc & He & _ & Hdm & _ & Hm1 & Hm2).
  set (dm := Z.pos (digits2_pos m)) in *.
  pose proof bias_pos as Hbias.
  set (A := N * 2 ^ bias) in *.
  assert (0 < 2 ^ bias) as Hpb by (apply pow2_pos; lia).
  assert (0 < A) as HA by (unfold A; nia).
  set (P := 2 ^ (e + bias)) in *.
  assert (0 < P) as HP by (apply pow2_pos; lia).
  assert (0 < dm) as Hdm0 by done.
  assert (0 < 2 ^ (dm - 1)) as Hpd by (apply pow2_pos; lia).
  assert (2 ^ dm = 2 * 2 ^ (dm - 1)) as Hpd2.
  { replace dm with (Z.succ (dm - 1)) at 1 by lia. apply Z.pow_succ_r. lia. }
  assert (L = dm + e) as ->.
  { apply Z.le_antisymm.
    - apply (binade_le A D (dm + e) A D L); try done; [lia|].
      replace (dm + e + bias) with (dm + (e + bias)) by lia.
      rewrite pow2_add by lia. fold P. nia.
    - apply (binade_le A D L A D (dm + e)); try done. right.
      replace (dm + e - 1 + bias) with ((dm - 1) + (e + bias)) by lia.
      rewrite pow2_add by lia. fold P. nia. }
  rewrite Hc in *. fold P in Hm, Hr, Hs.
  set (D' := D * P) in *.
  assert (0 < D') as HD' by (unfold D'; nia).
  assert (A / D' = Z.pos m ∧ A mod D' = A - Z.pos m * D') as [Hq Hmod].
  { assert (A = D' * Z.pos m + (A - Z.pos m * D')) as Heq by lia.
    assert (0 ≤ A - Z.pos m * D' < D') as Hbd by (unfold D'; nia).
    split; symmetry.
    - eapply Z.div_unique_pos; [exact Hbd|exact Heq].
    - eapply Z.mod_unique_pos; [exact Hbd|exact Heq]. }
  apply finish_canonical; [done|].
  rewrite Hq in Hm. rewrite Hmod in Hr.
  assert (shr_r mrs = false) as Hr'.
  { rewrite Hr. apply Z.leb_gt. unfold D'. nia. }
  destruct mrs as [q r s0]. simpl in Hm, Hr'. subst q r. by destruct s0.
Qed.

(** A ratio between a float and the middle below it is rounded up to the
    float; the float is not the least of its binade, or it is of the
    least exponent. *)
Lemma rounds_up (s : bool) (N D L : Z) (mrs : shr_record)
    (m : positive) (e : Z) :
  0 < N → 0 < D → located N D L mrs →
  bounded PyFloat.prec PyFloat.emax m e = true →
  e = - bias ∨ 2 ^ 52 < Z.pos m →
  (2 * Z.pos m - 1) * 2 ^ (e + bias) * D < 2 * (N * 2 ^ bias) →
  N * 2 ^ bias < Z.pos m * 2 ^ (e + bias) * D →
  finish s mrs (fexp PyFloat.prec PyFloat.emax L) = S754_finite s m e.
Proof.
  intros HN HD (HL & Hup & Hlow & Hm & Hr & Hs) Hb Hcase Hgt Hlt.
  destruct (bounded_facts m e Hb) as (Hc & He & _ & Hdm & Hnorm & Hm1 & Hm2).
  set (dm := Z.pos (digits2_pos m)) in *.
  pose proof bias_pos as Hbias.
  set (A := N * 2 ^ bias) in *.
  assert (0 < 2 ^ bias) as Hpb by (apply pow2_pos; lia).
  assert (0 < A) as HA by (unfold A; nia).
  set (P := 2 ^ (e + bias)) in *.
  assert (0 < P) as HP by (apply pow2_pos; lia).
  assert (0 < dm) as Hdm0 by done.
  assert (0 < 2 ^ (dm - 1)) as Hpd by (apply pow2_pos; lia).
  assert (2 ^ dm = 2 * 2 ^ (dm - 1)) as Hpd2.
  { replace dm with (Z.succ (dm - 1)) at 1 by lia. apply Z.pow_succ_r. lia. }
  assert (L ≤ dm + e) as HLle.
  { apply (binade_le A D (dm + e) A D L); try done; [lia|].
    replace (dm + e + bias) with (dm + (e + bias)) by lia.
    rewrite pow2_add by lia. fold P. nia. }
  assert (fexp PyFloat.prec PyFloat.emax L = e) as HE.
  { destruct (Z.eq_dec e (- bias)) as [Heb|Heb].
    - rewrite fexp_eq. rewrite fexp_eq in Hc. lia.
    - assert (dm = 53) as Hd53 by (apply Hnorm; lia).
      assert (2 ^ 52 < Z.pos m) as H52 by (destruct Hcase; [done|done]).
      assert (dm + e ≤ L) as HLge.
      { apply (binade_le A D L A D (dm + e)); try done. right.
        replace (dm + e - 1 + bias) with ((dm - 1) + (e + bias)) by lia.
        rewrite pow2_add by lia. fold P. rewrite Hd53.
        change (53 - 1) with 52. nia. }
      replace L with (dm + e) by lia. done. }
  rewrite HE in *. fold P in Hm, Hr, Hs.
  set (D' := D * P) in *.
  assert (0 < D') as HD' by (unfold D'; nia).
  assert (A / D' = Z.pos m - 1 ∧ A mod D' = A - (Z.pos m - 1) * D')
    as [Hq Hmod].
  { assert (A = D' * (Z.pos m - 1) + (A - (Z.pos m - 1) * D')) as Heq by lia.
    assert (0 ≤ A - (Z.pos m - 1) * D' < D') as Hbd by (unfold D'; nia).
    split; symmetry.
    - eapply Z.div_unique_pos; [exact Hbd|exact Heq].
    - eapply Z.mod_unique_pos; [exact Hbd|exact Heq]. }
  apply finish_canonical; [done|].
  rewrite Hq in Hm. rewrite Hmod in Hr, Hs.
  assert (shr_r mrs = true) as Hr'.
  { rewrite Hr. apply Z.leb_le. unfold D'. nia. }
  assert (shr_s mrs = true) as Hs'.
  { rewrite Hs. apply negb_true_iff, orb_false_iff.
    split; apply Z.eqb_neq; unfold D'; nia. }
  destruct mrs as [q r s0]. simpl in Hm, Hr', Hs'. subst q r s0.
  simpl. lia.
Qed.

(** So is a ratio between the least float of a binade and the middle
    below it, which is nearer. *)
Lemma rounds_up_binade (s : bool) (N D L : Z) (mrs : shr_record)
    (m : positive) (e : Z) :
  0 < N → 0 < D → located N D L mrs →
  bounded PyFloat.prec PyFloat.emax m e = true →
  - bias < e → Z.pos m = 2 ^ 52 →
  (4 * Z.pos m - 1) * 2 ^ (e - 1 + bias) * D < 2 * (N * 2 ^ bias) →
  N * 2 ^ bias < 2 * Z.pos m * 2 ^ (e - 1 + bias) * D →
  finish s mrs (fexp PyFloat.prec PyFloat.emax L) = S754_finite s m e.
Proof.
  intros HN HD (HL & Hup & Hlow & Hm & Hr & Hs) Hb Hcase H52 Hgt Hlt.
  destruct (bounded_facts m e Hb) as (Hc & He & _ & Hdm & Hnorm & Hm1 & Hm2).
  set (dm := Z.pos (digits2_pos m)) in *.
  assert (dm = 53) as Hd53 by (apply Hnorm; lia).
  pose proof bias_pos as Hbias.
  set (A := N * 2 ^ bias) in *.
  assert (0 < 2 ^ bias) as Hpb by (apply pow2_pos; lia).
  assert (0 < A) as HA by (unfold A; nia).
  set (P := 2 ^ (e - 1 + bias)) in *.
  assert (0 < P) as HP by (apply pow2_pos; lia).
  assert (L = 52 + e) as ->.
  { apply Z.le_antisymm.
    - apply (binade_le A D (52 + e) A D L); try done; [lia|].
      replace (52 + e + bias) with (53 + (e - 1 + bias)) by lia.
      rewrite pow2_add by lia. fold P. change (2 ^ 53) with (2 * 2 ^ 52).
      rewrite <- H52. lia.
    - apply (binade_le A D L A D (52 + e)); try done. right.
      replace (52 + e - 1 + bias) with (52 + (e - 1 + bias)) by lia.
      rewrite pow2_add by lia. fold P. rewrite <- H52. nia. }
  assert (fexp PyFloat.prec PyFloat.emax (52 + e) = e - 1) as HE
    by (rewrite fexp_eq; lia).
  rewrite HE in *. fold P in Hm, Hr, Hs.
  set (D' := D * P) in *.
  assert (0 < D') as HD' by (unfold D'; nia).
  assert (A / D' = 2 * Z.pos m - 1
          ∧ A mod D' = A - (2 * Z.pos m - 1) * D') as [Hq Hmod].
  { assert (A = D' * (2 * Z.pos m - 1) + (A - (2 * Z.pos m - 1) * D'))
      as Heq by lia.
    assert (0 ≤ A - (2 * Z.pos m - 1) * D' < D') as Hbd by (unfold D'; nia).
    split; symmetry.
    - eapply Z.div_unique_pos; [exact Hbd|exact Heq].
    - eapply Z.mod_unique_pos; [exact Hbd|exact Heq]. }
  apply finish_carry; [done|].
  rewrite Hq in Hm. rewrite Hmod in Hr, Hs.
  assert (shr_r mrs = true) as Hr'.
  { rewrite Hr. apply Z.leb_le. unfold D'. nia. }
  assert (shr_s mrs = true) as Hs'.
  { rewrite Hs. apply negb_true_iff, orb_false_iff.
    split; apply Z.eqb_neq; unfold D'; nia. }
  destruct mrs as [q r s0]. simpl in Hm, Hr', Hs'. subst q r s0.
  simpl. rewrite Pos2Z.inj_xO. lia.
Qed.

End Nearest.

Section Reading.

Lemma decimal_negative (c sh : Z) :
  0 < sh → decimal_num c (- sh) = c ∧ decimal_den (- sh) = 10 ^ sh.
Proof.
  intros Hsh. unfold decimal_num, decimal_den.
  destruct (Z.leb_spec 0 (- sh)); [lia|]. by rewrite Z.opp_involutive.
Qed.

(** [float] reads the decimal [c / 10^sh] as the float [m / 2^(-e)] when
    the decimal is the float or above it, and below the middle to the
    next float. *)
Lemma reads_down (s : bool) (c sh : Z) (m : positive) (e : Z) :
  0 < c → 0 < sh → e < 0 →
  bounded PyFloat.prec PyFloat.emax m e = true →
  Z.pos m * 10 ^ sh ≤ c * 2 ^ (- e) →
  2 * (c * 2 ^ (- e)) < (2 * Z.pos m + 1) * 10 ^ sh →
  PyFloat.of_decimal s c (- sh) = S754_finite s m e.
Proof.
  intros Hc Hsh He Hb Hle Hlt.
  destruct (of_decimal_located s c (- sh) Hc) as (L & mrs & -> & Hl).
  destruct (decimal_negative c sh Hsh) as [HN HD]. rewrite HN, HD in Hl.
  destruct (bounded_facts m e Hb) as (_ & Heb & _).
  pose proof (pow10_pos sh ltac:(lia)) as HT.
  assert (0 < 2 ^ (e + bias)) as HP by (apply pow2_pos; lia).
  assert (2 ^ bias = 2 ^ (- e) * 2 ^ (e + bias)) as Hbias.
  { rewrite <- pow2_add by lia. f_equal. lia. }
  apply (rounds_down s c (10 ^ sh) L mrs m e); [done|done|done|done| |].
  - rewrite Hbias. nia.
  - rewrite Hbias. nia.
Qed.

(** It reads a decimal below the float as the float when the decimal is
    above the middle from the float before. *)
Lemma reads_up (s : bool) (c sh : Z) (m : positive) (e : Z) :
  0 < c → 0 < sh → e < 0 →
  bounded PyFloat.prec PyFloat.emax m e = true →
  e = - bias ∨ 2 ^ 52 < Z.pos m →
  (2 * Z.pos m - 1) * 10 ^ sh < 2 * (c * 2 ^ (- e)) →
  c * 2 ^ (- e) < Z.pos m * 10 ^ sh →
  PyFloat.of_decimal s c (- sh) = S754_finite s m e.
Proof.
  intros Hc Hsh He Hb Hcase Hgt Hlt.
  destruct (of_decimal_located s c (- sh) Hc) as (L & mrs & -> & Hl).
  destruct (decimal_negative c sh Hsh) as [HN HD]. rewrite HN, HD in Hl.
  destruct (bounded_facts m e Hb) as (_ & Heb & _).
  pose proof (pow10_pos sh ltac:(lia)) as HT.
  assert (0 < 2 ^ (e + bias)) as HP by (apply pow2_pos; lia).
  assert (2 ^ bias = 2 ^ (- e) * 2 ^ (e + bias)) as Hbias.
  { rewrite <- pow2_add by lia. f_equal. lia. }
  apply (rounds_up s c (10 ^ sh) L mrs m e); [done|done|done|done|done| |].
  - rewrite Hbias. nia.
  - rewrite Hbias. nia.
Qed.

Lemma reads_up_binade (s : bool) (c sh : Z) (m : positive) (e : Z) :
  0 < c → 0 < sh → e < 0 →
  bounded PyFloat.prec PyFloat.emax m e = true →
  - bias < e → Z.pos m = 2 ^ 52 →
  (4 * Z.pos m - 1) * 10 ^ sh < 4 * (c * 2 ^ (- e)) →
  c * 2 ^ (- e) < Z.pos m * 10 ^ sh →
  PyFloat.of_decimal s c (- sh) = S754_finite s m e.
Proof.
  intros Hc Hsh He Hb Hcase H52 Hgt Hlt.
  destruct (of_decimal_located s c (- sh) Hc) as (L & mrs & -> & Hl).
  destruct (decimal_negative c sh Hsh) as [HN HD]. rewrite HN, HD in Hl.
  pose proof (pow10_pos sh ltac:(lia)) as HT.
  assert (0 < 2 ^ (e - 1 + bias)) as HP by (apply pow2_pos; lia).
  assert (2 ^ bias = 2 * 2 ^ (- e) * 2 ^ (e - 1 + bias)) as Hbias.
  { rewrite <- Z.mul_assoc, <- pow2_add by lia.
    rewrite <- Z.pow_succ_r by lia. f_equal. lia. }
  apply (rounds_up_binade s c (10 ^ sh) L mrs m e);
    [done|done|done|done|done|done| |].
  - rewrite Hbias. nia.
  - rewrite Hbias. nia.
Qed.

End Reading.

(* ===================================================================== *)
(** * The digits of [repr] read back *)
(* ===================================================================== *)

Section Shortest.

Lemma same_float_eq (a b : float) : PyStr.same_float a b = true → a = b.
Proof.
  destruct a as [[]|[]| |[] m e], b as [[]|[]| |[] m' e']; simpl; try done.
  all: intros [Hm He]%andb_prop; apply Pos.eqb_eq in Hm; apply Z.eqb_eq in He;
    by subst.
Qed.

(** A candidate that was not forced reads back as the float. *)
Lemma candidate_checked (force : bool) (m : positive) (e num den decpt n cc : Z) :
  let sh := n - decpt in
  let c := (if 0 <=? sh then num * 10 ^ sh else num)
           / (if 0 <=? sh then den else den * 10 ^ (- sh)) in
  force = false
  ∨ PyFloat.of_decimal false c (- sh) = S754_finite false m e
  ∨ PyFloat.of_decimal false (c + 1) (- sh) = S754_finite false m e →
  PyStr.candidate force m e num den decpt n = Some cc →
  PyFloat.of_decimal false cc (- sh) = S754_finite false m e.
Proof.
  intros sh c Hforce. unfold PyStr.candidate. fold sh. fold c.
  destruct (PyStr.same_float (PyFloat.of_decimal false c (- sh))
              (S754_finite false m e)) eqn:Hlo;
    destruct (PyStr.same_float (PyFloat.of_decimal false (c + 1) (- sh))
                (S754_finite false m e)) eqn:Hhi; simpl.
  - apply same_float_eq in Hlo, Hhi.
    destruct (_ ?= _); [destruct (Z.even c)| |]; by intros [= <-].
  - apply same_float_eq in Hlo. by intros [= <-].
  - apply same_float_eq in Hhi. by intros [= <-].
  - destruct Hforce as [->|[H|H]]; [done| |].
    + rewrite H in Hlo. simpl in Hlo.
      by rewrite Pos.eqb_refl, Z.eqb_refl in Hlo.
    + rewrite H in Hhi. simpl in Hhi.
      by rewrite Pos.eqb_refl, Z.eqb_refl in Hhi.
Qed.

(** Seventeen digits are enough: of the two decimals of seventeen digits
    around a float, one at least reads back as the float. *)
Lemma seventeen_digits (m : positive) (e sh : Z) :
  bounded PyFloat.prec PyFloat.emax m e = true → e < 0 → 0 < sh →
  2 ^ (- e) * 10 ^ 16 ≤ Z.pos m * 10 ^ sh →
  let c := Z.pos m * 10 ^ sh / 2 ^ (- e) in
  PyFloat.of_decimal false c (- sh) = S754_finite false m e
  ∨ PyFloat.of_decimal false (c + 1) (- sh) = S754_finite false m e.
Proof.
  intros Hb He Hsh Hbig c.
  destruct (bounded_facts m e Hb) as (_ & Heb & _ & Hdm & Hnorm & Hm1 & Hm2).
  set (dm := Z.pos (digits2_pos m)) in *.
  set (den := 2 ^ (- e)) in *. set (T := 10 ^ sh) in *.
  assert (0 < den) as Hden by (apply pow2_pos; lia).
  assert (0 < T) as HT by (apply pow10_pos; lia).
  pose proof (Z.div_mod (Z.pos m * T) den ltac:(lia)) as Hdm'.
  pose proof (Z.mod_pos_bound (Z.pos m * T) den Hden) as Hr.
  fold c in Hdm'. set (r := (Z.pos m * T) mod den) in *.
  set (N := Z.pos m * T) in *. set (cd := den * c) in *.
  change (10 ^ 16) with 10000000000000000 in Hbig.
  assert (Z.pos m < 2 ^ 53) as Hm53.
  { eapply Z.lt_le_trans; [exact Hm2|]. apply Z.pow_le_mono_r; lia. }
  change (2 ^ 53) with 9007199254740992 in Hm53.
  assert (10000000000000000 ≤ c) as Hc16.
  { apply Z.div_le_lower_bound; [done|]. lia. }
  assert (den < T) as HdT by nia.
  destruct (Z.eq_dec r 0) as [Hr0|Hr0].
  - left. apply reads_down; [lia|done|done|done| |]; fold den T N; lia.
  - destruct (decide (e = - bias ∨ 2 ^ 52 < Z.pos m)) as [Hcase|Hcase].
    + destruct (Z.lt_ge_cases (2 * r) T) as [Hlt|Hge].
      * left. apply reads_up; [lia|done|done|done|done| |]; fold den T N;
          nia.
      * right. apply reads_down; [lia|done|done|done| |]; fold den T N; nia.
    + assert (Z.pos m = 2 ^ 52) as H52.
      { assert (dm = 53) as Hd by (apply Hnorm; lia).
        rewrite Hd in Hm1. change (53 - 1) with 52 in Hm1. lia. }
      assert (4 * den < 3 * T) as Hd3.
      { assert (N = 4503599627370496 * T) as HN
          by (unfold N; rewrite H52; reflexivity).
        lia. }
      destruct (Z.lt_ge_cases (4 * r) T) as [Hlt|Hge].
      * left. apply reads_up_binade; [lia|done|done|done|lia|done| |];
          fold den T N; nia.
      * right. apply reads_down; [lia|done|done|done| |]; fold den T N; nia.
Qed.

End Shortest.

Section ReprDigits.

(** The decimal point of a float with a fractional part leaves room for
    seventeen digits, the first of which is not zero. *)
Lemma decimal_point_17 (m : positive) (e : Z) :
  bounded PyFloat.prec PyFloat.emax m e = true → e < 0 →
  let decpt := PyStr.decimal_point (Z.pos m) (2 ^ (- e)) e in
  0 < 17 - decpt
  ∧ 2 ^ (- e) * 10 ^ 16 ≤ Z.pos m * 10 ^ (17 - decpt).
Proof.
  intros Hb He.
  destruct (bounded_facts m e Hb) as (_ & Heb & _ & Hdm & _ & _ & Hm2).
  set (den := 2 ^ (- e)).
  assert (2 ≤ den) as Hden.
  { unfold den. replace (- e) with (Z.succ (- e - 1)) by lia.
    rewrite Z.pow_succ_r by lia.
    assert (0 < 2 ^ (- e - 1)) by (apply pow2_pos; lia). lia. }
  assert (Z.pos m < 2 ^ 53) as Hm53.
  { eapply Z.lt_le_trans; [exact Hm2|]. apply Z.pow_le_mono_r; lia. }
  change (2 ^ 53) with 9007199254740992 in Hm53.
  unfold PyStr.decimal_point. fold den.
  destruct (Z.leb_spec den (Z.pos m)) as [Hle|Hlt].
  - set (q := Z.pos m / den).
    assert (0 < q) as Hq by (apply Z.div_str_pos; lia).
    pose proof (of_int_length_lower q Hq) as Hlen.
    set (len := Z.of_nat (String.length (PyStr.of_int q))) in *.
    assert (den * q ≤ Z.pos m) as Hdq by (apply Z.mul_div_le; lia).
    assert (q < 10 ^ 16) as Hq16.
    { change (10 ^ 16) with 10000000000000000. clearbody den q. nia. }
    assert (0 ≤ len) as Hlen0 by (unfold len; lia).
    assert (len - 1 < 16) as Hl16.
    { destruct (Z.lt_ge_cases (len - 1) 16) as [|Hge]; [done|]. exfalso.
      assert (10 ^ 16 ≤ 10 ^ (len - 1)) by (apply Z.pow_le_mono_r; lia). lia. }
    cbv zeta. split; [lia|].
    destruct (Z.eq_dec len 0) as [H0|H0].
    + rewrite H0. change (17 - 0) with 17.
      change (10 ^ 17) with (10 * 10 ^ 16). clearbody den q len. nia.
    + replace 16 with ((len - 1) + (17 - len)) at 1 by lia.
      rewrite Z.pow_add_r by lia.
      assert (0 < 10 ^ (17 - len)) by (apply pow10_pos; lia).
      assert (0 < 10 ^ (len - 1)) by (apply pow10_pos; lia).
      clearbody den q len.
      assert (den * 10 ^ (len - 1) ≤ Z.pos m) by nia.
      nia.
  - destruct (leading_zeros_spec (Z.to_nat (- e)) (Z.pos m) den 0)
      as (k & -> & Hk0 & Hk); [done|done| |].
    + rewrite Z2Nat.id by lia. unfold den.
      assert (2 ^ (- e) ≤ 10 ^ (- e)) by (apply Z.pow_le_mono_l; lia). nia.
    + cbv zeta. split; [lia|].
      replace (17 - - (0 + k)) with ((k + 1) + 16) by lia.
      rewrite Z.pow_add_r by lia.
      assert (0 < 10 ^ 16) by (apply pow10_pos; lia). nia.
Qed.

(** The digits [repr] chooses read back as the float. *)
Lemma shortest_reads_back (m : positive) (e : Z) (fuel : nat) :
  bounded PyFloat.prec PyFloat.emax m e = true → e < 0 →
  let decpt := PyStr.decimal_point (Z.pos m) (2 ^ (- e)) e in
  ∀ n cc n',
    n + Z.of_nat fuel = 17 →
    PyStr.shortest fuel m e (Z.pos m) (2 ^ (- e)) decpt n = (cc, n') →
    PyFloat.of_decimal false cc (- (n' - decpt)) = S754_finite false m e.
Proof.
  intros Hb He decpt.
  induction fuel as [|fuel IH]; intros n cc n' Hn; simpl.
  - assert (n = 17) as -> by lia.
    destruct (candidate_forced m e (Z.pos m) (2 ^ (- e)) decpt 17)
      as [c' Hc]. rewrite Hc. intros [= <- <-]. simpl.
    eapply candidate_checked; [|exact Hc]. right.
    destruct (decimal_point_17 m e Hb He) as [Hsh Hbig]. fold decpt in Hsh, Hbig.
    destruct (Z.leb_spec 0 (17 - decpt)) as [_|]; [|lia].
    by apply seventeen_digits.
  - destruct (PyStr.candidate false _ _ _ _ _ _) as [c'|] eqn:Hc.
    + intros [= <- <-]. eapply candidate_checked; [by left|exact Hc].
    + apply IH. lia.
Qed.

Lemma strip_zeros_rev_spec (l : list ascii) :
  ∃ j : nat, l = replicate j "0"%char ++ PyStr.strip_zeros_rev l.
Proof.
  induction l as [|c l [j IH]]; simpl; [by exists 0%nat|].
  destruct (Ascii.eqb_spec c "0") as [->|Hc].
  - exists (S j). simpl. by rewrite <- IH.
  - by exists 0%nat.
Qed.

Lemma rev_replicate {A} (j : nat) (a : A) : rev (replicate j a) = replicate j a.
Proof.
  induction j as [|j IH]; [done|]. simpl. rewrite IH.
  clear IH. induction j as [|j IH]; [done|]. simpl. by rewrite IH.
Qed.

Lemma digits_value_app (a b : list ascii) :
  PyStr.digits_value (a ++ b)
  = fold_left (λ acc c, 10 * acc + PyStr.digit_value c) b (PyStr.digits_value a).
Proof. unfold PyStr.digits_value. by rewrite fold_left_app. Qed.

Lemma digits_value_zeros (j : nat) : ∀ acc,
  fold_left (λ acc c, 10 * acc + PyStr.digit_value c)
    (replicate j "0"%char) acc
  = acc * 10 ^ Z.of_nat j.
Proof.
  induction j as [|j IH]; intros acc; simpl replicate; simpl fold_left.
  - simpl. lia.
  - rewrite IH. change (PyStr.digit_value "0") with 0.
    rewrite Nat2Z.inj_succ, Z.pow_succ_r by lia. lia.
Qed.

(** The digits of [repr], with the place of the decimal point, read back
    as the float. *)
Lemma repr_digits_reads_back (m : positive) (e : Z) :
  bounded PyFloat.prec PyFloat.emax m e = true → e < 0 →
  let ds := (PyStr.repr_digits m e).1 in
  let decpt := (PyStr.repr_digits m e).2 in
  Forall digit ds ∧ ds ≠ [] ∧ 0 < PyStr.digits_value ds
  ∧ PyFloat.of_decimal false (PyStr.digits_value ds)
      (decpt - Z.of_nat (length ds))
    = S754_finite false m e.
Proof.
  intros Hb He ds decpt.
  pose proof (repr_digits_digits m e) as Hd.
  pose proof (repr_digits_nonempty m e) as Hne.
  fold ds in Hd, Hne. split; [done|]. split; [done|].
  unfold ds, decpt in *. clear ds decpt.
  unfold PyStr.repr_digits in *.
  destruct (Z.leb_spec 0 e) as [|_]; [lia|].
  set (decpt := PyStr.decimal_point (Z.pos m) (2 ^ (- e)) e) in *.
  destruct (PyStr.shortest 16 m e (Z.pos m) (2 ^ (- e)) decpt 1)
    as [cc n] eqn:Hs.
  cbn [fst snd] in *.
  pose proof (shortest_reads_back m e 16 Hb He 1 cc n ltac:(lia) Hs) as Hrb.
  assert (0 < cc) as Hcc.
  { eapply (shortest_positive 16 m e (Z.pos m) (2 ^ (- e)) 1 cc n);
      [done|apply pow2_pos; lia| |lia|exact Hs].
    rewrite Z2Nat.id by lia.
    assert (2 ^ (- e) ≤ 10 ^ (- e)) by (apply Z.pow_le_mono_l; lia). nia. }
  set (full := list_ascii_of_string (PyStr.of_int cc)) in *.
  destruct (strip_zeros_rev_spec (rev full)) as [j Hj].
  set (ds := rev (PyStr.strip_zeros_rev (rev full))) in *.
  assert (full = ds ++ replicate j "0"%char) as Hfull.
  { rewrite <- (rev_involutive full), Hj, rev_app_distr, rev_replicate.
    done. }
  assert (cc = PyStr.digits_value ds * 10 ^ Z.of_nat j) as Hval.
  { rewrite <- (digits_value_of_int cc) at 1 by lia. fold full.
    by rewrite Hfull, digits_value_app, digits_value_zeros. }
  assert (0 < PyStr.digits_value ds) as Hpos.
  { assert (0 < 10 ^ Z.of_nat j) by (apply pow10_pos; lia). nia. }
  split; [done|].
  rewrite <- Hrb, Hval, of_decimal_zeros by lia.
  f_equal. rewrite Hfull, length_app, length_replicate. lia.
Qed.

End ReprDigits.

(* ===================================================================== *)
(** * Reading the text of [repr] *)
(* ===================================================================== *)

Section ReadRepr.

Lemma nchar_not_underscore (c : ascii) : nchar c → c ≠ "_"%char.
Proof. intros Hc ->. discriminate Hc. Qed.

Lemma underscores_ok_nchars (l : list ascii) : ∀ prev,
  Forall nchar l → PyStr.underscores_ok prev l = true.
Proof.
  induction l as [|c l IH]; intros prev Hl; simpl; [done|].
  inversion_clear Hl as [|? ? Hc Hl'].
  destruct (Ascii.eqb_spec c "_") as [->|_]; [discriminate Hc|].
  by apply IH.
Qed.

Lemma remove_underscores_nchars (l : list ascii) :
  Forall nchar l → PyStr.remove_underscores l = l.
Proof.
  unfold PyStr.remove_underscores.
  induction 1 as [|c l Hc _ IH]; [done|].
  rewrite filter_cons_True by by apply nchar_not_underscore. by rewrite IH.
Qed.

(** [float] on a text of the characters of numbers is [parse_float] on
    it. *)
Lemma to_float_nchars (t : list ascii) :
  Forall nchar t →
  PyStr.to_float (string_of_list_ascii t) = PyStr.parse_float t.
Proof.
  intros Ht. unfold PyStr.to_float.
  rewrite strip_nchars by by rewrite list_ascii_of_string_of_list_ascii.
  rewrite list_ascii_of_string_of_list_ascii.
  by rewrite underscores_ok_nchars, remove_underscores_nchars.
Qed.

Lemma span_digits_stop (ds : list ascii) (c : ascii) (rest : list ascii) :
  Forall digit ds → PyStr.isdigit c = false →
  PyStr.span_digits (ds ++ c :: rest) = (ds, c :: rest).
Proof.
  intros Hd Hc. induction Hd as [|d ds Hd _ IH]; simpl.
  - by rewrite Hc.
  - by rewrite Hd, IH.
Qed.

Lemma digits_value_leading_zeros (j : nat) (ds : list ascii) :
  PyStr.digits_value (replicate j "0"%char ++ ds) = PyStr.digits_value ds.
Proof.
  rewrite digits_value_app. unfold PyStr.digits_value.
  by rewrite digits_value_zeros.
Qed.

Lemma digits_value_trailing_zeros (ds : list ascii) (j : nat) :
  PyStr.digits_value (ds ++ replicate j "0"%char)
  = PyStr.digits_value ds * 10 ^ Z.of_nat j.
Proof. by rewrite digits_value_app, digits_value_zeros. Qed.

(** The exponent of [repr] reads back. *)
Lemma parse_exponent_text (ex : Z) :
  PyStr.parse_exponent ("e"%char :: PyStr.exponent_text ex) = Some ex.
Proof.
  unfold PyStr.parse_exponent, PyStr.exponent_text.
  change (Ascii.eqb (PyStr.lower "e") "e") with true. cbv iota.
  set (a := list_ascii_of_string (PyStr.of_int (Z.abs ex))).
  assert (Forall digit a) as Ha by (apply of_int_digits; lia).
  assert (PyStr.digits_value a = Z.abs ex) as Hv
    by (apply digits_value_of_int; lia).
  assert (a ≠ []) as Hne.
  { unfold a. pose proof (of_int_nonempty (Z.abs ex)).
    by destruct (PyStr.of_int (Z.abs ex)). }
  set (padded := if Z.abs ex <? 10 then "0"%char :: a else a).
  assert (Forall digit padded ∧ padded ≠ []
          ∧ PyStr.digits_value padded = Z.abs ex) as (Hp & Hpn & Hpv).
  { unfold padded. destruct (Z.abs ex <? 10); [|done].
    split_and!; [by constructor|done|].
    by rewrite <- Hv, <- (digits_value_leading_zeros 1 a). }
  assert (PyStr.split_sign
            ((if ex <? 0 then "-"%char else "+"%char) :: padded)
          = (ex <? 0, padded)) as ->.
  { by destruct (ex <? 0). }
  rewrite (span_digits_all _ Hp). destruct padded as [|c p]; [done|].
  rewrite Hpv. f_equal. destruct (Z.ltb_spec ex 0); lia.
Qed.

Lemma parse_exponent_nil : PyStr.parse_exponent [] = Some 0.
Proof. reflexivity. Qed.

Lemma isdigit_point : PyStr.isdigit "." = false.
Proof. reflexivity. Qed.

Lemma isdigit_e : PyStr.isdigit "e" = false.
Proof. reflexivity. Qed.

(** [parse_number] on digits, a point and digits. *)
Lemma parse_number_point (neg : bool) (ip fp : list ascii) :
  Forall digit ip → Forall digit fp → ip ++ fp ≠ [] →
  PyStr.parse_number neg (ip ++ "."%char :: fp)
  = Some (PyFloat.of_decimal neg (PyStr.digits_value (ip ++ fp))
            (- Z.of_nat (length fp))).
Proof.
  intros Hi Hf Hne. unfold PyStr.parse_number.
  rewrite (span_digits_stop ip "." fp Hi isdigit_point).
  change (Ascii.eqb "." ".") with true. cbv iota.
  rewrite (span_digits_all fp Hf).
  destruct (ip ++ fp) as [|c l] eqn:Hl; [done|].
  rewrite parse_exponent_nil. simpl. do 2 f_equal.
Qed.

(** [parse_number] on digits, a point, digits and an exponent. *)
Lemma parse_number_point_exp (neg : bool) (ip fp : list ascii) (ex : Z) :
  Forall digit ip → Forall digit fp → ip ++ fp ≠ [] →
  PyStr.parse_number neg
    (ip ++ "."%char :: fp ++ "e"%char :: PyStr.exponent_text ex)
  = Some (PyFloat.of_decimal neg (PyStr.digits_value (ip ++ fp))
            (ex - Z.of_nat (length fp))).
Proof.
  intros Hi Hf Hne. unfold PyStr.parse_number.
  rewrite (span_digits_stop ip "." _ Hi isdigit_point).
  change (Ascii.eqb "." ".") with true. cbv iota.
  rewrite (span_digits_stop fp "e" _ Hf isdigit_e).
  destruct (ip ++ fp) as [|c l] eqn:Hl; [done|].
  by rewrite parse_exponent_text.
Qed.

(** [parse_number] on digits and an exponent. *)
Lemma parse_number_exp (neg : bool) (ip : list ascii) (ex : Z) :
  Forall digit ip → ip ≠ [] →
  PyStr.parse_number neg (ip ++ "e"%char :: PyStr.exponent_text ex)
  = Some (PyFloat.of_decimal neg (PyStr.digits_value ip) ex).
Proof.
  intros Hi Hne. unfold PyStr.parse_number.
  rewrite (span_digits_stop ip "e" _ Hi isdigit_e).
  change (Ascii.eqb "e" ".") with false. cbv iota.
  rewrite app_nil_r. destruct ip as [|c l]; [done|].
  rewrite parse_exponent_text. simpl. do 2 f_equal. lia.
Qed.

End ReadRepr.

Section RoundTripRepr.

(** The sign of a decimal is the sign of the float. *)
Lemma finish_sign (s : bool) (mrs : shr_record) (E : Z) (m : positive) (e : Z) :
  finish false mrs E = S754_finite false m e →
  finish s mrs E = S754_finite s m e.
Proof.
  unfold finish. destruct (shr_fexp _ _ _ _ _) as [mrs' e'].
  destruct (shr_m mrs'); [done| |done].
  destruct (e' <=? _); [|done]. by intros [= -> ->].
Qed.

Lemma of_decimal_sign (s : bool) (c k : Z) (m : positive) (e : Z) :
  PyFloat.of_decimal false c k = S754_finite false m e →
  PyFloat.of_decimal s c k = S754_finite s m e.
Proof.
  destruct (Z.lt_ge_cases 0 c) as [Hc|Hc].
  - destruct (of_decimal_located false c k Hc) as (L1 & mrs1 & -> & Hl1).
    destruct (of_decimal_located s c k Hc) as (L2 & mrs2 & -> & Hl2).
    destruct (located_unique _ _ _ _ _ _ _ _
                (decimal_num_pos c k Hc) (decimal_den_pos k)
                (decimal_num_pos c k Hc) (decimal_den_pos k) eq_refl Hl1 Hl2)
      as [-> ->].
    apply finish_sign.
  - unfold PyFloat.of_decimal. by destruct c.
Qed.

(** The layout of [repr] reads back as the decimal of its digits. *)
Lemma parse_number_layout (neg : bool) (ds : list ascii) (decpt : Z) :
  Forall digit ds → ds ≠ [] → 0 < PyStr.digits_value ds →
  PyStr.parse_number neg
    (if PyStr.use_exp decpt then PyStr.exponential ds decpt
     else PyStr.positional ds decpt)
  = Some (PyFloat.of_decimal neg (PyStr.digits_value ds)
            (decpt - Z.of_nat (length ds))).
Proof.
  intros Hd Hne Hpos. destruct (PyStr.use_exp decpt).
  - unfold PyStr.exponential. destruct ds as [|d [|d' ds']]; [done| |].
    + change (d :: "e"%char :: PyStr.exponent_text (decpt - 1))
        with ([d] ++ "e"%char :: PyStr.exponent_text (decpt - 1)).
      rewrite parse_number_exp by done. do 2 f_equal.
    + inversion_clear Hd as [|? ? Hd1 Hd2].
      change (d :: "."%char :: (d' :: ds') ++
                "e"%char :: PyStr.exponent_text (decpt - 1))
        with ([d] ++ "."%char :: (d' :: ds') ++
                "e"%char :: PyStr.exponent_text (decpt - 1)).
      rewrite parse_number_point_exp; [|by constructor|done|done].
      simpl app. do 2 f_equal. simpl length. lia.
  - unfold PyStr.positional.
    destruct (Z.leb_spec decpt 0) as [H0|H0];
      [|destruct (Z.leb_spec (Z.of_nat (length ds)) decpt) as [Hl|Hl]].
    + unfold PyStr.zeros.
      change ("0"%char :: "."%char :: replicate (Z.to_nat (- decpt)) "0"%char ++ ds)
        with (["0"%char] ++
                "."%char :: (replicate (Z.to_nat (- decpt)) "0"%char ++ ds)).
      rewrite parse_number_point; [|by repeat constructor| |done].
      * change (["0"%char] ++ replicate (Z.to_nat (- decpt)) "0"%char ++ ds)
          with (replicate (S (Z.to_nat (- decpt))) "0"%char ++ ds).
        rewrite digits_value_leading_zeros. do 2 f_equal.
        rewrite length_app, length_replicate. lia.
      * apply Forall_app. split; [by apply Forall_replicate|done].
    + unfold PyStr.zeros.
      set (z := Z.to_nat (decpt - Z.of_nat (length ds))).
      replace (ds ++ replicate z "0"%char ++ ["."%char; "0"%char])
        with ((ds ++ replicate z "0"%char) ++ "."%char :: ["0"%char])
        by by rewrite <- app_assoc.
      rewrite parse_number_point;
        [|apply Forall_app; split; [done|by apply Forall_replicate]
         |by repeat constructor|by destruct ds].
      replace ((ds ++ replicate z "0"%char) ++ ["0"%char])
        with (ds ++ replicate (S z) "0"%char).
      2:{ rewrite <- app_assoc. f_equal.
          change ["0"%char] with (replicate 1 "0"%char).
          rewrite <- replicate_add. f_equal. lia. }
      rewrite digits_value_trailing_zeros, of_decimal_zeros by lia.
      do 2 f_equal. simpl length. unfold z. lia.
    + rewrite parse_number_point.
      * rewrite take_drop. do 2 f_equal. rewrite length_drop. lia.
      * by apply Forall_take.
      * by apply Forall_drop.
      * by rewrite take_drop.
Qed.

(** The layout of [repr] begins with a digit. *)
Lemma layout_head (ds : list ascii) (decpt : Z) :
  Forall digit ds → ds ≠ [] →
  ∃ c rest,
    (if PyStr.use_exp decpt then PyStr.exponential ds decpt
     else PyStr.positional ds decpt) = c :: rest
    ∧ digit c.
Proof.
  intros Hd Hne. destruct ds as [|d ds]; [done|].
  inversion_clear Hd as [|? ? Hd1 Hd2].
  destruct (PyStr.use_exp decpt).
  - unfold PyStr.exponential. destruct ds; by eexists _, _.
  - unfold PyStr.positional.
    destruct (Z.leb_spec decpt 0) as [H0|H0];
      [|destruct (Z.leb_spec (Z.of_nat (length (d :: ds))) decpt) as [Hl|Hl]].
    + by eexists _, _.
    + by eexists _, _.
    + destruct (Z.to_nat decpt) as [|n] eqn:Hn; [lia|]. by eexists _, _.
Qed.

Lemma parse_float_layout (neg : bool) (ds : list ascii) (decpt : Z) :
  Forall digit ds → ds ≠ [] → 0 < PyStr.digits_value ds →
  let body := if PyStr.use_exp decpt then PyStr.exponential ds decpt
              else PyStr.positional ds decpt in
  PyStr.parse_float (if neg then "-"%char :: body else body)
  = Some (PyFloat.of_decimal neg (PyStr.digits_value ds)
            (decpt - Z.of_nat (length ds))).
Proof.
  intros Hd Hne Hpos body.
  pose proof (parse_number_layout neg ds decpt Hd Hne Hpos) as Hp.
  fold body in Hp.
  destruct (layout_head ds decpt Hd Hne) as (c & rest & Hb & Hc).
  fold body in Hb. rewrite Hb in Hp |- *.
  destruct (digit_head c (string_of_list_ascii (map PyStr.lower rest)) Hc)
    as (Hinf & Hinfinity & Hnan & _ & _).
  unfold PyStr.parse_float.
  assert (PyStr.split_sign (if neg then "-"%char :: c :: rest else c :: rest)
          = (neg, c :: rest)) as ->.
  { destruct neg; [apply split_sign_minus|by apply split_sign_digit]. }
  cbn [map string_of_list_ascii].
  rewrite Hinf, Hinfinity, Hnan. simpl orb. cbv iota. exact Hp.
Qed.

(** [float(repr(x))] is [x], for a binary64 float with a fractional
    part. *)
Lemma repr_round_trip (s : bool) (m : positive) (e : Z) :
  bounded PyFloat.prec PyFloat.emax m e = true → e < 0 →
  PyStr.to_float (PyStr.repr (S754_finite s m e)) = Some (S754_finite s m e).
Proof.
  intros Hb He.
  destruct (repr_digits_reads_back m e Hb He) as (Hd & Hne & Hpos & Hrb).
  pose proof (repr_nchars (S754_finite s m e)) as Hn.
  unfold PyStr.repr in *. unfold PyStr.repr_finite in *.
  destruct (PyStr.repr_digits m e) as [ds decpt]. cbn [fst snd] in *.
  set (body := if PyStr.use_exp decpt then PyStr.exponential ds decpt
               else PyStr.positional ds decpt) in *.
  assert ((if s then String "-" (string_of_list_ascii body)
           else string_of_list_ascii body)
          = string_of_list_ascii (if s then "-"%char :: body else body)) as Heq
    by by destruct s.
  rewrite Heq in Hn |- *. rewrite list_ascii_of_string_of_list_ascii in Hn.
  rewrite (to_float_nchars _ Hn).
  unfold body. rewrite (parse_float_layout s ds decpt Hd Hne Hpos).
  f_equal. by apply of_decimal_sign.
Qed.

(** [float] reads the text of a number as the number; the sign of a
    zero is lost. *)
Lemma number_text_round_trip (x : float) :
  binary64 x →
  PyStr.to_float (number_text x) = Some (unsigned_zero x).
Proof.
  intros Hv. destruct (PyFloat.is_integer x) eqn:Hi.
  - by apply whole_round_trip.
  - unfold number_text, format_number. rewrite Hi.
    destruct x as [s|[]| |s m e]; [done|done|done|done|].
    simpl in Hi. destruct (Z.leb_spec 0 e) as [|He]; [done|].
    by apply repr_round_trip.
Qed.

End RoundTripRepr.

(* ===================================================================== *)
(** * The numbers in the output file (C2) *)
(* ===================================================================== *)

Section ReaderValues.

(** [float] returns binary64 values only. *)
Lemma to_float_binary64 (t : string) (x : float) :
  PyStr.to_float t = Some x → binary64 x.
Proof.
  unfold PyStr.to_float. destruct (PyStr.underscores_ok _ _); [|done].
  unfold PyStr.parse_float. destruct (PyStr.split_sign _) as [neg r].
  destruct (_ || _); [by intros [= <-]|].
  destruct (String.eqb _ _); [by intros [= <-]|].
  unfold PyStr.parse_number. destruct (PyStr.span_digits r) as [ip r1].
  destruct (match r1 with
            | [] => ([], [])
            | c :: r2 =>
                if Ascii.eqb c "." then PyStr.span_digits r2 else ([], r1)
            end) as [fp r'].
  destruct (ip ++ fp) as [|d ds]; [done|].
  destruct (PyStr.parse_exponent r') as [ex|]; [|done].
  simpl. intros [= <-]. apply of_decimal_binary64.
Qed.

Lemma read_numbers_from_file_Ok_inv (fs : filesystem) (filename : string)
    (numbers : list float) :
  read_numbers_from_file fs filename = Ok numbers →
  ∃ content, open_read fs filename = Ok content
             ∧ read_loop 1 (PyStr.readlines content) [] = Ok numbers.
Proof.
  intros Hr. destruct (open_read fs filename) as [content|e] eqn:Ho.
  - exists content. by rewrite (read_numbers_from_file_open _ _ _ Ho) in Hr.
  - unfold read_numbers_from_file in Hr. rewrite Ho in Hr. by destruct e.
Qed.

(** The reader returns binary64 values only. *)
Lemma reader_binary64 (fs : filesystem) (filename : string)
    (numbers : list float) :
  read_numbers_from_file fs filename = Ok numbers → Forall binary64 numbers.
Proof.
  intros (content & _ & Hl)%read_numbers_from_file_Ok_inv.
  apply read_loop_Ok in Hl as (values & -> & Hv). simpl.
  induction Hv as [|t v ts vs Htv _ IH]; constructor; [|done].
  by eapply to_float_binary64.
Qed.

Lemma same_number_unsigned_zero (x : float) : same_number x (unsigned_zero x).
Proof. destruct x; [right; by eexists _, _|by left..]. Qed.

(** The lines of the texts of binary64 numbers are read as the numbers. *)
Lemma read_loop_number_texts (numbers : list float) :
  Forall binary64 numbers →
  read_loop 1 (PyStr.readlines (render_lines (number_text <$> numbers))) []
  = Ok (unsigned_zero <$> numbers).
Proof.
  intros Hv. apply read_loop_Ok.
  exists (unsigned_zero <$> numbers). split; [done|].
  assert (PyStr.readlines (render_lines (number_text <$> numbers))
          = (λ t, t +:+ String PyStr.LF "") <$> (number_text <$> numbers)) as ->.
  { apply lines_of_render, Forall_fmap, Forall_forall. intros x _.
    apply nchar_newline_free, number_text_nchars. }
  rewrite non_blank_lines_of_numbers.
  apply Forall2_fmap, Forall_Forall2_diag.
  eapply Forall_impl; [exact Hv|]. intros x Hx. by apply number_text_round_trip.
Qed.

End ReaderValues.

(** C2: when the reader returns [numbers] and the output file can be
    written, the program leaves in the output file the lines of a list
    [written] of numbers, one line by [format_number] for each, and
    [written] holds the values of [numbers], each as often.  The numbers
    in the output file are those numbers: the loop of the reader reads
    the lines of the file as a list [back] that holds, place by place,
    the numbers of [written], a zero for a zero ([-0.0] is written as
    ["0"]); and this is what [read_numbers_from_file] returns for the
    output file when the file can be opened for reading. *)
Theorem pipeline_preserves_values
    (prog input_file output_file : string) (fs0 : filesystem)
    (numbers : list float) :
  read_numbers_from_file fs0 input_file = Ok numbers →
  write_fault fs0 !! output_file = None →
  ∃ written texts back,
    written ≡ₚ numbers
    ∧ Forall2 (λ v t, format_number v = Ok t) written texts
    ∧ files (fs (run [prog; input_file; output_file] fs0).2) !! output_file
      = Some (render_lines texts)
    ∧ read_loop 1 (PyStr.readlines (render_lines texts)) [] = Ok back
    ∧ Forall2 same_number written back
    ∧ (read_fault fs0 !! output_file = None →
       read_numbers_from_file
         (fs (run [prog; input_file; output_file] fs0).2) output_file
       = Ok back).
Proof.
  intros Hr Hw.
  exists (sort_numbers numbers), (number_text <$> sort_numbers numbers),
    (unsigned_zero <$> sort_numbers numbers).
  assert (Forall binary64 (sort_numbers numbers)) as Hv.
  { unfold sort_numbers. rewrite sorted_Permutation.
    by eapply reader_binary64. }
  assert (fs (run [prog; input_file; output_file] fs0).2
          = with_output fs0 output_file (sort_numbers numbers)) as Hfs.
  { rewrite (run_report prog _ _ _ _ Hr Hw). cbn zeta.
    by destruct (head (sort_numbers numbers)), (last (sort_numbers numbers)). }
  pose proof (read_loop_number_texts _ Hv) as Hback.
  split_and!.
  - apply sorted_Permutation.
  - apply number_text_format.
  - rewrite Hfs. apply lookup_insert_eq.
  - done.
  - apply Forall2_fmap_r, Forall_Forall2_diag, Forall_forall.
    intros x _. apply same_number_unsigned_zero.
  - intros Hrf. rewrite Hfs.
    erewrite read_numbers_from_file_open; [done|].
    unfold open_read, with_output. simpl. by rewrite Hrf, lookup_insert_eq.
Qed.

Lemma pipeline_preserves_values_witness :
  let fs0 := one_file "in.txt"
               (render_lines ["10"; "20.5"; "-0.0"; "5"; "1e-5"; "inf"]) in
  ∃ written texts back,
    written ≡ₚ [float_10; float_20_5; S754_zero true; literal "5";
                float_1e_5; PyFloat.inf]
    ∧ Forall2 (λ v t, format_number v = Ok t) written texts
    ∧ files (fs (run ["number_sorter.py"; "in.txt"; "out.txt"] fs0).2)
        !! "out.txt"
      = Some (render_lines texts)
    ∧ read_loop 1 (PyStr.readlines (render_lines texts)) [] = Ok back
    ∧ Forall2 same_number written back
    ∧ (read_fault fs0 !! "out.txt" = None →
       read_numbers_from_file
         (fs (run ["number_sorter.py"; "in.txt"; "out.txt"] fs0).2) "out.txt"
       = Ok back).
Proof.
  intros fs0.
  apply (pipeline_preserves_values "number_sorter.py" "in.txt" "out.txt" fs0).
  - vm_compute. reflexivity.
  - vm_compute. reflexivity.
Defined.

(** X12: a number survives writing and reading.  For every binary64
    float, the text [write_numbers_to_file] writes is read by [float]
    as the same number: as the float itself when it has a fractional
    part or is not finite, where the text is its [repr], and as the
    float with the sign of a zero dropped when it is a whole number. *)
Theorem written_number_reads_back (x : float) :
  binary64 x →
  ∃ text back,
    format_number x = Ok text
    ∧ PyStr.to_float text = Some back
    ∧ same_number x back
    ∧ back = unsigned_zero x
    ∧ (PyFloat.is_integer x = false → text = PyStr.repr x ∧ back = x).
Proof.
  intros Hv. exists (number_text x), (unsigned_zero x).
  split_and!.
  - unfold number_text. by destruct (format_number_total x) as [t ->].
  - by apply number_text_round_trip.
  - apply same_number_unsigned_zero.
  - done.
  - intros Hi. unfold number_text, format_number. rewrite Hi.
    split; [done|]. by destruct x.
Qed.

Lemma written_number_reads_back_witness :
  ∃ text back,
    format_number float_40_7 = Ok text
    ∧ PyStr.to_float text = Some back
    ∧ same_number float_40_7 back
    ∧ back = unsigned_zero float_40_7
    ∧ (PyFloat.is_integer float_40_7 = false →
       text = PyStr.repr float_40_7 ∧ back = float_40_7).
Proof.
  apply (written_number_reads_back float_40_7). vm_compute. reflexivity.
Defined.

(** X13: the numbers of the reader are binary64 values.  Whatever the
    text, a float that [float] returns for it is a binary64 value: a
    zero, an infinity, NaN, or a finite float with a mantissa of at most
    53 bits in canonical form and an exponent in range; so are all the
    numbers that [read_numbers_from_file] returns. *)
Theorem reader_returns_binary64 :
  (∀ (t : string) (x : float), PyStr.to_float t = Some x → binary64 x)
  ∧ (∀ (fs0 : filesystem) (filename : string) (numbers : list float),
       read_numbers_from_file fs0 filename = Ok numbers →
       Forall binary64 numbers).
Proof.
  split.
  - apply to_float_binary64.
  - apply reader_binary64.
Qed.

Lemma reader_returns_binary64_witness :
  PyStr.to_float "1e400" = Some PyFloat.inf
  ∧ binary64 PyFloat.inf
  ∧ read_numbers_from_file
      (one_file "in.txt" (render_lines ["0.1"; "4.9e-324"; "1e22"])) "in.txt"
    = Ok [literal "0.1"; literal "4.9e-324"; literal "1e22"]
  ∧ Forall binary64 [literal "0.1"; literal "4.9e-324"; literal "1e22"].
Proof.
  destruct reader_returns_binary64 as [Hfloat Hreader].
  assert (PyStr.to_float "1e400" = Some PyFloat.inf) as H1
    by (vm_compute; reflexivity).
  assert (read_numbers_from_file
            (one_file "in.txt" (render_lines ["0.1"; "4.9e-324"; "1e22"]))
            "in.txt"
          = Ok [literal "0.1"; literal "4.9e-324"; literal "1e22"]) as H2
    by (vm_compute; reflexivity).
  split_and!; [exact H1|exact (Hfloat _ _ H1)|exact H2|exact (Hreader _ _ _ H2)].
Defined.

(* ===================================================================== *)
(** * The stable sort of numbers without NaN is one list *)
(* ===================================================================== *)

Section OneStableSort.

Lemma le_antisym (a b : float) :
  PyFloat.le a b = true → PyFloat.le b a = true → PyFloat.eq a b = true.
Proof.
  unfold PyFloat.le, PyFloat.eq, SFleb, SFeqb. rewrite (SFcompare_swap a b).
  by destruct (SFcompare a b) as [[]|].
Qed.

Lemma eq_sym_float (a b : float) :
  PyFloat.eq a b = true → PyFloat.eq b a = true.
Proof.
  unfold PyFloat.eq, SFeqb. rewrite (SFcompare_swap a b).
  by destruct (SFcompare a b) as [[]|].
Qed.

Lemma sorted_stable (x : float) (l : list float) :
  filter (λ y, PyFloat.eq y x = true) (sorted l)
  = filter (λ y, PyFloat.eq y x = true) l.
Proof.
  induction l as [|a l IH]; simpl; [done|].
  by rewrite filter_insert, !filter_cons, IH.
Qed.

Lemma non_descending_StronglySorted (l : list float) :
  non_descending l → StronglySorted (λ a b, PyFloat.le a b = true) l.
Proof.
  intros H. apply Sorted_StronglySorted.
  - intros a b c. apply le_trans.
  - by apply adjacent_Sorted.
Qed.

(** Two lists in non-descending order with the same numbers, in which
    equal numbers are in the same order, are the same list. *)
Lemma stable_sorted_unique (l1 : list float) : ∀ l2,
  nan_free l1 → l1 ≡ₚ l2 →
  StronglySorted (λ a b, PyFloat.le a b = true) l1 →
  StronglySorted (λ a b, PyFloat.le a b = true) l2 →
  (∀ x, filter (λ y, PyFloat.eq y x = true) l1
        = filter (λ y, PyFloat.eq y x = true) l2) →
  l1 = l2.
Proof.
  induction l1 as [|a l1 IH]; intros l2 Hn Hp Hs1 Hs2 Hf.
  - by apply Permutation_nil_l in Hp.
  - destruct l2 as [|b l2]; [by apply Permutation_nil_r in Hp|].
    inversion_clear Hn as [|? ? Ha Hn'].
    apply StronglySorted_inv in Hs1 as [Hs1 Ha1].
    apply StronglySorted_inv in Hs2 as [Hs2 Hb2].
    rewrite Forall_forall in Ha1, Hb2.
    assert (PyFloat.le a a = true) as Haa by by apply le_refl.
    assert (PyFloat.le a b = true) as Hab.
    { assert (b ∈ a :: l1) as Hin by (rewrite Hp; left).
      apply elem_of_cons in Hin as [->|Hin]; [done|by apply Ha1]. }
    assert (PyFloat.le b a = true) as Hba.
    { assert (a ∈ b :: l2) as Hin by (rewrite <- Hp; left).
      apply elem_of_cons in Hin as [->|Hin]; [done|by apply Hb2]. }
    assert (a = b) as <-.
    { pose proof (Hf a) as Hfa. rewrite !filter_cons in Hfa.
      rewrite decide_True in Hfa by by apply le_antisym.
      rewrite decide_True in Hfa by by apply le_antisym.
      by injection Hfa. }
    f_equal. apply IH; [done|by eapply Permutation_cons_inv|done|done|].
    intros x. specialize (Hf x). rewrite !filter_cons in Hf.
    destruct (decide (PyFloat.eq a x = true)); [by injection Hf|done].
Qed.

End OneStableSort.

(** X14: the stable sort of numbers without NaN is one list.  [sorted]
    returns a list in ascending order in which equal elements keep their
    order.  For numbers without NaN there is one such list,
    and it is the list that [sort_numbers] returns here: whatever list
    holds the numbers of [numbers], each as often, in non-descending
    order and with equal numbers in the order of [numbers], is
    [sort_numbers numbers]. *)
Theorem stable_sort_unique (numbers result : list float) :
  nan_free numbers →
  result ≡ₚ numbers →
  non_descending result →
  (∀ x, filter (λ y, PyFloat.eq y x = true) result
        = filter (λ y, PyFloat.eq y x = true) numbers) →
  result = sort_numbers numbers.
Proof.
  intros Hn Hp Hs Hf. unfold sort_numbers.
  apply stable_sorted_unique.
  - unfold nan_free. by rewrite Hp.
  - by rewrite sorted_Permutation.
  - by apply non_descending_StronglySorted.
  - by apply sort_numbers_StronglySorted.
  - intros x. by rewrite sorted_stable.
Qed.

Lemma stable_sort_unique_witness :
  let numbers := [float_10; S754_zero false; float_1; S754_zero true] in
  let result := [S754_zero false; S754_zero true; float_1; float_10] in
  result = sort_numbers numbers.
Proof.
  intros numbers result.
  apply (stable_sort_unique numbers result).
  - repeat constructor.
  - exact (sorted_Permutation numbers).
  - intros [|[|[|[|i]]]] a b Ha Hb; simplify_eq/=; reflexivity.
  - intros x. exact (sorted_stable x numbers).
Defined.
